(** * Slot assignment, interruption and completion engine

    A shallow embedding of the slot-based part of
    [heroku_form/code/form_implementation.py] and of the column list of
    [heroku_form/code/config.py].

    The evaluation records are the JSON objects of [evaluation_records.json]:
    dictionaries from field names to JSON values.  The Python functions read
    the whole file, mutate one dictionary of the loaded list in place and
    write the whole list back, so the model keeps the loaded list and refers
    to the mutated dictionary by its position in it.  Everything the functions
    do to the outside (the JSON file, the Results worksheet, the Streamlit
    messages and session state) is a field of [world]; the readings of the
    clock and the random draw are explicit arguments. *)

From Stdlib Require Import QArith DecimalString Sorted.
From stdpp Require Import gmap strings list fin_maps.

Set Warnings "-register-all".
Local Open Scope string_scope.
Local Open Scope Z_scope.

(** ** JSON values and the Python operations applied to them *)

(** A float is the rational number it stands for (no NaN, no infinity); a
    [VFloat] carries a double.  Arithmetic on floats rounds to the nearest
    double, see [binary64]. *)
Inductive value : Type :=
| VNone
| VBool (b : bool)
| VInt (z : Z)
| VFloat (q : Q)
| VStr (s : string)
| VList (l : list value).

Abbreviation record := (gmap string value).

(** [d.get(k)] and [d.get(k, dflt)]. *)
Definition get (r : record) (k : string) : value := default VNone (r !! k).
Definition get_or (r : record) (k : string) (dflt : value) : value :=
  default dflt (r !! k).

(** The numeric view Python takes of [bool], [int] and [float]. *)
Definition to_Q (v : value) : option Q :=
  match v with
  | VBool b => Some (inject_Z (if b then 1 else 0))
  | VInt z => Some (inject_Z z)
  | VFloat q => Some q
  | _ => None
  end.

(** [a == b]. *)
Fixpoint py_eq (a b : value) {struct a} : bool :=
  match a, b with
  | VNone, VNone => true
  | VStr s, VStr t => String.eqb s t
  | VList l, VList m =>
      (fix all2 (l : list value) (m : list value) {struct l} : bool :=
         match l, m with
         | [], [] => true
         | x :: l', y :: m' => py_eq x y && all2 l' m'
         | _, _ => false
         end) l m
  | (VBool _ | VInt _ | VFloat _), (VBool _ | VInt _ | VFloat _) =>
      match to_Q a, to_Q b with
      | Some x, Some y => Qeq_bool x y
      | _, _ => false
      end
  | _, _ => false
  end.

(** Truth value of an object in a condition. *)
Definition truthy (v : value) : bool :=
  match v with
  | VNone => false
  | VBool b => b
  | VInt z => negb (z =? 0)
  | VFloat q => negb (Qeq_bool q 0)
  | VStr s => negb (String.eqb s "")
  | VList l => match l with [] => false | _ => true end
  end.

(** A dictionary is true in a condition unless it is empty. *)
Definition dict_truthy (r : record) : bool :=
  match map_to_list r with [] => false | _ => true end.

(** [s in t] on strings: [s] occurs in [t]. *)
Definition str_contains (s t : string) : bool :=
  match String.index 0%nat s t with Some _ => true | None => false end.

(** [x in c]; [None] is a [TypeError]. *)
Definition py_in (x c : value) : option bool :=
  match c with
  | VList l => Some (existsb (py_eq x) l)
  | VStr t => match x with VStr s => Some (str_contains s t) | _ => None end
  | _ => None
  end.

(** [c.append(x)]; [None] is an [AttributeError]. *)
Definition py_append (c x : value) : option value :=
  match c with
  | VList l => Some (VList (l ++ [x]))
  | _ => None
  end.

(** [int(x)] on a float truncates toward zero. *)
Definition int_of_Q (q : Q) : Z := Z.quot (Qnum q) (Zpos (Qden q)).

(** The double (IEEE 754 binary64) nearest to [q], ties going to the even
    significand; [None] when that is beyond the largest double.  [e] is the
    binary exponent of [|q|] and [u] the exponent of the last place of the
    result: 53 significant bits, or what is left of them above [2^-1074]. *)
Definition binary64 (q : Q) : option Q :=
  let q := Qred q in
  let a := Z.abs (Qnum q) in
  let d := Zpos (Qden q) in
  if a =? 0 then Some 0%Q
  else
    let e0 := Z.log2 a - Z.log2 d in
    let e := if d * 2 ^ Z.max e0 0 <=? a * 2 ^ Z.max (- e0) 0 then e0 else e0 - 1 in
    let u := Z.max (e - 52) (-1074) in
    let num := a * 2 ^ Z.max (- u) 0 in
    let den := d * 2 ^ Z.max u 0 in
    let m0 := num / den in
    let rest := num mod den in
    let m := if 2 * rest <? den then m0
             else if den <? 2 * rest then m0 + 1
             else if Z.even m0 then m0 else m0 + 1 in
    if 2 ^ 1024 <=? m * 2 ^ u then None
    else Some (Qred (Z.sgn (Qnum q) * m * 2 ^ Z.max u 0
                     # Z.to_pos (2 ^ Z.max (- u) 0))).

(** The right operand of [float - x]: a float as it is, an integer or a
    boolean converted to the nearest double; [None] is the [TypeError] of
    any other type or the [OverflowError] of an integer beyond the doubles. *)
Definition as_float (v : value) : option Q :=
  match v with
  | VBool b => Some (inject_Z (if b then 1 else 0))
  | VInt z => binary64 (inject_Z z)
  | VFloat q => Some q
  | _ => None
  end.

(** [x - y] on floats: the double nearest to the exact difference of the
    two doubles (rounding leaves a double as it is); [None] stands for an
    infinite result. *)
Definition float_sub (x y : Q) : option Q :=
  match binary64 x, binary64 y with
  | Some a, Some b => binary64 (a - b)
  | _, _ => None
  end.

(** [int(submit_time - start_time)] with [submit_time] a float: the
    difference is that of floats, and [int] truncates it.  [None] is the
    [TypeError] or [OverflowError] of the subtraction, or the [OverflowError]
    of [int] on an infinite difference. *)
Definition int_sub (submit_time : Q) (start_time : value) : option Z :=
  match as_float start_time with
  | Some s =>
      match float_sub submit_time s with
      | Some difference => Some (int_of_Q difference)
      | None => None
      end
  | None => None
  end.

(** ** Sorting by key, as [list.sort(key=...)] *)

(** Stable insertion: the new element goes in front of the first element that
    is not smaller. *)
Fixpoint insert_by {A} (lt : A → A → bool) (x : A) (l : list A) : list A :=
  match l with
  | [] => [x]
  | y :: l' => if lt y x then y :: insert_by lt x l' else x :: y :: l'
  end.

Definition sort_by {A} (lt : A → A → bool) (l : list A) : list A :=
  foldr (insert_by lt) [] l.

Definition num_lt (a b : value) : bool :=
  match to_Q a, to_Q b with
  | Some x, Some y => negb (Qle_bool y x)
  | _, _ => false
  end.

Definition str_lt (a b : value) : bool :=
  match a, b with
  | VStr s, VStr t => String.ltb s t
  | _, _ => false
  end.

Definition is_num (v : value) : bool :=
  match to_Q v with Some _ => true | None => false end.
Definition is_str (v : value) : bool :=
  match v with VStr _ => true | _ => false end.

(** The sort is stable and only uses [<] on the keys.  A list of fewer than
    two elements is not compared at all; numbers compare with numbers and
    strings with strings; any other pair of keys is a [TypeError] ([None]).
    Keys that are lists are reported as a [TypeError] too: records whose slot
    is a list are outside this model. *)
Definition py_sort {A} (key : A → value) (l : list A) : option (list A) :=
  match l with
  | [] | [_] => Some l
  | _ =>
      if forallb (λ a, is_num (key a)) l then
        Some (sort_by (λ a b, num_lt (key a) (key b)) l)
      else if forallb (λ a, is_str (key a)) l then
        Some (sort_by (λ a b, str_lt (key a) (key b)) l)
      else None
  end.

(** ** The outside world *)

(** The Streamlit messages, one constructor per call site. *)
Inductive notice : Type :=
| load_error                      (* st.error, load_evaluation_records *)
| save_error                      (* st.error, save_evaluation_records *)
| sheets_error                    (* st.error, get_results_worksheet *)
| worksheet_missing               (* st.info, get_results_worksheet *)
| worksheet_created               (* st.info, get_results_worksheet *)
| no_records                      (* st.error: no evaluation records *)
| participant_not_found (participant_id : value)            (* st.error *)
| slot_started (slot paper_id : value) (with_summary : bool)  (* st.info *)
| all_completed (participant_id : value) (completed : nat)  (* st.success *)
| current_slot_exception          (* st.error *)
| progress_exception              (* st.error *)
| interruption_target_not_found (participant_id slot paper_id : value)
| replacement_exception           (* st.error, select_replacement_paper *)
| interrupted_and_replaced (paper_id : value) (replacement : string)
                                  (* st.warning *)
| no_replacement                  (* st.error *)
| interruption_exception          (* st.error *)
| completion_target_not_found (participant_id slot : value)  (* st.error *)
| completion_save_failed          (* st.error *)
| completion_done (slot : value)  (* st.success *)
| completion_exception            (* st.error *)
| completion_sheet_warning        (* st.warning *)
| traceback_shown.                (* st.error(traceback.format_exc()) *)

Inductive severity : Type := Error | Warning | Info | Success.

Definition severity_of (n : notice) : severity :=
  match n with
  | worksheet_missing | worksheet_created | slot_started _ _ _ => Info
  | all_completed _ _ | completion_done _ => Success
  | interrupted_and_replaced _ _ | completion_sheet_warning => Warning
  | _ => Error
  end.

Abbreviation row := (list value).

Record world : Type := World {
  file : option (list record);   (* evaluation_records.json; [None] when the
                                    file is missing or is not valid JSON *)
  disk_writable : bool;          (* whether opening the file for writing
                                    succeeds *)
  sheets_up : bool;              (* whether the Results spreadsheet can be
                                    reached *)
  worksheet : option (list row); (* the Results worksheet, once created *)
  ui : list notice;              (* messages shown, oldest first *)
  session : gmap string value    (* st.session_state *)
}.

Definition say (n : notice) (w : world) : world :=
  World (file w) (disk_writable w) (sheets_up w) (worksheet w)
        (ui w ++ [n]) (session w).
Definition write_file (records : list record) (w : world) : world :=
  World (Some records) (disk_writable w) (sheets_up w) (worksheet w)
        (ui w) (session w).
Definition set_worksheet (rows : list row) (w : world) : world :=
  World (file w) (disk_writable w) (sheets_up w) (Some rows)
        (ui w) (session w).
Definition set_session (k : string) (v : value) (w : world) : world :=
  World (file w) (disk_writable w) (sheets_up w) (worksheet w)
        (ui w) (<[k := v]> (session w)).

(** The readings a call takes from its environment. *)
Record oracle : Type := Oracle {
  time_time : Q;        (* time.time() *)
  datetime_now : Q;     (* the first datetime.now() of the call *)
  datetime_now' : Q;    (* the second one *)
  random_index : nat    (* the draw behind random.choice *)
}.

(** config.py *)
Definition RESULTS_HEADERS : list string :=
  [ "participant_name"; "has_summary"; "paper_id";
    "start_time"; "end_time"; "answer_time";
    "action"; "evaluation"; "summary"; "timestamp" ].

Definition load_evaluation_records (w : world) : list record * world :=
  match file w with
  | Some records => (records, w)
  | None => ([], say load_error w)
  end.

Definition save_evaluation_records (records : list record) (w : world)
  : bool * world :=
  if disk_writable w then (true, write_file records w)
  else (false, say save_error w).

(** The worksheet is created with its header row when it does not exist
    yet.  The result tells whether a worksheet was obtained. *)
Definition get_results_worksheet (w : world) : bool * world :=
  if sheets_up w then
    match worksheet w with
    | Some _ => (true, w)
    | None =>
        (true, say worksheet_created
                 (set_worksheet [VStr <$> RESULTS_HEADERS]
                    (say worksheet_missing w)))
    end
  else (false, say sheets_error w).

Definition append_row (r : row) (w : world) : world :=
  set_worksheet (default [] (worksheet w) ++ [r]) w.

(** ** The engine *)

Section Engine.

(** [datetime.fromtimestamp(t).strftime('%Y-%m-%d %H:%M:%S')], and [str] on
    the values whose text form is not spelled out below. *)
Variable strftime : Q → string.
Variable repr : value → string.

Definition py_str (v : value) : string :=
  match v with
  | VNone => "None"
  | VBool true => "True"
  | VBool false => "False"
  | VInt z => NilZero.string_of_int (Z.to_int z)
  | VStr s => s
  | _ => repr v
  end.

(** References to the dictionaries of [records] that satisfy [P], in file
    order: the positions, counted from [i]. *)
Fixpoint refs_where (P : record → bool) (records : list record) (i : nat)
  : list nat :=
  match records with
  | [] => []
  | r :: rest =>
      if P r then i :: refs_where P rest (S i) else refs_where P rest (S i)
  end.

(** The first position whose dictionary satisfies [P]. *)
Definition first_where (P : record → bool) (records : list record)
  : option nat :=
  head (refs_where P records 0).

(** The search loops of the two handlers: [target_record] is the first
    dictionary that satisfies [P], kept by reference (its position), and the
    test [if not target_record] also rejects an empty dictionary. *)
Definition find_target (P : record → bool) (records : list record)
  : option (nat * record) :=
  match first_where P records with
  | Some i =>
      match records !! i with
      | Some r => if dict_truthy r then Some (i, r) else None
      | None => None
      end
  | None => None
  end.

(** [x.get(k, dflt)] through a reference. *)
Definition deref_get (records : list record) (k : string) (dflt : value)
    (i : nat) : value :=
  match records !! i with
  | Some r => get_or r k dflt
  | None => VNone
  end.

Definition deref_test (records : list record) (P : record → bool) (i : nat)
  : bool :=
  match records !! i with
  | Some r => P r
  | None => false
  end.

Definition belongs (participant_id : value) (r : record) : bool :=
  py_eq (get r "participant_id") participant_id.

(** [record.get("status") == "assigned" and not record.get("processed")] *)
Definition selectable (r : record) : bool :=
  py_eq (get r "status") (VStr "assigned") && negb (truthy (get r "processed")).

Definition is_completed (r : record) : bool :=
  py_eq (get r "status") (VStr "completed").

(** [len([r for r in participant_records if r.get("status") == "completed"])] *)
Definition count_completed (records : list record) (refs : list nat) : nat :=
  length (filter (λ i, deref_test records is_completed i = true) refs).

Definition current_slot_raise (w : world) : option record * world :=
  (None, say traceback_shown (say current_slot_exception w)).

Definition get_current_slot_for_participant (o : oracle)
    (participant_id : value) (w : world) : option record * world :=
  let '(records, w) := load_evaluation_records w in
  match records with
  | [] => (None, say no_records w)
  | _ =>
      let participant_records := refs_where (belongs participant_id) records 0 in
      match participant_records with
      | [] => (None, say (participant_not_found participant_id) w)
      | _ =>
          match py_sort (deref_get records "slot" (VInt 0)) participant_records with
          | None => current_slot_raise w
          | Some participant_records =>
              match find (deref_test records selectable) participant_records with
              | Some i =>
                  match records !! i with
                  | Some r =>
                      let r := <["start_timestamp" := VFloat (time_time o)]> r in
                      let records := <[i := r]> records in
                      let '(_, w) := save_evaluation_records records w in
                      match r !! "slot", r !! "paper_id", r !! "has_summary" with
                      | Some s, Some p, Some h =>
                          (Some r, say (slot_started s p (truthy h)) w)
                      | _, _, _ => current_slot_raise w
                      end
                  | None => current_slot_raise w
                  end
              | None =>
                  let completed_slots := count_completed records participant_records in
                  (None, say (all_completed participant_id completed_slots) w)
              end
          end
      end
  end.

Record progress : Type := Progress {
  completed_slots : nat;
  current_slot : value;
  total_slots : Z
}.

Definition fresh_progress : progress := Progress 0 (VInt 1) 4.

Definition get_participant_progress (participant_id : value) (w : world)
  : progress * world :=
  let '(records, w) := load_evaluation_records w in
  let participant_records := refs_where (belongs participant_id) records 0 in
  match participant_records with
  | [] => (fresh_progress, w)
  | _ =>
      let completed_slots := count_completed records participant_records in
      match py_sort (deref_get records "slot" (VInt 0)) participant_records with
      | None => (fresh_progress, say progress_exception w)
      | Some participant_records =>
          let current_slot :=
            match find (deref_test records (λ r, negb (is_completed r)))
                       participant_records with
            | Some i => deref_get records "slot" (VInt 1) i
            | None => VInt 5
            end in
          (Progress completed_slots current_slot 4, w)
      end
  end.

(** *** Interruption *)

Definition all_papers : list string := ["1"; "2"; "3"; "4"; "5"; "6"].

(** [random.choice(available_papers)] on a list that is not empty. *)
Definition random_choice (o : oracle) (available : list string) : string :=
  nth (random_index o mod length available)%nat available "".

(** [[p for p in all_papers if p not in excluded_papers]]; [None] is the
    [TypeError] of the first membership test. *)
Fixpoint available_among (papers : list string) (excluded_papers : value)
  : option (list string) :=
  match papers with
  | [] => Some []
  | p :: rest =>
      match py_in (VStr p) excluded_papers with
      | None => None
      | Some excluded =>
          match available_among rest excluded_papers with
          | None => None
          | Some l => Some (if excluded then l else p :: l)
          end
      end
  end.

Definition select_replacement_paper (o : oracle) (r : record) (w : world)
  : option string * world :=
  let excluded_papers := get_or r "excluded_papers" (VList []) in
  match available_among all_papers excluded_papers with
  | None => (None, say replacement_exception w)
  | Some [] => (None, w)
  | Some available_papers => (Some (random_choice o available_papers), w)
  end.

Definition interruption_marker (replacement_paper : string) : string :=
  "INTERRUPTED (replaced with " ++ replacement_paper ++ ")".

Definition interruption_row (o : oracle) (participant_id interrupted_paper : value)
    (replacement_paper : string) : row :=
  [ participant_id;
    VStr "";
    interrupted_paper;
    VStr (strftime (datetime_now o));
    VStr "";
    VStr "";
    VStr "";
    VStr (interruption_marker replacement_paper);
    VStr "";
    VStr (strftime (datetime_now' o)) ].

Definition save_interruption_to_sheets (o : oracle)
    (participant_id slot interrupted_paper : value) (replacement_paper : string)
    (w : world) : bool * world :=
  let '(results_sheet, w) := get_results_worksheet w in
  if results_sheet then
    (true, append_row
             (interruption_row o participant_id interrupted_paper replacement_paper) w)
  else (false, w).

(** Adding the interrupted paper to the record's exclusion list; [None] is an
    exception ([TypeError] of [in], [AttributeError] of [append]). *)
Definition exclude_paper (paper_id : value) (r : record) : option record :=
  match py_in paper_id (get_or r "excluded_papers" (VList [])) with
  | None => None
  | Some true => Some r
  | Some false =>
      let r := match r !! "excluded_papers" with
               | Some _ => r
               | None => <["excluded_papers" := VList []]> r
               end in
      match py_append (get r "excluded_papers") paper_id with
      | Some l => Some (<["excluded_papers" := l]> r)
      | None => None
      end
  end.

Definition assign_replacement (replacement_paper : string) (r : record) : record :=
  <["start_timestamp" := VNone]>
    (<["status" := VStr "assigned"]>
       (<["paper_id" := VStr replacement_paper]> r)).

Definition interruption_target (participant_id slot paper_id : value)
    (r : record) : bool :=
  belongs participant_id r
  && py_eq (get r "slot") slot
  && py_eq (get r "paper_id") paper_id.

Definition interruption_raise (w : world) : bool * world :=
  (false, say traceback_shown (say interruption_exception w)).

Definition handle_interruption (o : oracle) (participant_id slot paper_id : value)
    (w : world) : bool * world :=
  let '(records, w) := load_evaluation_records w in
  match records with
  | [] => (false, say no_records w)
  | _ =>
      match find_target (interruption_target participant_id slot paper_id) records with
      | None =>
          (false, say (interruption_target_not_found participant_id slot paper_id) w)
      | Some (i, target_record) =>
          match exclude_paper paper_id target_record with
          | None => interruption_raise w
          | Some target_record =>
              let '(replacement_paper, w) :=
                select_replacement_paper o target_record w in
              match replacement_paper with
              | Some replacement_paper =>
                  if truthy (VStr replacement_paper) then
                    let target_record :=
                      assign_replacement replacement_paper target_record in
                    let '(_, w) :=
                      save_evaluation_records (<[i := target_record]> records) w in
                    let '(_, w) :=
                      save_interruption_to_sheets o participant_id slot paper_id
                        replacement_paper w in
                    (true, say (interrupted_and_replaced paper_id replacement_paper) w)
                  else (false, say no_replacement w)
              | None => (false, say no_replacement w)
              end
          end
      end
  end.

(** *** Completion *)

(** [datetime.fromtimestamp(t).strftime(...) if t else ""]; [None] is the
    [TypeError] of [fromtimestamp]. *)
Definition time_cell (t : value) : option value :=
  if truthy t then
    match to_Q t with
    | Some q => Some (VStr (strftime q))
    | None => None
    end
  else Some (VStr "").

Definition completion_row (o : oracle) (r : record) : option row :=
  let start_time := get r "start_timestamp" in
  let submit_time := get r "submit_timestamp" in
  let participant_name :=
    get_or r "participant_name" (get_or r "participant_id" (VStr "")) in
  match time_cell start_time, time_cell submit_time with
  | Some start_cell, Some submit_cell =>
      Some [ participant_name;
             VStr (py_str (get_or r "has_summary" (VBool false)));
             get_or r "paper_id" (VStr "");
             start_cell;
             submit_cell;
             VStr (py_str (get_or r "work_duration" (VInt 0)));
             get_or r "evaluation" (VStr "");
             get_or r "action" (VStr "");
             get_or r "summary" (VStr "");
             VStr (strftime (datetime_now o)) ]
  | _, _ => None
  end.

Definition save_completion_to_sheets (o : oracle) (r : record) (w : world)
  : bool * world :=
  let '(results_sheet, w) := get_results_worksheet w in
  if results_sheet then
    match completion_row o r with
    | Some completion_row => (true, append_row completion_row w)
    | None => (false, say completion_sheet_warning w)
    end
  else (false, w).

Definition completion_target (participant_id slot : value) (r : record) : bool :=
  belongs participant_id r
  && py_eq (get r "slot") slot
  && negb (truthy (get r "processed")).

(** [int(submit_time - start_time) if start_time else 0] *)
Definition work_duration_of (submit_time : Q) (start_time : value) : option Z :=
  if truthy start_time then int_sub submit_time start_time else Some 0.

Definition complete_record (submit_time : Q) (work_duration : Z)
    (evaluation_data : gmap string value) (r : record) : record :=
  <["summary" := get_or evaluation_data "summary" (VStr "")]>
    (<["action" := get_or evaluation_data "action" (VStr "")]>
       (<["evaluation" := get_or evaluation_data "evaluation" (VStr "")]>
          (<["work_duration" := VInt work_duration]>
             (<["submit_timestamp" := VFloat submit_time]>
                (<["processed" := VBool true]>
                   (<["status" := VStr "completed"]> r)))))).

Definition completion_raise (w : world) : bool * world :=
  (false, say traceback_shown (say completion_exception w)).

Definition handle_completion (o : oracle) (participant_id slot : value)
    (evaluation_data : gmap string value) (w : world) : bool * world :=
  let '(records, w) := load_evaluation_records w in
  match records with
  | [] => (false, say no_records w)
  | _ =>
      match find_target (completion_target participant_id slot) records with
      | None => (false, say (completion_target_not_found participant_id slot) w)
      | Some (i, target_record) =>
          let submit_time := time_time o in
          let start_time :=
            get_or target_record "start_timestamp" (VFloat submit_time) in
          match work_duration_of submit_time start_time with
          | None => completion_raise w
          | Some work_duration =>
              let target_record :=
                complete_record submit_time work_duration evaluation_data
                  target_record in
              let '(saved, w) :=
                save_evaluation_records (<[i := target_record]> records) w in
              if saved then
                let '(_, w) := save_completion_to_sheets o target_record w in
                let w := say (completion_done slot) w in
                let w := set_session "show_continuation_choice" (VBool true) w in
                let w := set_session "completed_slot" slot w in
                let w := set_session "participant_id" participant_id w in
                (true, w)
              else (false, say completion_save_failed w)
          end
      end
  end.

End Engine.

(** ** Notions used to state the properties *)

(** The cell of a row that lies under a column of [RESULTS_HEADERS]. *)
Definition column_index (name : string) : option nat :=
  fst <$> list_find (λ h, h = name) RESULTS_HEADERS.

Definition cell (name : string) (r : row) : option value :=
  match column_index name with
  | Some i => r !! i
  | None => None
  end.

(** The exclusion list of a record that has none or a well-typed one. *)
Definition excluded_list_of (r : record) : option (list value) :=
  match r !! "excluded_papers" with
  | None => Some []
  | Some (VList l) => Some l
  | Some _ => None
  end.

(** How often [x] occurs in a list, up to [==]. *)
Definition occurrences (x : value) (l : list value) : nat :=
  length (filter (λ y, py_eq x y = true) l).

(** The numeric sort key of a record: [x.get("slot", 0)]. *)
Definition slot_key (r : record) : option Q := to_Q (get_or r "slot" (VInt 0)).

Definition slot_number (r : record) : Q := default 0%Q (slot_key r).

(** The order in which a stable ascending sort by [k] leaves the positions
    of a list: by key, and by position among equal keys. *)
Definition key_then_position (k : nat → Q) (a b : nat) : Prop :=
  (k a < k b)%Q ∨ ((k a == k b)%Q ∧ (a ≤ b)%nat).

(** [a] comes before [b] when their numeric keys are compared with [<]. *)
Definition key_lt (k : nat → Q) (a b : nat) : bool := negb (Qle_bool (k b) (k a)).

(** The record carries what the form shows of a slot: a numeric slot, a
    paper and a condition flag. *)
Definition slot_fields (r : record) : bool :=
  is_num (get r "slot")
  && bool_decide (is_Some (r !! "paper_id"))
  && bool_decide (is_Some (r !! "has_summary")).

(** The record obeys the life cycle of the data model: it is selectable
    (status "assigned", not processed) exactly when its status is not
    "completed"; and its slot is not the sentinel 5. *)
Definition life_cycle (r : record) : bool :=
  eqb (selectable r) (negb (is_completed r))
  && negb (py_eq (get r "slot") (VInt 5)).

(** The records of the JSON file, none when it cannot be read. *)
Definition records_of (w : world) : list record := default [] (file w).

(** What one call can do to the dictionary it mutates. *)
Inductive record_step : record → record → Prop :=
| step_start (now : Q) (r : record) :
    selectable r = true →
    record_step r (<["start_timestamp" := VFloat now]> r)
| step_interrupt (paper_id : value) (replacement : string) (r r1 : record) :
    exclude_paper paper_id r = Some r1 →
    record_step r (assign_replacement replacement r1)
| step_complete (now : Q) (d : Z) (data : gmap string value) (r : record) :
    truthy (get r "processed") = false →
    record_step r (complete_record now d data r).

(** The exclusion list of [r'] extends that of [r] and repeats no paper that
    [r] does not repeat. *)
Definition excluded_grows (r r' : record) : Prop :=
  ∀ l, excluded_list_of r = Some l →
       ∃ l', excluded_list_of r' = Some l'
             ∧ l `prefix_of` l'
             ∧ ∀ x, (occurrences x l' ≤ max 1 (occurrences x l))%nat.

(** A finalised record stays finalised, for the same participant and slot. *)
Definition stays_processed (r r' : record) : Prop :=
  r' !! "participant_id" = r !! "participant_id"
  ∧ r' !! "slot" = r !! "slot"
  ∧ (truthy (get r "processed") = true → truthy (get r' "processed") = true).

(** The calls the form makes on the engine. *)
Inductive operation : Type :=
| GetCurrentSlot (o : oracle) (participant_id : value)
| GetProgress (participant_id : value)
| Interrupt (o : oracle) (participant_id slot paper_id : value)
| Complete (o : oracle) (participant_id slot : value)
           (evaluation_data : gmap string value).

Section Runs.

Variable strftime : Q → string.
Variable repr : value → string.

Definition run_operation (w : world) (op : operation) : world :=
  match op with
  | GetCurrentSlot o p => snd (get_current_slot_for_participant o p w)
  | GetProgress p => snd (get_participant_progress p w)
  | Interrupt o p s paper => snd (handle_interruption strftime o p s paper w)
  | Complete o p s data => snd (handle_completion strftime repr o p s data w)
  end.

Definition run (ops : list operation) (w : world) : world :=
  foldl run_operation w ops.

End Runs.

(** ** Sample data *)

Module Sample.

Definition seeded (participant_id : string) (slot : Z) (paper_id : string)
    (has_summary : bool) : record :=
  <["participant_id" := VStr participant_id]>
    (<["slot" := VInt slot]>
       (<["paper_id" := VStr paper_id]>
          (<["has_summary" := VBool has_summary]>
             (<["status" := VStr "assigned"]>
                (<["processed" := VBool false]>
                   (<["start_timestamp" := VNone]> ∅)))))).

Definition alice_records : list record :=
  [ seeded "alice" 2 "3" true;
    seeded "bob" 1 "4" true;
    seeded "alice" 1 "1" false;
    seeded "alice" 4 "5" false;
    seeded "alice" 3 "2" true ].

Definition world_of (records : list record) : world :=
  World (Some records) true true (Some [VStr <$> RESULTS_HEADERS]) [] ∅.

Definition alice_world : world := world_of alice_records.

(** Slot 1 of alice after five interruptions: paper 6 is the last one left. *)
Definition nearly_exhausted : record :=
  <["excluded_papers" := VList [VStr "1"; VStr "2"; VStr "3"; VStr "4"; VStr "5"]]>
    (seeded "alice" 1 "6" false).

Definition all_excluded : list value :=
  [VStr "1"; VStr "2"; VStr "3"; VStr "4"; VStr "5"; VStr "6"].

(** Slot 1 of alice, opened at 1000.5 seconds. *)
Definition started : record :=
  <["start_timestamp" := VFloat (2001 # 2)]> (seeded "alice" 1 "1" false).

Definition answers : gmap string value :=
  <["evaluation" := VStr "x"]>
    (<["action" := VStr "y"]> (<["summary" := VStr "z"]> ∅)).

(** A record that has been submitted. *)
Definition finished (participant_id : string) (slot : Z) (paper_id : string)
    (has_summary : bool) : record :=
  <["status" := VStr "completed"]>
    (<["processed" := VBool true]> (seeded participant_id slot paper_id has_summary)).

Definition dave_records : list record :=
  [ finished "dave" 1 "1" true; finished "dave" 2 "2" false;
    finished "dave" 3 "3" true; finished "dave" 4 "4" false ].

Definition noon : oracle := Oracle (4009 # 4) (1002 # 1) (1003 # 1) 0.

Definition stamp (q : Q) : string := "2025-01-01 12:00:00".
Definition other_text (v : value) : string := "".

End Sample.

(** ** Notions for the behaviour of whole calls *)

(** [w'] is [w] with the messages [shown] added and nothing else changed. *)
Definition only_shows (w w' : world) (shown : list notice) : Prop :=
  w' = World (file w) (disk_writable w) (sheets_up w) (worksheet w)
         (ui w ++ shown) (session w).

(** The rows of the Results worksheet, none before it is created. *)
Definition rows_of (w : world) : list row := default [] (worksheet w).

(** The participant a call is made for. *)
Definition operation_participant (op : operation) : value :=
  match op with
  | GetCurrentSlot _ p | GetProgress p | Interrupt _ p _ _ | Complete _ p _ _ => p
  end.

(** The fields the engine writes; every other field of a record is input
    to it. *)
Definition engine_fields : list string :=
  [ "start_timestamp"; "paper_id"; "status"; "excluded_papers"; "processed";
    "submit_timestamp"; "work_duration"; "evaluation"; "action"; "summary" ].

(** [r'] is [r] outside the engine's fields, and is finalised if [r] is. *)
Definition keeps_identity (r r' : record) : Prop :=
  (∀ k, k ∉ engine_fields → r' !! k = r !! k)
  ∧ (truthy (get r "processed") = true → truthy (get r' "processed") = true).

(** A row has one cell for each column of the worksheet. *)
Definition full_width (r : row) : Prop := length r = length RESULTS_HEADERS.

(** [w'] has the worksheet of [w], or that worksheet (created with its header
    row if it did not exist) with the rows [added] appended. *)
Definition appended (w w' : world) (added : list row) : Prop :=
  (worksheet w' = worksheet w ∧ added = [])
  ∨ worksheet w'
    = Some ((default [VStr <$> RESULTS_HEADERS] (worksheet w)) ++ added)%list.

(** [q] is a double: rounding it to the nearest double gives [q] itself, in
    lowest terms. *)
Definition double (q : Q) : Prop := binary64 q = Some (Qred q).

(** Two worlds with the same records file, equally writable; they may
    differ in the spreadsheet, the messages shown and the session. *)
Definition same_store (w w2 : world) : Prop :=
  file w = file w2 ∧ disk_writable w = disk_writable w2.

(** ** The submit buttons of the form page *)

(** The messages of the block [if submitted: ... elif interrupted: ...] of
    [main], one constructor per text. *)
Inductive form_message : Type :=
| action_required        (* the action field is blank *)
| evaluation_required    (* the evaluation field is blank *)
| summary_unconfirmed    (* the summary field is blank, slot with summary *)
| summary_required       (* the summary field is blank, slot without summary *)
| completion_failed      (* handle_completion returned False *)
| interruption_failed.   (* handle_interruption returned False *)

Section Form.

Variable strftime : Q → string.
Variable repr : value → string.

(** [str.strip()] *)
Variable strip : string → string.

(** [not s or not s.strip()] *)
Definition blank (s : string) : bool :=
  negb (truthy (VStr s)) || negb (truthy (VStr (strip s))).

(** The list [errors] of the validation, in the order of the three tests. *)
Definition validation_errors (has_summary : value)
    (action evaluation summary_field_val : string) : list form_message :=
  ((if blank action then [action_required] else [])
   ++ (if blank evaluation then [evaluation_required] else [])
   ++ (if blank summary_field_val
       then [if truthy has_summary then summary_unconfirmed else summary_required]
       else []))%list.

Definition evaluation_data_of (action evaluation summary_field_val : string)
  : gmap string value :=
  <["summary" := VStr (strip summary_field_val)]>
    (<["action" := VStr (strip action)]>
       (<["evaluation" := VStr (strip evaluation)]> ∅)).

(** One run of the form page with the state of its two buttons and the
    content of its three text areas; [participant_id], [slot], [paper_id] and
    [has_summary] are the fields the page has read from
    [st.session_state.eval_record].  The result is the messages the block
    shows itself, after those of the handler it calls, and the world it
    leaves; [st.session_state.page] is the key "page" of the session. *)
Definition form_submit (o : oracle) (participant_id slot paper_id has_summary : value)
    (submitted interrupted : bool) (action evaluation summary_field_val : string)
    (w : world) : list form_message * world :=
  if submitted then
    match validation_errors has_summary action evaluation summary_field_val with
    | [] =>
        let evaluation_data := evaluation_data_of action evaluation summary_field_val in
        let '(success, w) :=
          handle_completion strftime repr o participant_id slot evaluation_data w in
        if success then ([], set_session "page" (VStr "continuation") w)
        else ([completion_failed], w)
    | errors => (errors, w)
    end
  else if interrupted then
    let '(success, w) :=
      handle_interruption strftime o participant_id slot paper_id w in
    if success then ([], set_session "page" (VStr "continuation") w)
    else ([interruption_failed], w)
  else ([], w).

End Form.

(** * Properties *)

(** ** Basic facts *)

Lemma py_eq_str (s t : string) : py_eq (VStr s) (VStr t) = true ↔ s = t.
Proof. simpl. apply String.eqb_eq. Qed.

Lemma py_eq_str_refl (s : string) : py_eq (VStr s) (VStr s) = true.
Proof. by apply py_eq_str. Qed.

Lemma refs_where_none (P : record → bool) (records : list record) (i : nat) :
  Forall (λ r, P r = false) records → refs_where P records i = [].
Proof.
  intros H. revert i. induction H as [|r rest Hr _ IH]; intros i; simpl.
  - done.
  - rewrite Hr. apply IH.
Qed.

(** ** The audit rows *)

Section Rows.

Variable strftime : Q → string.
Variable repr : value → string.

(** In the row built for an interruption, the cell under the [action] column
    is blank and the marker text lies under the [evaluation] column. *)
Lemma interruption_row_cells (o : oracle) (p paper : value) (repl : string) :
  let r := interruption_row strftime o p paper repl in
  length r = 10%nat
  ∧ cell "action" r = Some (VStr "")
  ∧ cell "evaluation" r = Some (VStr (interruption_marker repl))
  ∧ cell "summary" r = Some (VStr "").
Proof. by repeat split. Qed.

(** In the row built for a completion, the evaluation text lies under the
    [action] column and the action text under the [evaluation] column. *)
Lemma completion_row_cells (o : oracle) (r : record) (cells : row) :
  completion_row strftime repr o r = Some cells →
  length cells = 10%nat
  ∧ cell "action" cells = Some (get_or r "evaluation" (VStr ""))
  ∧ cell "evaluation" cells = Some (get_or r "action" (VStr ""))
  ∧ cell "summary" cells = Some (get_or r "summary" (VStr "")).
Proof.
  unfold completion_row.
  destruct (time_cell _ _) as [c1|]; [|done].
  destruct (time_cell _ _) as [c2|]; [|done].
  intros [= <-]. by repeat split.
Qed.

End Rows.

(** C1.  Interrupting paper 1 of alice's slot 1 succeeds and appends a row of
    10 cells whose seventh cell, the one under the [action] column, is blank;
    the text "INTERRUPTED (replaced with 2)" is the eighth cell, under the
    [evaluation] column. *)
Theorem interruption_marker_outside_action_column :
  let result :=
    handle_interruption Sample.stamp Sample.noon
      (VStr "alice") (VInt 1) (VStr "1") Sample.alice_world in
  fst result = true
  ∧ RESULTS_HEADERS !! 6%nat = Some "action"
  ∧ ∃ r : row,
      worksheet (snd result) = Some [VStr <$> RESULTS_HEADERS; r]
      ∧ length r = 10%nat
      ∧ r !! 6%nat = Some (VStr "")
      ∧ cell "action" r = Some (VStr "")
      ∧ cell "evaluation" r = Some (VStr "INTERRUPTED (replaced with 2)").
Proof.
  vm_compute. split; [done|]. split; [done|].
  eexists. split; [reflexivity|]. by repeat split.
Qed.

(** ** Progress of a participant without records *)

Lemma load_readable (w : world) (records : list record) :
  file w = Some records → load_evaluation_records w = (records, w).
Proof. unfold load_evaluation_records. by intros ->. Qed.

(** C10.  For a participant none of whose records is in the collection,
    get_progress returns completed_slots 0, current_slot 1 and total_slots 4,
    shows no message, and current_slot is not the sentinel 5. *)
Theorem progress_without_records (p : value) (w : world) (records : list record) :
  file w = Some records →
  Forall (λ r, belongs p r = false) records →
  get_participant_progress p w = (Progress 0 (VInt 1) 4, w)
  ∧ current_slot (fst (get_participant_progress p w)) ≠ VInt 5.
Proof.
  intros Hfile Hnone.
  assert (get_participant_progress p w = (Progress 0 (VInt 1) 4, w)) as ->.
  { unfold get_participant_progress.
    rewrite (load_readable _ _ Hfile), (refs_where_none _ _ _ Hnone). done. }
  done.
Qed.

Lemma progress_without_records_witness :
  get_participant_progress (VStr "carol") Sample.alice_world
    = (Progress 0 (VInt 1) 4, Sample.alice_world)
  ∧ current_slot (fst (get_participant_progress (VStr "carol") Sample.alice_world))
      ≠ VInt 5.
Proof.
  apply (progress_without_records (VStr "carol") Sample.alice_world
           Sample.alice_records).
  - reflexivity.
  - repeat constructor.
Defined.

(** When the file cannot be read the answer is the same, after the error
    message of the loader. *)
Lemma progress_unreadable_file (p : value) (w : world) :
  file w = None →
  get_participant_progress p w = (Progress 0 (VInt 1) 4, say load_error w).
Proof.
  intros Hfile. unfold get_participant_progress, load_evaluation_records.
  by rewrite Hfile.
Qed.

(** ** Replacement selection *)

Lemma available_among_list (papers : list string) (ex : list value) :
  available_among papers (VList ex)
  = Some (filter (λ p, existsb (py_eq (VStr p)) ex = false) papers).
Proof.
  induction papers as [|p rest IH]; cbn [available_among py_in]; [done|].
  rewrite IH, filter_cons.
  destruct (existsb (py_eq (VStr p)) ex) eqn:E.
  - by rewrite decide_False.
  - by rewrite decide_True.
Qed.

Lemma existsb_py_eq_str (s : string) (ex : list value) :
  VStr s ∈ ex → existsb (py_eq (VStr s)) ex = true.
Proof.
  intros Hin. apply existsb_exists. exists (VStr s). split.
  - by apply list_elem_of_In.
  - apply py_eq_str_refl.
Qed.

Lemma available_among_exhausted (papers : list string) (ex : list value) :
  (∀ x, x ∈ papers → VStr x ∈ ex) →
  available_among papers (VList ex) = Some [].
Proof.
  intros Hall. rewrite available_among_list. f_equal.
  induction papers as [|p rest IH]; [done|].
  rewrite filter_cons, decide_False.
  - apply IH. intros x Hx. apply Hall. by right.
  - rewrite existsb_py_eq_str; [done|]. apply Hall. by left.
Qed.

Section Exhaustion.

Variable strftime : Q → string.

(** C4.  When the exclusion list of the record that interrupt acts on holds
    every paper of the catalog at the time the replacement is selected, the
    call returns false with the message that no replacement is available,
    and the file, the worksheet and the session are what they were. *)
Theorem interruption_exhausted (o : oracle) (p s paper : value) (w : world)
    (records : list record) (i : nat) (r r' : record) (ex : list value) :
  file w = Some records →
  find_target (interruption_target p s paper) records = Some (i, r) →
  exclude_paper paper r = Some r' →
  r' !! "excluded_papers" = Some (VList ex) →
  (∀ x, x ∈ all_papers → VStr x ∈ ex) →
  handle_interruption strftime o p s paper w = (false, say no_replacement w)
  ∧ file (say no_replacement w) = Some records.
Proof.
  intros Hfile Htarget Hexcl Hex Hall. split; [|done].
  unfold handle_interruption. rewrite (load_readable _ _ Hfile).
  destruct records as [|r0 rest]; [by cbv in Htarget|].
  rewrite Htarget, Hexcl.
  unfold select_replacement_paper, get_or. rewrite Hex. simpl default.
  by rewrite (available_among_exhausted _ _ Hall).
Qed.

End Exhaustion.

Lemma interruption_exhausted_witness :
  let w := Sample.world_of [Sample.nearly_exhausted] in
  handle_interruption Sample.stamp Sample.noon (VStr "alice") (VInt 1) (VStr "6") w
    = (false, say no_replacement w)
  ∧ file (say no_replacement w) = Some [Sample.nearly_exhausted].
Proof.
  apply (interruption_exhausted Sample.stamp Sample.noon
           (VStr "alice") (VInt 1) (VStr "6")
           (Sample.world_of [Sample.nearly_exhausted])
           [Sample.nearly_exhausted] 0 Sample.nearly_exhausted
           (<["excluded_papers" := VList Sample.all_excluded]> Sample.nearly_exhausted)
           Sample.all_excluded).
  - reflexivity.
  - vm_compute. reflexivity.
  - vm_compute. reflexivity.
  - vm_compute. reflexivity.
  - intros x Hx. unfold all_papers, Sample.all_excluded in *.
    repeat (apply elem_of_cons in Hx as [->|Hx]; [set_solver|]).
    by apply elem_of_nil in Hx.
Defined.

(** ** The exclusion step *)

Lemma exclude_paper_cases (paper : value) (r r1 : record) :
  exclude_paper paper r = Some r1 →
  r1 = r
  ∨ ∃ l, excluded_list_of r = Some l
         ∧ existsb (py_eq paper) l = false
         ∧ r1 = <["excluded_papers" := VList (l ++ [paper])]> r.
Proof.
  unfold exclude_paper, excluded_list_of, get_or, get.
  destruct (r !! "excluded_papers") as [v|] eqn:Hv; cbn [default from_option id].
  - destruct (py_in paper v) as [[]|] eqn:Hin; [by intros [= <-]; left| |done].
    rewrite Hv. cbn [default from_option id].
    destruct v; try done. cbn [py_append]. intros [= <-]. right.
    exists l. cbn [py_in] in Hin. by injection Hin as ->.
  - cbn [py_in existsb]. rewrite lookup_insert_eq. cbn [default from_option id py_append].
    intros [= <-]. right. exists []. by rewrite insert_insert_eq.
Qed.

Lemma exclude_paper_other_keys (paper : value) (r r1 : record) (k : string) :
  exclude_paper paper r = Some r1 →
  k ≠ "excluded_papers" → r1 !! k = r !! k.
Proof.
  intros H Hk. destruct (exclude_paper_cases _ _ _ H) as [->|(l & _ & _ & ->)].
  - done.
  - by rewrite lookup_insert_ne.
Qed.

Lemma assign_replacement_other_keys (repl : string) (r : record) (k : string) :
  k ≠ "paper_id" → k ≠ "status" → k ≠ "start_timestamp" →
  assign_replacement repl r !! k = r !! k.
Proof.
  intros H1 H2 H3. unfold assign_replacement.
  by rewrite !lookup_insert_ne.
Qed.

(** ** A successful interruption *)

Lemma find_target_spec (P : record → bool) (records : list record)
    (i : nat) (r : record) :
  find_target P records = Some (i, r) →
  records !! i = Some r ∧ dict_truthy r = true.
Proof.
  unfold find_target. destruct (first_where P records) as [j|]; [|done].
  destruct (records !! j) as [r0|] eqn:Hj; [|done].
  destruct (dict_truthy r0) eqn:Ht; [|done].
  by intros [= <- <-].
Qed.

Lemma refs_where_sound (P : record → bool) (records : list record) (k i : nat) :
  i ∈ refs_where P records k →
  ∃ r, records !! (i - k)%nat = Some r ∧ P r = true ∧ (k ≤ i)%nat.
Proof.
  revert k. induction records as [|r0 rest IH]; intros k; cbn [refs_where].
  - by intros ?%elem_of_nil.
  - destruct (P r0) eqn:HP.
    + intros [->|Hin]%elem_of_cons.
      * exists r0. by rewrite Nat.sub_diag.
      * destruct (IH _ Hin) as (r & Hr & HPr & Hle). exists r.
        replace (i - k)%nat with (S (i - S k)) by lia. split; [done|]. split; [done|lia].
    + intros Hin. destruct (IH _ Hin) as (r & Hr & HPr & Hle). exists r.
      replace (i - k)%nat with (S (i - S k)) by lia. split; [done|]. split; [done|lia].
Qed.

Lemma find_target_holds (P : record → bool) (records : list record)
    (i : nat) (r : record) :
  find_target P records = Some (i, r) → P r = true.
Proof.
  intros H. destruct (find_target_spec _ _ _ _ H) as [Hi _].
  unfold find_target, first_where in H.
  destruct (refs_where P records 0) as [|j refs] eqn:Hrefs; [done|].
  cbn [head] in H. destruct (records !! j) as [r0|] eqn:Hj; [|done].
  destruct (dict_truthy r0); [|done].
  assert (j = i) as -> by congruence.
  destruct (refs_where_sound P records 0 i) as (r' & Hr' & HP & _).
  { rewrite Hrefs. by left. }
  rewrite Nat.sub_0_r in Hr'. congruence.
Qed.

Lemma available_among_subset (papers : list string) (c : value) (l : list string) :
  available_among papers c = Some l → l ⊆ papers.
Proof.
  revert l. induction papers as [|p rest IH]; intros l; cbn [available_among].
  - by intros [= <-].
  - destruct (py_in (VStr p) c) as [b|]; [|done].
    destruct (available_among rest c) as [l0|]; [|done].
    intros [= <-]. specialize (IH _ eq_refl). intros x Hx. destruct b.
    + right. by apply IH.
    + apply elem_of_cons in Hx as [->|Hx]; [by left|right; by apply IH].
Qed.

Lemma random_choice_in (o : oracle) (available : list string) :
  available ≠ [] → random_choice o available ∈ available.
Proof.
  intros Hne. unfold random_choice. apply list_elem_of_In, nth_In.
  apply Nat.mod_upper_bound. by destruct available.
Qed.

Section Interruption.

Variable strftime : Q → string.

Lemma save_interruption_keeps_file (o : oracle) (p s paper : value)
    (repl : string) (w : world) :
  file (snd (save_interruption_to_sheets strftime o p s paper repl w)) = file w
  ∧ disk_writable (snd (save_interruption_to_sheets strftime o p s paper repl w))
    = disk_writable w.
Proof.
  unfold save_interruption_to_sheets, get_results_worksheet.
  destruct (sheets_up w); [destruct (worksheet w)|]; done.
Qed.

(** What a call of [handle_interruption] that returns [True] has done. *)
Lemma handle_interruption_success (o : oracle) (p s paper : value) (w w' : world) :
  handle_interruption strftime o p s paper w = (true, w') →
  ∃ records i r r1 available,
    file w = Some records
    ∧ find_target (interruption_target p s paper) records = Some (i, r)
    ∧ exclude_paper paper r = Some r1
    ∧ available_among all_papers (get_or r1 "excluded_papers" (VList []))
      = Some available
    ∧ available ≠ []
    ∧ file w' = Some (if disk_writable w
                      then <[i := assign_replacement (random_choice o available) r1]> records
                      else records).
Proof.
  unfold handle_interruption, load_evaluation_records.
  destruct (file w) as [records|] eqn:Hfile; [|done].
  destruct records as [|r0 rest] eqn:Hrecords; [done|]. rewrite <- Hrecords.
  destruct (find_target _ records) as [[i r]|] eqn:Htarget; [|done].
  destruct (exclude_paper paper r) as [r1|] eqn:Hexcl; [|done].
  unfold select_replacement_paper.
  destruct (available_among all_papers _) as [available|] eqn:Havail; [|done].
  destruct available as [|a rest'] eqn:Hav; [done|]. rewrite <- Hav.
  destruct (truthy (VStr (random_choice o available))); [|done].
  unfold save_evaluation_records.
  destruct (disk_writable w) eqn:Hdisk.
  - destruct (save_interruption_to_sheets _ _ _ _ _ _ _) as [b w1] eqn:Hsheet.
    intros [= <-]. exists records, i, r, r1, available.
    repeat (split; [done || congruence|]).
    pose proof (save_interruption_keeps_file o p s paper
                  (random_choice o available)
                  (write_file (<[i:=assign_replacement (random_choice o available) r1]> records) w))
      as [Hf _].
    rewrite Hsheet in Hf. cbn [snd] in Hf. cbn [say file]. by rewrite Hf.
  - destruct (save_interruption_to_sheets _ _ _ _ _ _ _) as [b w1] eqn:Hsheet.
    intros [= <-]. exists records, i, r, r1, available.
    repeat (split; [done || congruence|]).
    pose proof (save_interruption_keeps_file o p s paper
                  (random_choice o available) (say save_error w)) as [Hf _].
    rewrite Hsheet in Hf. cbn [snd] in Hf. cbn [say file].
    rewrite Hf. cbn [say file]. by rewrite Hfile, Hrecords.
Qed.

(** C5.  A call of interrupt that returns true has found a record of the
    participant for that slot and paper; the persisted collection differs
    from the old one at most in that record, which keeps its position, its
    participant, its slot and its has_summary; its paper_id is the
    replacement, a paper of the catalog, its status is "assigned", its
    start_timestamp is null, its excluded_papers is the old list or the old
    list followed by the interrupted paper, and every other field is what it
    was. *)
Theorem interruption_frame (o : oracle) (p s paper : value) (w w' : world) :
  handle_interruption strftime o p s paper w = (true, w') →
  ∃ (records : list record) (i : nat) (r r' : record) (replacement : string),
    file w = Some records
    ∧ records !! i = Some r
    ∧ interruption_target p s paper r = true
    ∧ replacement ∈ all_papers
    ∧ file w' = Some (if disk_writable w then <[i := r']> records else records)
    ∧ length (records_of w') = length records
    ∧ r' !! "participant_id" = r !! "participant_id"
    ∧ r' !! "slot" = r !! "slot"
    ∧ r' !! "has_summary" = r !! "has_summary"
    ∧ r' !! "paper_id" = Some (VStr replacement)
    ∧ r' !! "status" = Some (VStr "assigned")
    ∧ r' !! "start_timestamp" = Some VNone
    ∧ (r' !! "excluded_papers" = r !! "excluded_papers"
       ∨ ∃ l, excluded_list_of r = Some l
              ∧ r' !! "excluded_papers" = Some (VList (l ++ [paper])))
    ∧ ∀ k, k ∉ ["paper_id"; "status"; "start_timestamp"; "excluded_papers"] →
           r' !! k = r !! k.
Proof.
  intros (records & i & r & r1 & available & Hfile & Htarget & Hexcl
          & Havail & Hne & Hfile')%handle_interruption_success.
  exists records, i, r, (assign_replacement (random_choice o available) r1),
    (random_choice o available).
  destruct (find_target_spec _ _ _ _ Htarget) as [Hi _].
  assert (∀ k, k ≠ "paper_id" → k ≠ "status" → k ≠ "start_timestamp" →
               k ≠ "excluded_papers" →
               assign_replacement (random_choice o available) r1 !! k = r !! k)
    as Hframe.
  { intros k H1 H2 H3 H4. rewrite assign_replacement_other_keys by done.
    by apply (exclude_paper_other_keys paper). }
  split; [done|]. split; [done|].
  split; [by apply (find_target_holds _ _ _ _ Htarget)|].
  split.
  { apply (available_among_subset _ _ _ Havail). by apply random_choice_in. }
  split; [done|].
  split.
  { unfold records_of. rewrite Hfile'. cbn [default from_option id].
    destruct (disk_writable w); [apply length_insert|done]. }
  split; [by apply Hframe|]. split; [by apply Hframe|]. split; [by apply Hframe|].
  split; [by unfold assign_replacement; simplify_map_eq|].
  split; [by unfold assign_replacement; simplify_map_eq|].
  split; [by unfold assign_replacement; simplify_map_eq|].
  split.
  { rewrite assign_replacement_other_keys by done.
    destruct (exclude_paper_cases _ _ _ Hexcl) as [->|(l & Hl & _ & ->)].
    - by left.
    - right. exists l. by rewrite lookup_insert_eq. }
  intros k Hk. apply Hframe; intros ->; apply Hk; set_solver.
Qed.

End Interruption.

Lemma interruption_frame_witness :
  ∃ (records : list record) (i : nat) (r r' : record) (replacement : string),
    file Sample.alice_world = Some records
    ∧ records !! i = Some r
    ∧ interruption_target (VStr "alice") (VInt 1) (VStr "1") r = true
    ∧ replacement ∈ all_papers
    ∧ file (snd (handle_interruption Sample.stamp Sample.noon
                   (VStr "alice") (VInt 1) (VStr "1") Sample.alice_world))
      = Some (if disk_writable Sample.alice_world then <[i := r']> records else records)
    ∧ length (records_of (snd (handle_interruption Sample.stamp Sample.noon
                   (VStr "alice") (VInt 1) (VStr "1") Sample.alice_world)))
      = length records
    ∧ r' !! "participant_id" = r !! "participant_id"
    ∧ r' !! "slot" = r !! "slot"
    ∧ r' !! "has_summary" = r !! "has_summary"
    ∧ r' !! "paper_id" = Some (VStr replacement)
    ∧ r' !! "status" = Some (VStr "assigned")
    ∧ r' !! "start_timestamp" = Some VNone
    ∧ (r' !! "excluded_papers" = r !! "excluded_papers"
       ∨ ∃ l, excluded_list_of r = Some l
              ∧ r' !! "excluded_papers" = Some (VList (l ++ [VStr "1"])))
    ∧ ∀ k, k ∉ ["paper_id"; "status"; "start_timestamp"; "excluded_papers"] →
           r' !! k = r !! k.
Proof.
  apply (interruption_frame Sample.stamp Sample.noon
           (VStr "alice") (VInt 1) (VStr "1") Sample.alice_world).
  vm_compute. reflexivity.
Defined.

(** ** Equality of values *)

Lemma py_eq_refl (v : value) : py_eq v v = true.
Proof.
  revert v. fix IH 1. intros [|b|z|q|s|l].
  - done.
  - apply Qeq_bool_refl.
  - apply Qeq_bool_refl.
  - apply Qeq_bool_refl.
  - apply py_eq_str_refl.
  - cbn [py_eq]. revert l. fix IHl 1. intros [|x l]; [done|].
    rewrite (IH x). apply (IHl l).
Qed.

Lemma occurrences_app (x : value) (l1 l2 : list value) :
  occurrences x (l1 ++ l2) = (occurrences x l1 + occurrences x l2)%nat.
Proof. unfold occurrences. by rewrite filter_app, length_app. Qed.

Lemma occurrences_self (x : value) : occurrences x [x] = 1%nat.
Proof.
  unfold occurrences. rewrite filter_cons, decide_True by apply py_eq_refl.
  done.
Qed.

Lemma occurrences_absent (x : value) (l : list value) :
  existsb (py_eq x) l = false → occurrences x l = 0%nat.
Proof.
  unfold occurrences. induction l as [|y l IH]; [done|].
  cbn [existsb]. intros [Hy Hl]%orb_false_iff.
  rewrite filter_cons, decide_False by congruence. by apply IH.
Qed.

Lemma occurrences_present (x : value) (l : list value) :
  existsb (py_eq x) l = true → (1 ≤ occurrences x l)%nat.
Proof.
  unfold occurrences. induction l as [|y l IH]; [done|].
  cbn [existsb]. rewrite filter_cons. destruct (py_eq x y) eqn:Hy.
  - intros _. rewrite decide_True by done. cbn [length]. lia.
  - intros Hl. rewrite decide_False by congruence. by apply IH.
Qed.

(** ** The sort keeps the references *)

Lemma insert_by_perm {A} (lt : A → A → bool) (x : A) (l : list A) :
  insert_by lt x l ≡ₚ x :: l.
Proof.
  induction l as [|y l IH]; cbn [insert_by]; [done|].
  destruct (lt y x); [|done]. rewrite IH. apply Permutation_swap.
Qed.

Lemma sort_by_perm {A} (lt : A → A → bool) (l : list A) : sort_by lt l ≡ₚ l.
Proof.
  induction l as [|x l IH]; [done|].
  change (sort_by lt (x :: l)) with (insert_by lt x (sort_by lt l)).
  by rewrite insert_by_perm, IH.
Qed.

Lemma py_sort_perm {A} (key : A → value) (l l' : list A) :
  py_sort key l = Some l' → l' ≡ₚ l.
Proof.
  unfold py_sort. destruct l as [|a [|b l]]; try by intros [= <-].
  generalize (a :: b :: l). intros l0.
  destruct (forallb _ _); [intros [= <-]; apply sort_by_perm|].
  destruct (forallb _ _); [intros [= <-]; apply sort_by_perm|done].
Qed.

Lemma find_elem {A} (f : A → bool) (l : list A) (x : A) :
  find f l = Some x → x ∈ l ∧ f x = true.
Proof.
  intros [Hin Hf]%find_some. split; [by apply list_elem_of_In|done].
Qed.

Lemma deref_test_true (records : list record) (P : record → bool) (i : nat) :
  deref_test records P i = true → ∃ r, records !! i = Some r ∧ P r = true.
Proof.
  unfold deref_test. destruct (records !! i) as [r|]; [|done]. eauto.
Qed.

Lemma refs_where_lookup (P : record → bool) (records : list record) (i : nat) :
  i ∈ refs_where P records 0 → ∃ r, records !! i = Some r ∧ P r = true.
Proof.
  intros (r & Hr & HP & _)%refs_where_sound. rewrite Nat.sub_0_r in Hr. eauto.
Qed.

(** ** What each call does to the file *)

Lemma get_current_slot_cases (o : oracle) (p : value) (w : world) :
  let result := get_current_slot_for_participant o p w in
  (fst result = None ∧ file (snd result) = file w)
  ∨ ∃ (records : list record) (i : nat) (r : record),
      file w = Some records
      ∧ i ∈ refs_where (belongs p) records 0
      ∧ records !! i = Some r
      ∧ selectable r = true
      ∧ file (snd result)
        = Some (if disk_writable w
                then <[i := <["start_timestamp" := VFloat (time_time o)]> r]> records
                else records)
      ∧ (fst result = None
         ∨ fst result = Some (<["start_timestamp" := VFloat (time_time o)]> r)).
Proof.
  unfold get_current_slot_for_participant, load_evaluation_records.
  destruct (file w) as [records|] eqn:Hfile; [|by left].
  destruct records as [|r0 rest] eqn:Hrecords; [by left|]. rewrite <- Hrecords.
  destruct (refs_where (belongs p) records 0) as [|i0 refs] eqn:Hrefs;
    [left; split; [done|cbn; congruence]|].
  rewrite <- Hrefs.
  destruct (py_sort _ _) as [sorted|] eqn:Hsort;
    [|left; split; [done|cbn; congruence]].
  destruct (find _ sorted) as [i|] eqn:Hfind;
    [|left; split; [done|cbn; congruence]].
  apply find_elem in Hfind as [Hin Htest].
  apply deref_test_true in Htest as (r & Hr & Hsel).
  rewrite Hr. right. exists records, i, r.
  split; [congruence|]. split; [by rewrite <- (py_sort_perm _ _ _ Hsort)|].
  split; [done|]. split; [done|].
  unfold save_evaluation_records. destruct (disk_writable w).
  - repeat case_match;
      cbn [fst snd file say write_file current_slot_raise]; auto.
  - repeat case_match;
      cbn [fst snd file say write_file current_slot_raise];
      rewrite Hfile, Hrecords; auto.
Qed.

Lemma get_progress_keeps_file (p : value) (w : world) :
  file (snd (get_participant_progress p w)) = file w.
Proof.
  unfold get_participant_progress, load_evaluation_records.
  destruct (file w) as [records|] eqn:Hfile; [|done].
  destruct (refs_where _ _ _); [done|].
  by destruct (py_sort _ _).
Qed.

Section Effects.

Variable strftime : Q → string.
Variable repr : value → string.

(** The goal [... = (false, w') → file w' = ...] of a path that returns
    before any write. *)
Local Ltac kept := intros [= <-]; cbn; congruence.

Lemma handle_interruption_failure (o : oracle) (p s paper : value) (w w' : world) :
  handle_interruption strftime o p s paper w = (false, w') → file w' = file w.
Proof.
  unfold handle_interruption, load_evaluation_records.
  destruct (file w) as [records|] eqn:Hfile; [|kept].
  destruct records as [|r0 rest] eqn:Hrecords; [kept|].
  rewrite <- Hrecords.
  destruct (find_target _ records) as [[i r]|]; [|kept].
  destruct (exclude_paper paper r) as [r1|]; [|kept].
  unfold select_replacement_paper.
  destruct (available_among all_papers _) as [[|a rest']|];
    try kept.
  destruct (truthy _); [|kept].
  destruct (save_evaluation_records _ _) as [b1 w1].
  by destruct (save_interruption_to_sheets _ _ _ _ _ _ _).
Qed.

Lemma save_completion_keeps_file (o : oracle) (r : record) (w : world) :
  file (snd (save_completion_to_sheets strftime repr o r w)) = file w.
Proof.
  unfold save_completion_to_sheets, get_results_worksheet.
  destruct (sheets_up w); [|done].
  destruct (worksheet w); by destruct (completion_row _ _ _ _).
Qed.

Lemma handle_completion_failure (o : oracle) (p s : value)
    (data : gmap string value) (w w' : world) :
  handle_completion strftime repr o p s data w = (false, w') → file w' = file w.
Proof.
  unfold handle_completion, load_evaluation_records.
  destruct (file w) as [records|] eqn:Hfile; [|kept].
  destruct records as [|r0 rest] eqn:Hrecords; [kept|].
  rewrite <- Hrecords.
  destruct (find_target _ records) as [[i r]|]; [|kept].
  destruct (work_duration_of _ _) as [d|]; [|kept].
  unfold save_evaluation_records. destruct (disk_writable w).
  - by destruct (save_completion_to_sheets _ _ _ _ _).
  - kept.
Qed.

(** What a call of [handle_completion] that returns [True] has done. *)
Lemma handle_completion_success (o : oracle) (p s : value)
    (data : gmap string value) (w w' : world) :
  handle_completion strftime repr o p s data w = (true, w') →
  ∃ records i r d,
    file w = Some records
    ∧ find_target (completion_target p s) records = Some (i, r)
    ∧ work_duration_of (time_time o)
        (get_or r "start_timestamp" (VFloat (time_time o))) = Some d
    ∧ disk_writable w = true
    ∧ file w' = Some (<[i := complete_record (time_time o) d data r]> records).
Proof.
  unfold handle_completion, load_evaluation_records.
  destruct (file w) as [records|] eqn:Hfile; [|done].
  destruct records as [|r0 rest] eqn:Hrecords; [done|]. rewrite <- Hrecords.
  destruct (find_target _ records) as [[i r]|] eqn:Htarget; [|done].
  destruct (work_duration_of _ _) as [d|] eqn:Hd; [|done].
  unfold save_evaluation_records. destruct (disk_writable w) eqn:Hdisk; [|done].
  destruct (save_completion_to_sheets _ _ _ _ _) as [b w1] eqn:Hsheet.
  intros [= <-]. exists records, i, r, d.
  repeat (split; [done || congruence|]).
  pose proof (save_completion_keeps_file o
                (complete_record (time_time o) d data r)
                (write_file (<[i:=complete_record (time_time o) d data r]> records) w))
    as Hf.
  rewrite Hsheet in Hf. cbn [snd] in Hf.
  cbn [file set_session say]. by rewrite Hf.
Qed.

End Effects.

(** ** Runs of operations *)

Section RunInvariants.

Variable strftime : Q → string.
Variable repr : value → string.

(** A call leaves the file as it is or rewrites it with one dictionary
    replaced by a [record_step] successor. *)
Lemma operation_effect (op : operation) (w : world) :
  file (run_operation strftime repr w op) = file w
  ∨ ∃ (records : list record) (i : nat) (r r' : record),
      file w = Some records
      ∧ records !! i = Some r
      ∧ record_step r r'
      ∧ file (run_operation strftime repr w op) = Some (<[i := r']> records).
Proof.
  destruct op as [o p|p|o p s paper|o p s data]; cbn [run_operation].
  - destruct (get_current_slot_cases o p w)
      as [[_ H]|(records & i & r & Hfile & _ & Hi & Hsel & Hfile' & _)];
      [by left|].
    destruct (disk_writable w); [|left; congruence].
    right. exists records, i, r, (<["start_timestamp" := VFloat (time_time o)]> r).
    repeat split; try done. by constructor.
  - left. apply get_progress_keeps_file.
  - destruct (handle_interruption strftime o p s paper w) as [[] w'] eqn:Hcall;
      cbn [snd].
    + apply handle_interruption_success in Hcall
        as (records & i & r & r1 & available & Hfile & Htarget & Hexcl & _ & _ & Hfile').
      destruct (disk_writable w); [|left; congruence].
      right. exists records, i, r, (assign_replacement (random_choice o available) r1).
      destruct (find_target_spec _ _ _ _ Htarget) as [Hi _].
      repeat split; try done. by econstructor.
    + left. by apply (handle_interruption_failure strftime o p s paper).
  - destruct (handle_completion strftime repr o p s data w) as [[] w'] eqn:Hcall;
      cbn [snd].
    + apply handle_completion_success in Hcall
        as (records & i & r & d & Hfile & Htarget & _ & _ & Hfile').
      right. exists records, i, r, (complete_record (time_time o) d data r).
      destruct (find_target_spec _ _ _ _ Htarget) as [Hi _].
      repeat split; try done. constructor.
      apply find_target_holds in Htarget. unfold completion_target in Htarget.
      apply andb_true_iff in Htarget as [_ Hp]. by apply negb_true_iff.
    + left. by apply (handle_completion_failure strftime repr o p s data).
Qed.

(** A reflexive and transitive relation that every [record_step] respects
    relates each record of the file to the record at the same position after
    any run. *)
Lemma Forall2_same (R : relation record) `{!Reflexive R} (l : list record) :
  Forall2 R l l.
Proof. induction l; by constructor. Qed.

Lemma run_related (R : relation record) `{!Reflexive R} `{!Transitive R} :
  (∀ r r', record_step r r' → R r r') →
  ∀ (ops : list operation) (w : world),
    Forall2 R (records_of w) (records_of (run strftime repr ops w)).
Proof.
  intros Hstep ops. induction ops as [|op ops IH]; intros w.
  - by apply Forall2_same.
  - change (run strftime repr (op :: ops) w)
      with (run strftime repr ops (run_operation strftime repr w op)).
    eapply Forall2_trans; [| |apply IH].
    { intros x y z Hxy Hyz. by transitivity y. }
    unfold records_of.
    destruct (operation_effect op w)
      as [->|(records & i & r & r' & -> & Hi & Hrr' & ->)].
    + by apply Forall2_same.
    + cbn [default from_option id].
      rewrite <- (list_insert_id records i r Hi) at 1.
      apply Forall2_insert; [by apply Forall2_same|by apply Hstep].
Qed.

End RunInvariants.

(** ** [==] is an equivalence on the modelled values *)

Lemma py_eq_sym (a b : value) : py_eq a b = py_eq b a.
Proof.
  revert a b. fix IH 1.
  intros [|b1|z1|q1|s1|l1] [|b2|z2|q2|s2|l2];
    try reflexivity; try apply Qeq_bool_comm.
  - apply String.eqb_sym.
  - cbn [py_eq]. revert l1 l2. fix IHl 1.
    intros [|x l1] [|y l2]; try reflexivity.
    rewrite (IH x y). f_equal. apply (IHl l1 l2).
Qed.

Lemma py_eq_trans (a b c : value) :
  py_eq a b = true → py_eq b c = true → py_eq a c = true.
Proof.
  revert a b c. fix IH 1.
  intros [|b1|z1|q1|s1|l1] [|b2|z2|q2|s2|l2] [|b3|z3|q3|s3|l3];
    try discriminate; try (intros _ _; reflexivity);
    try apply Qeq_bool_trans.
  - intros ->%py_eq_str ->%py_eq_str. apply py_eq_str_refl.
  - cbn [py_eq]. revert l1 l2 l3. fix IHl 1.
    intros [|x l1] [|y l2] [|z l3]; try discriminate; try (intros _ _; reflexivity).
    intros [Hxy Hl12]%andb_true_iff [Hyz Hl23]%andb_true_iff.
    rewrite (IH x y z Hxy Hyz). apply (IHl l1 l2 l3 Hl12 Hl23).
Qed.

Lemma occurrences_py_eq (x y : value) (l : list value) :
  py_eq x y = true → occurrences x l = occurrences y l.
Proof.
  intros Hxy. unfold occurrences. induction l as [|z l IH]; [done|].
  rewrite !filter_cons.
  destruct (py_eq x z) eqn:Hxz.
  - rewrite decide_True by done.
    rewrite decide_True; [cbn [length]; by rewrite IH|].
    apply (py_eq_trans y x z); [by rewrite py_eq_sym|done].
  - rewrite decide_False by congruence.
    rewrite decide_False; [done|].
    intros Hyz. rewrite (py_eq_trans x y z Hxy Hyz) in Hxz. done.
Qed.

Lemma occurrences_singleton (x y : value) : (occurrences x [y] ≤ 1)%nat.
Proof.
  unfold occurrences. rewrite filter_cons, filter_nil. case_decide; cbn [length]; lia.
Qed.

Lemma occurrences_other (x y : value) :
  py_eq x y = false → occurrences x [y] = 0%nat.
Proof.
  intros H. unfold occurrences. by rewrite filter_cons, decide_False by congruence.
Qed.

(** ** The exclusion list only grows *)

Lemma excluded_list_of_insert_other (k : string) (v : value) (r : record) :
  k ≠ "excluded_papers" →
  excluded_list_of (<[k := v]> r) = excluded_list_of r.
Proof. intros Hk. unfold excluded_list_of. by rewrite lookup_insert_ne. Qed.

Lemma excluded_list_of_insert (l : list value) (r : record) :
  excluded_list_of (<["excluded_papers" := VList l]> r) = Some l.
Proof. unfold excluded_list_of. by rewrite lookup_insert_eq. Qed.

#[global] Instance excluded_grows_refl : Reflexive excluded_grows.
Proof. intros r l Hl. exists l. repeat split; [done|done|]. intros x. lia. Qed.

#[global] Instance excluded_grows_trans : Transitive excluded_grows.
Proof.
  intros r1 r2 r3 H12 H23 l Hl.
  destruct (H12 l Hl) as (l2 & Hl2 & Hp12 & Hocc12).
  destruct (H23 l2 Hl2) as (l3 & Hl3 & Hp23 & Hocc23).
  exists l3. split; [done|]. split; [by transitivity l2|].
  intros x. specialize (Hocc12 x). specialize (Hocc23 x). lia.
Qed.

(** The exclusion step on a record whose exclusion list is absent or a
    list. *)
Lemma exclude_paper_list (paper : value) (r : record) (l : list value) :
  excluded_list_of r = Some l →
  exclude_paper paper r
  = Some (if existsb (py_eq paper) l then r
          else <["excluded_papers" := VList (l ++ [paper])]> r).
Proof.
  unfold excluded_list_of, exclude_paper, get_or, get.
  destruct (r !! "excluded_papers") as [v|] eqn:Hv.
  - destruct v; try done. intros [= ->].
    cbn [default from_option id py_in]. destruct (existsb _ l); [done|].
    by rewrite Hv.
  - intros [= <-]. cbn [default from_option id py_in existsb].
    rewrite lookup_insert_eq. cbn [default from_option id py_append].
    by rewrite insert_insert_eq.
Qed.

Lemma exclude_paper_grows (paper : value) (r r1 : record) :
  exclude_paper paper r = Some r1 → excluded_grows r r1.
Proof.
  intros [->|(l0 & Hl0 & Habsent & ->)]%exclude_paper_cases; [reflexivity|].
  intros l Hl. assert (l = l0) as -> by congruence.
  exists (l0 ++ [paper])%list. split; [apply excluded_list_of_insert|].
  split; [by apply prefix_app_r|].
  intros x. rewrite occurrences_app.
  destruct (py_eq x paper) eqn:Hx.
  - rewrite (occurrences_py_eq x paper l0 Hx), (occurrences_absent _ _ Habsent).
    pose proof (occurrences_singleton x paper). lia.
  - rewrite (occurrences_other _ _ Hx). lia.
Qed.

Lemma record_step_excluded_grows (r r' : record) :
  record_step r r' → excluded_grows r r'.
Proof.
  intros [now r0 _|paper repl r0 r1 Hexcl|now d data r0 _].
  - intros l Hl. exists l. rewrite excluded_list_of_insert_other by done.
    repeat split; [done|done|]. intros x. lia.
  - transitivity r1; [by apply (exclude_paper_grows paper)|].
    intros l Hl. exists l. unfold assign_replacement.
    rewrite !excluded_list_of_insert_other by done.
    repeat split; [done|done|]. intros x. lia.
  - intros l Hl. exists l. unfold complete_record.
    rewrite !excluded_list_of_insert_other by done.
    repeat split; [done|done|]. intros x. lia.
Qed.

Section Exclusion.

Variable strftime : Q → string.
Variable repr : value → string.

(** C6.  For a record of the collection whose exclusion list (absent or a
    list) holds the paper at most once: the exclusion step of interrupt
    leaves a list that extends the old one and holds the paper exactly once,
    and repeating the step changes nothing; and after any sequence of
    interrupt, complete, get_current_slot and get_progress calls (so also
    after interrupting the same paper twice for the same slot) the record at
    that position has a list that extends the old one and still holds the
    paper at most once. *)
Theorem exclusion_idempotent_and_monotone (paper : value) (ops : list operation)
    (w : world) (j : nat) (r : record) (l : list value) :
  records_of w !! j = Some r →
  excluded_list_of r = Some l →
  (occurrences paper l ≤ 1)%nat →
  (∃ r1 l1, exclude_paper paper r = Some r1
            ∧ excluded_list_of r1 = Some l1
            ∧ occurrences paper l1 = 1%nat
            ∧ l `prefix_of` l1
            ∧ exclude_paper paper r1 = Some r1)
  ∧ (∃ r' l', records_of (run strftime repr ops w) !! j = Some r'
              ∧ excluded_list_of r' = Some l'
              ∧ l `prefix_of` l'
              ∧ (occurrences paper l' ≤ 1)%nat).
Proof.
  intros Hj Hl Hocc. split.
  - rewrite (exclude_paper_list paper r l Hl).
    destruct (existsb (py_eq paper) l) eqn:Hin.
    + exists r, l. split; [done|]. split; [done|].
      pose proof (occurrences_present _ _ Hin).
      split; [lia|]. split; [done|].
      by rewrite (exclude_paper_list paper r l Hl), Hin.
    + exists (<["excluded_papers" := VList (l ++ [paper])]> r), (l ++ [paper])%list.
      split; [done|]. split; [apply excluded_list_of_insert|].
      split.
      { rewrite occurrences_app, (occurrences_absent _ _ Hin), occurrences_self. lia. }
      split; [by apply prefix_app_r|].
      rewrite (exclude_paper_list paper _ (l ++ [paper])%list)
        by apply excluded_list_of_insert.
      rewrite existsb_app. cbn [existsb]. rewrite py_eq_refl.
      by rewrite orb_true_r.
  - pose proof (run_related strftime repr excluded_grows
                  record_step_excluded_grows ops w) as Hrel.
    destruct (Forall2_lookup_l _ _ _ _ _ Hrel Hj) as (r' & Hr' & Hgrow).
    destruct (Hgrow l Hl) as (l' & Hl' & Hpre & Hbound).
    exists r', l'. repeat split; try done. specialize (Hbound paper). lia.
Qed.

End Exclusion.

Lemma exclusion_idempotent_and_monotone_witness :
  let twice := [ Interrupt Sample.noon (VStr "alice") (VInt 1) (VStr "1");
                 Interrupt Sample.noon (VStr "alice") (VInt 1) (VStr "1") ] in
  let r := Sample.seeded "alice" 1 "1" false in
  (∃ r1 l1, exclude_paper (VStr "1") r = Some r1
            ∧ excluded_list_of r1 = Some l1
            ∧ occurrences (VStr "1") l1 = 1%nat
            ∧ [] `prefix_of` l1
            ∧ exclude_paper (VStr "1") r1 = Some r1)
  ∧ (∃ r' l',
       records_of (run Sample.stamp Sample.other_text twice Sample.alice_world) !! 2%nat
         = Some r'
       ∧ excluded_list_of r' = Some l'
       ∧ [] `prefix_of` l'
       ∧ (occurrences (VStr "1") l' ≤ 1)%nat).
Proof.
  apply (exclusion_idempotent_and_monotone Sample.stamp Sample.other_text
           (VStr "1") _ Sample.alice_world 2 _ []).
  - reflexivity.
  - reflexivity.
  - vm_compute. lia.
Defined.

(** ** Completion *)

Lemma int_of_Q_compat (q q' : Q) : (q == q')%Q → int_of_Q q = int_of_Q q'.
Proof.
  unfold Qeq, int_of_Q. destruct q as [n d], q' as [n' d']. cbn [Qnum Qden].
  intros H.
  rewrite <- (Z.quot_mul_cancel_r n (Z.pos d) (Z.pos d')) by lia.
  rewrite <- (Z.quot_mul_cancel_r n' (Z.pos d') (Z.pos d)) by lia.
  rewrite H. f_equal. lia.
Qed.

Lemma binary64_compat (q q' : Q) : (q == q')%Q → binary64 q = binary64 q'.
Proof. intros H. unfold binary64. by rewrite (Qred_complete q q' H). Qed.

Lemma binary64_zero (q : Q) : (q == 0)%Q → binary64 q = Some 0%Q.
Proof. intros H. by rewrite (binary64_compat q 0 H). Qed.

Lemma double_value (q x : Q) : double q → binary64 q = Some x → (x == q)%Q.
Proof.
  unfold double. intros -> [= <-]. apply Qred_correct.
Qed.

(** The difference of a float with itself is zero. *)
Lemma float_sub_diag (q x : Q) : float_sub q q = Some x → x = 0%Q.
Proof.
  unfold float_sub. destruct (binary64 q) as [a|]; [|done].
  rewrite (binary64_zero (a - a)) by apply Qplus_opp_r. by intros [= <-].
Qed.

(** On doubles whose difference is a double the subtraction is exact. *)
Lemma float_sub_exact (x y s d : Q) :
  double x → double y → double (x - y) → (s == y)%Q →
  float_sub x s = Some d → (d == x - y)%Q.
Proof.
  unfold double, float_sub. intros Hx Hy Hxy Hs.
  rewrite Hx, (binary64_compat s y Hs), Hy.
  rewrite (binary64_compat (Qred x - Qred y) (x - y))
    by (by rewrite !Qred_correct).
  rewrite Hxy. intros [= <-]. apply Qred_correct.
Qed.

Lemma truthy_number (v : value) (q : Q) :
  to_Q v = Some q → truthy v = negb (Qeq_bool q 0).
Proof.
  destruct v as [|b|z|q0|s|l]; try done; intros [= <-]; cbn [truthy].
  - by destruct b.
  - unfold Qeq_bool, inject_Z. cbn [Qnum Qden]. f_equal.
    rewrite Z.mul_1_r. by destruct z.
  - done.
Qed.

(** The operand of the subtraction is the number itself when that is a
    double. *)
Lemma as_float_double (v : value) (q s : Q) :
  to_Q v = Some q → double q → as_float v = Some s → (s == q)%Q.
Proof.
  destruct v as [|b|z|q0|t|l]; try done; cbn [to_Q as_float].
  - by intros [= <-] _ [= <-].
  - intros [= <-] Hq Hs. by apply double_value.
  - by intros [= <-] _ [= <-].
Qed.

(** The duration stored by a completion: zero when the record has no start
    time, a null one or a zero one; otherwise the difference between
    submission and start as the float subtraction gives it, the double nearest
    to the exact difference, truncated to whole seconds; that is the exact
    difference truncated when start and difference are doubles. *)
Lemma work_duration_of_cases (now : Q) (r : record) (d : Z) :
  work_duration_of now (get_or r "start_timestamp" (VFloat now)) = Some d →
  (r !! "start_timestamp" = None → d = 0)
  ∧ (truthy (get r "start_timestamp") = false → d = 0)
  ∧ (∀ q, to_Q (get r "start_timestamp") = Some q → ¬ (q == 0)%Q →
          ∃ s x, as_float (get r "start_timestamp") = Some s
                 ∧ float_sub now s = Some x
                 ∧ d = int_of_Q x)
  ∧ (∀ q, to_Q (get r "start_timestamp") = Some q → ¬ (q == 0)%Q →
          double now → double q → double (now - q) → d = int_of_Q (now - q)).
Proof.
  unfold work_duration_of, get_or, get.
  destruct (r !! "start_timestamp") as [v|] eqn:Hv; cbn [default from_option id].
  - intros Hd.
    assert (∀ q, to_Q v = Some q → ¬ (q == 0)%Q →
                 ∃ s x, as_float v = Some s ∧ float_sub now s = Some x
                        ∧ d = int_of_Q x) as Hnum.
    { intros q Hq Hne. rewrite (truthy_number v q Hq) in Hd.
      destruct (Qeq_bool q 0) eqn:Hz; [by apply Qeq_bool_eq in Hz|].
      cbn [negb] in Hd. unfold int_sub in Hd.
      destruct (as_float v) as [s|]; [|done].
      destruct (float_sub now s) as [x|] eqn:Hx; [|done].
      injection Hd as <-. by exists s, x. }
    split; [done|]. split; [|split; [done|]].
    + intros Hf. rewrite Hf in Hd. by injection Hd.
    + intros q Hq Hne Hnow Hdq Hdiff.
      destruct (Hnum q Hq Hne) as (s & x & Hs & Hx & ->).
      pose proof (as_float_double v q s Hq Hdq Hs) as Hsq.
      apply int_of_Q_compat. by apply (float_sub_exact now q s).
  - intros Hd. assert (d = 0) as ->.
    { cbn [truthy] in Hd. destruct (negb _); [|by injection Hd].
      unfold int_sub in Hd. cbn [as_float] in Hd.
      destruct (float_sub now now) as [x|] eqn:Hx; [|done].
      apply float_sub_diag in Hx as ->. by injection Hd as <-. }
    done.
Qed.

Lemma complete_record_other_keys (now : Q) (d : Z) (data : gmap string value)
    (r : record) (k : string) :
  k ∉ ["status"; "processed"; "submit_timestamp"; "work_duration";
       "evaluation"; "action"; "summary"] →
  complete_record now d data r !! k = r !! k.
Proof.
  intros Hk. unfold complete_record.
  rewrite !lookup_insert_ne; [done|intros <-; apply Hk; set_solver..].
Qed.

Section Completion.

Variable strftime : Q → string.
Variable repr : value → string.

(** C7, as amended.  A call of complete that returns true has found a record
    of the participant for that slot whose processed flag is false; the
    persisted collection is the old one with that record updated in place:
    status "completed", processed true, submit_timestamp now, the three text
    fields taken from evaluation_data with "" for a missing key, every other
    field as it was, and work_duration 0 when start_timestamp is missing,
    null or zero and otherwise int(now - start_timestamp): the difference as
    the float subtraction gives it (start_timestamp converted to a double when
    it is an integer, the exact difference rounded to the nearest double),
    truncated toward zero to whole seconds.  When now, start_timestamp and
    their exact difference are doubles, that is now - start_timestamp
    truncated toward zero. *)
Theorem completion_effect (o : oracle) (p s : value) (data : gmap string value)
    (w w' : world) :
  handle_completion strftime repr o p s data w = (true, w') →
  ∃ (records : list record) (i : nat) (r r' : record) (d : Z),
    file w = Some records
    ∧ records !! i = Some r
    ∧ belongs p r = true
    ∧ py_eq (get r "slot") s = true
    ∧ truthy (get r "processed") = false
    ∧ file w' = Some (<[i := r']> records)
    ∧ r' !! "status" = Some (VStr "completed")
    ∧ r' !! "processed" = Some (VBool true)
    ∧ r' !! "submit_timestamp" = Some (VFloat (time_time o))
    ∧ r' !! "work_duration" = Some (VInt d)
    ∧ (r !! "start_timestamp" = None → d = 0)
    ∧ (truthy (get r "start_timestamp") = false → d = 0)
    ∧ (∀ q, to_Q (get r "start_timestamp") = Some q → ¬ (q == 0)%Q →
            ∃ s x, as_float (get r "start_timestamp") = Some s
                   ∧ float_sub (time_time o) s = Some x
                   ∧ d = int_of_Q x)
    ∧ (∀ q, to_Q (get r "start_timestamp") = Some q → ¬ (q == 0)%Q →
            double (time_time o) → double q → double (time_time o - q) →
            d = int_of_Q (time_time o - q))
    ∧ r' !! "evaluation" = Some (get_or data "evaluation" (VStr ""))
    ∧ r' !! "action" = Some (get_or data "action" (VStr ""))
    ∧ r' !! "summary" = Some (get_or data "summary" (VStr ""))
    ∧ ∀ k, k ∉ ["status"; "processed"; "submit_timestamp"; "work_duration";
                "evaluation"; "action"; "summary"] →
           r' !! k = r !! k.
Proof.
  intros (records & i & r & d & Hfile & Htarget & Hd & _ & Hfile')
    %handle_completion_success.
  exists records, i, r, (complete_record (time_time o) d data r), d.
  destruct (find_target_spec _ _ _ _ Htarget) as [Hi _].
  apply find_target_holds in Htarget. unfold completion_target in Htarget.
  apply andb_true_iff in Htarget as [[Hp Hs]%andb_true_iff Hproc].
  apply negb_true_iff in Hproc.
  destruct (work_duration_of_cases _ _ _ Hd) as (Hd1 & Hd2 & Hd3 & Hd4).
  repeat (split; [done|]).
  repeat (split; [by unfold complete_record; simplify_map_eq|]).
  repeat (split; [done|]).
  repeat (split; [by unfold complete_record; simplify_map_eq|]).
  apply complete_record_other_keys.
Qed.

End Completion.

Lemma completion_effect_witness :
  let w := Sample.world_of [Sample.started] in
  let w' := snd (handle_completion Sample.stamp Sample.other_text Sample.noon
                   (VStr "alice") (VInt 1) Sample.answers w) in
  ∃ (records : list record) (i : nat) (r r' : record) (d : Z),
    file w = Some records
    ∧ records !! i = Some r
    ∧ belongs (VStr "alice") r = true
    ∧ py_eq (get r "slot") (VInt 1) = true
    ∧ truthy (get r "processed") = false
    ∧ file w' = Some (<[i := r']> records)
    ∧ r' !! "status" = Some (VStr "completed")
    ∧ r' !! "processed" = Some (VBool true)
    ∧ r' !! "submit_timestamp" = Some (VFloat (time_time Sample.noon))
    ∧ r' !! "work_duration" = Some (VInt d)
    ∧ (r !! "start_timestamp" = None → d = 0)
    ∧ (truthy (get r "start_timestamp") = false → d = 0)
    ∧ (∀ q, to_Q (get r "start_timestamp") = Some q → ¬ (q == 0)%Q →
            ∃ s x, as_float (get r "start_timestamp") = Some s
                   ∧ float_sub (time_time Sample.noon) s = Some x
                   ∧ d = int_of_Q x)
    ∧ (∀ q, to_Q (get r "start_timestamp") = Some q → ¬ (q == 0)%Q →
            double (time_time Sample.noon) → double q →
            double (time_time Sample.noon - q) →
            d = int_of_Q (time_time Sample.noon - q))
    ∧ r' !! "evaluation" = Some (get_or Sample.answers "evaluation" (VStr ""))
    ∧ r' !! "action" = Some (get_or Sample.answers "action" (VStr ""))
    ∧ r' !! "summary" = Some (get_or Sample.answers "summary" (VStr ""))
    ∧ ∀ k, k ∉ ["status"; "processed"; "submit_timestamp"; "work_duration";
                "evaluation"; "action"; "summary"] →
           r' !! k = r !! k.
Proof.
  apply (completion_effect Sample.stamp Sample.other_text Sample.noon
           (VStr "alice") (VInt 1) Sample.answers
           (Sample.world_of [Sample.started])).
  vm_compute. reflexivity.
Defined.

(** C7 as stated fails: the slot was opened at 1000.5 and is submitted at
    1002.25; the call succeeds and stores work_duration 1, which is not
    submit_timestamp - start_timestamp = 1.75. *)
Lemma completion_duration_truncated :
  let w := Sample.world_of [Sample.started] in
  let result := handle_completion Sample.stamp Sample.other_text Sample.noon
                  (VStr "alice") (VInt 1) Sample.answers w in
  Sample.started !! "start_timestamp" = Some (VFloat (2001 # 2))
  ∧ Sample.started !! "processed" = Some (VBool false)
  ∧ time_time Sample.noon = (4009 # 4)%Q
  ∧ fst result = true
  ∧ ∃ r', file (snd result) = Some [r']
          ∧ r' !! "submit_timestamp" = Some (VFloat (4009 # 4))
          ∧ r' !! "work_duration" = Some (VInt 1)
          ∧ ¬ (inject_Z 1 == (4009 # 4) - (2001 # 2))%Q.
Proof.
  cbv zeta. split; [reflexivity|]. split; [reflexivity|]. split; [reflexivity|].
  split; [vm_compute; reflexivity|].
  exists (complete_record (4009 # 4) 1 Sample.answers Sample.started).
  split.
  { vm_cast_no_check
      (@eq_refl (option (list record))
         (Some [complete_record (4009 # 4) 1 Sample.answers Sample.started])). }
  split; [vm_compute; reflexivity|]. split; [vm_compute; reflexivity|].
  intros H. vm_compute in H. discriminate H.
Qed.

(** Some roundings: the double nearest to 0.1; ties going to the even
    significand; the largest double and the first number beyond the doubles;
    the smallest subnormal. *)
Example binary64_values :
  binary64 (1 # 10) = Some (3602879701896397 # 36028797018963968)%Q
  ∧ binary64 (inject_Z (2 ^ 53 + 1)) = Some (inject_Z (2 ^ 53))
  ∧ binary64 (inject_Z (2 ^ 53 + 3)) = Some (inject_Z (2 ^ 53 + 4))
  ∧ binary64 (inject_Z (2 ^ 1024 - 2 ^ 970 - 1))
    = Some (inject_Z (2 ^ 1024 - 2 ^ 971))
  ∧ binary64 (inject_Z (2 ^ 1024 - 2 ^ 970)) = None
  ∧ binary64 (1 # Z.to_pos (2 ^ 1075)) = Some 0%Q
  ∧ binary64 (3 # Z.to_pos (2 ^ 1076)) = Some (1 # Z.to_pos (2 ^ 1074))%Q
  ∧ double (7 # 4) ∧ ¬ double (1 # 10).
Proof.
  repeat (split; [by vm_compute|]). unfold double. by vm_compute.
Qed.

(** The subtraction is that of floats.  A slot opened at 2^-30 seconds and
    submitted at 1700000000 gets the duration 1700000000, the difference
    rounded to the nearest double, where the exact difference truncates to
    1699999999; and an integer start time beyond the doubles makes the
    subtraction, and with it the call, fail. *)
Example completion_duration_rounded :
  let late := Oracle (1700000000 # 1) (1002 # 1) (1003 # 1) 0 in
  let r := <["start_timestamp" := VFloat (1 # 1073741824)]>
             (Sample.seeded "alice" 1 "1" false) in
  let huge := <["start_timestamp" := VInt (10 ^ 400)]>
                (Sample.seeded "alice" 1 "1" false) in
  int_sub (1700000000 # 1) (VFloat (1 # 1073741824)) = Some 1700000000
  ∧ int_of_Q ((1700000000 # 1) - (1 # 1073741824)) = 1699999999
  ∧ records_of (snd (handle_completion Sample.stamp Sample.other_text late
                       (VStr "alice") (VInt 1) Sample.answers (Sample.world_of [r])))
    = [complete_record (1700000000 # 1) 1700000000 Sample.answers r]
  ∧ int_sub (4009 # 4) (VInt (10 ^ 400)) = None
  ∧ fst (handle_completion Sample.stamp Sample.other_text Sample.noon
           (VStr "alice") (VInt 1) Sample.answers (Sample.world_of [huge])) = false.
Proof.
  cbv zeta. split; [by vm_compute|]. split; [by vm_compute|]. split.
  { set (r := <["start_timestamp" := VFloat (1 # 1073741824)]>
                (Sample.seeded "alice" 1 "1" false)).
    vm_cast_no_check
      (@eq_refl (list record)
         [complete_record (1700000000 # 1) 1700000000 Sample.answers r]). }
  split; by vm_compute.
Qed.

(** The same call on a record whose start time is the epoch itself stores a
    zero duration, not the time elapsed since then. *)
Lemma completion_duration_epoch_start :
  let r := <["start_timestamp" := VInt 0]> (Sample.seeded "alice" 1 "1" false) in
  let result := handle_completion Sample.stamp Sample.other_text Sample.noon
                  (VStr "alice") (VInt 1) Sample.answers (Sample.world_of [r]) in
  fst result = true
  ∧ ∃ r', file (snd result) = Some [r'] ∧ r' !! "work_duration" = Some (VInt 0).
Proof.
  cbv zeta. split; [vm_compute; reflexivity|].
  set (r := <["start_timestamp" := VInt 0]> (Sample.seeded "alice" 1 "1" false)).
  exists (complete_record (time_time Sample.noon) 0 Sample.answers r).
  split; [|vm_compute; reflexivity].
  vm_cast_no_check
    (@eq_refl (option (list record))
       (Some [complete_record (time_time Sample.noon) 0 Sample.answers r])).
Qed.

(** ** The stable sort of references by a numeric key *)

Section StableSort.

Variable k : nat → Q.

Lemma key_lt_true (a b : nat) : key_lt k a b = true ↔ (k a < k b)%Q.
Proof.
  unfold key_lt. rewrite negb_true_iff. split.
  - intros H. apply Qnot_le_lt. intros Hle. apply Qle_bool_iff in Hle. congruence.
  - intros H. destruct (Qle_bool (k b) (k a)) eqn:E; [|done].
    apply Qle_bool_iff in E. by apply Qlt_not_le in H.
Qed.

Lemma key_then_position_le (a b : nat) :
  key_then_position k a b → (k a <= k b)%Q.
Proof.
  intros [H|[H _]]; [by apply Qlt_le_weak|]. rewrite H. apply Qle_refl.
Qed.

Lemma insert_by_sorted (x : nat) (s : list nat) :
  StronglySorted (key_then_position k) s →
  (∀ y, y ∈ s → (x < y)%nat) →
  StronglySorted (key_then_position k) (insert_by (key_lt k) x s).
Proof.
  induction 1 as [|y s Hs IH Hy]; intros Hx; cbn [insert_by].
  - repeat constructor.
  - destruct (key_lt k y x) eqn:Hlt.
    + constructor.
      * apply IH. intros z Hz. apply Hx. by right.
      * apply Forall_forall. intros z Hz.
        rewrite insert_by_perm in Hz. apply elem_of_cons in Hz as [->|Hz].
        -- left. by apply key_lt_true.
        -- by apply (proj1 (Forall_forall _ _) Hy).
    + assert (k x <= k y)%Q as Hxy.
      { apply Qnot_lt_le. intros H. apply key_lt_true in H. congruence. }
      constructor; [by constructor|].
      apply Forall_forall. intros z Hz.
      assert (k y <= k z)%Q as Hyz.
      { apply elem_of_cons in Hz as [->|Hz]; [apply Qle_refl|].
        apply key_then_position_le. by apply (proj1 (Forall_forall _ _) Hy). }
      assert (k x <= k z)%Q as Hxz by (by apply Qle_trans with (k y)).
      apply Qle_lt_or_eq in Hxz as [Hxz|Hxz]; [by left|right].
      split; [done|]. apply Nat.lt_le_incl, Hx, Hz.
Qed.

Lemma sort_by_sorted (l : list nat) :
  StronglySorted lt l →
  StronglySorted (key_then_position k) (sort_by (key_lt k) l).
Proof.
  induction 1 as [|x l Hl IH Hx].
  - constructor.
  - change (sort_by (key_lt k) (x :: l))
      with (insert_by (key_lt k) x (sort_by (key_lt k) l)).
    apply insert_by_sorted; [done|].
    intros y Hy. rewrite sort_by_perm in Hy.
    by apply (proj1 (Forall_forall _ _) Hx).
Qed.

Lemma find_least (P : nat → bool) (s : list nat) (m : nat) :
  StronglySorted (key_then_position k) s →
  find P s = Some m →
  ∀ y, y ∈ s → P y = true → key_then_position k m y.
Proof.
  induction 1 as [|x s Hs IH Hx]; [done|]. cbn [find].
  destruct (P x) eqn:HPx.
  - intros [= <-] y [->|Hy]%elem_of_cons _.
    + right. split; [apply Qeq_refl|done].
    + by apply (proj1 (Forall_forall _ _) Hx).
  - intros Hm y [->|Hy]%elem_of_cons HPy; [congruence|]. by apply IH.
Qed.

End StableSort.

Lemma find_is_some {A} (P : A → bool) (l : list A) (y : A) :
  y ∈ l → P y = true → is_Some (find P l).
Proof.
  induction l as [|x l IH]; [by intros ?%elem_of_nil|].
  intros [->|Hy]%elem_of_cons HP; cbn [find].
  - rewrite HP. eauto.
  - destruct (P x); [eauto|by apply IH].
Qed.

Lemma insert_by_ext {A} (lt lt' : A → A → bool) (x : A) (l : list A) :
  (∀ y, y ∈ l → lt y x = lt' y x) → insert_by lt x l = insert_by lt' x l.
Proof.
  induction l as [|y l IH]; intros H; cbn [insert_by]; [done|].
  rewrite <- (H y) by (by left). destruct (lt y x); [|done].
  f_equal. apply IH. intros z Hz. apply H. by right.
Qed.

Lemma sort_by_ext {A} (lt lt' : A → A → bool) (l : list A) :
  (∀ x y, x ∈ l → y ∈ l → lt x y = lt' x y) → sort_by lt l = sort_by lt' l.
Proof.
  induction l as [|x l IH]; intros H; [done|].
  change (insert_by lt x (sort_by lt l) = insert_by lt' x (sort_by lt' l)).
  rewrite <- IH.
  - apply insert_by_ext. intros y Hy. rewrite sort_by_perm in Hy.
    apply H; [by right|by left].
  - intros a b Ha Hb. apply H; by right.
Qed.

(** ** References *)

Lemma refs_where_complete (P : record → bool) (records : list record)
    (k i : nat) (r : record) :
  records !! i = Some r → P r = true → (k + i)%nat ∈ refs_where P records k.
Proof.
  revert k i. induction records as [|r0 rest IH]; intros k i; [done|].
  cbn [refs_where]. destruct i as [|i]; cbn [lookup list_lookup].
  - intros [= ->] ->. rewrite Nat.add_0_r. by left.
  - intros Hi HP. specialize (IH (S k) i Hi HP).
    replace (k + S i)%nat with (S k + i)%nat by lia.
    destruct (P r0); [by right|done].
Qed.

Lemma refs_where_increasing (P : record → bool) (records : list record) (k : nat) :
  StronglySorted lt (refs_where P records k).
Proof.
  revert k. induction records as [|r0 rest IH]; intros k; cbn [refs_where].
  - constructor.
  - destruct (P r0); [|apply IH]. constructor; [apply IH|].
    apply Forall_forall. intros j Hj.
    apply refs_where_sound in Hj as (_ & _ & _ & Hle). lia.
Qed.

Lemma py_sort_numeric (key : nat → value) (l : list nat) :
  (∀ a, a ∈ l → is_num (key a) = true) →
  py_sort key l = Some (sort_by (key_lt (λ a, default 0%Q (to_Q (key a)))) l).
Proof.
  intros Hnum. unfold py_sort.
  destruct l as [|a [|b l]]; [done|done|].
  assert (forallb (λ a, is_num (key a)) (a :: b :: l) = true) as ->.
  { apply forallb_forall. intros x Hx. apply Hnum. by apply list_elem_of_In. }
  f_equal. apply sort_by_ext. intros x y Hx Hy.
  pose proof (Hnum x Hx) as Hkx. pose proof (Hnum y Hy) as Hky.
  unfold is_num in Hkx, Hky. unfold num_lt, key_lt.
  destruct (to_Q (key x)); [|done]. by destruct (to_Q (key y)).
Qed.

Lemma slot_fields_spec (r : record) :
  slot_fields r = true →
  ∃ s paper h, r !! "slot" = Some s ∧ is_num s = true
               ∧ r !! "paper_id" = Some paper ∧ r !! "has_summary" = Some h.
Proof.
  unfold slot_fields, get.
  intros [[Hs Hp%bool_decide_eq_true]%andb_true_iff Hh%bool_decide_eq_true]%andb_true_iff.
  destruct Hp as [paper Hp]. destruct Hh as [h Hh].
  destruct (r !! "slot") as [s|]; [|done]. by exists s, paper, h.
Qed.

Lemma deref_slot_number (records : list record) (i : nat) (r : record) :
  records !! i = Some r →
  default 0%Q (to_Q (deref_get records "slot" (VInt 0) i)) = slot_number r.
Proof. unfold deref_get, slot_number, slot_key. by intros ->. Qed.

(** ** The current slot *)

Lemma match_nonempty {A B} (l : list A) (a b : B) :
  l ≠ [] → match l with [] => a | _ :: _ => b end = b.
Proof. by destruct l. Qed.

(** The call on a readable file in which some record of the participant is
    selectable, every record of the participant carrying its slot fields. *)
Lemma current_slot_selected (o : oracle) (p : value) (w : world)
    (records : list record) (j0 : nat) (r0 : record) :
  file w = Some records →
  (∀ r, r ∈ records → belongs p r = true → slot_fields r = true) →
  records !! j0 = Some r0 → belongs p r0 = true → selectable r0 = true →
  ∃ (i : nat) (r : record) (s paper h : value),
    records !! i = Some r
    ∧ belongs p r = true
    ∧ selectable r = true
    ∧ r !! "slot" = Some s ∧ r !! "paper_id" = Some paper
    ∧ r !! "has_summary" = Some h
    ∧ (∀ j r2, records !! j = Some r2 → belongs p r2 = true →
               selectable r2 = true →
               key_then_position
                 (λ a, default 0%Q (to_Q (deref_get records "slot" (VInt 0) a)))
                 i j)
    ∧ get_current_slot_for_participant o p w
      = let r' := <["start_timestamp" := VFloat (time_time o)]> r in
        let '(_, w1) := save_evaluation_records (<[i := r']> records) w in
        (Some r', say (slot_started s paper (truthy h)) w1).
Proof.
  intros Hfile Hfields Hj0 Hb0 Hs0.
  pose (refs := refs_where (belongs p) records 0).
  pose (key := deref_get records "slot" (VInt 0)).
  assert (j0 ∈ refs) as Hj0refs by apply (refs_where_complete _ _ 0 j0 r0 Hj0 Hb0).
  assert (∀ a, a ∈ refs → is_num (key a) = true) as Hnum.
  { intros a (r & Hr & Hb)%refs_where_lookup. unfold key, deref_get. rewrite Hr.
    destruct (slot_fields_spec r) as (s & _ & _ & Hs & Hn & _).
    { apply Hfields; [by eapply list_elem_of_lookup_2|done]. }
    unfold get_or. by rewrite Hs. }
  pose proof (py_sort_numeric key refs Hnum) as Hsort.
  pose (k := λ a, default 0%Q (to_Q (key a))).
  pose (sorted := sort_by (key_lt k) refs).
  assert (StronglySorted (key_then_position k) sorted) as Hsorted
    by apply sort_by_sorted, refs_where_increasing.
  destruct (find_is_some (deref_test records selectable) sorted j0) as [i Hfind].
  { unfold sorted. by rewrite sort_by_perm. }
  { unfold deref_test. by rewrite Hj0. }
  pose proof (find_least k _ _ _ Hsorted Hfind) as Hleast.
  pose proof (find_elem _ _ _ Hfind) as [Hin Htest].
  apply deref_test_true in Htest as (r & Hr & Hsel).
  assert (i ∈ refs) as Hirefs by (unfold sorted in Hin; by rewrite sort_by_perm in Hin).
  destruct (refs_where_lookup _ _ _ Hirefs) as (r' & Hr' & Hb).
  assert (r' = r) as -> by congruence.
  destruct (slot_fields_spec r) as (s & paper & h & Hs & _ & Hpaper & Hh).
  { apply Hfields; [by eapply list_elem_of_lookup_2|done]. }
  exists i, r, s, paper, h. repeat (split; [done|]). split.
  - intros j r2 Hj Hb2 Hs2. apply Hleast.
    + unfold sorted. rewrite sort_by_perm.
      apply (refs_where_complete _ _ 0 j r2 Hj Hb2).
    + unfold deref_test. by rewrite Hj.
  - unfold get_current_slot_for_participant.
    rewrite (load_readable _ _ Hfile).
    rewrite match_nonempty by (by intros ->).
    rewrite match_nonempty by (intros Hnil; fold refs in Hnil; rewrite Hnil in Hj0refs;
                               by apply elem_of_nil in Hj0refs).
    fold refs. fold key. rewrite Hsort. fold k. fold sorted. rewrite Hfind, Hr.
    cbv zeta. destruct (save_evaluation_records _ _) as [b w1].
    rewrite !lookup_insert_ne by done. by rewrite Hs, Hpaper, Hh.
Qed.

(** C2.  On a readable collection, get_current_slot returns None and leaves
    the file as it is when no record of the participant has status
    "assigned" and a false processed flag.  Otherwise, when the file can be
    written and the participant's records carry a numeric slot, a paper and a
    condition flag, it picks among the participant's records with status
    "assigned" and a false processed flag the one of least slot (the earliest
    in the file among equal slots, the sort being stable), returns it with
    start_timestamp set to the current time, and the file holds the whole
    collection with that record so updated in place. *)
Theorem current_slot_selection (o : oracle) (p : value) (w : world)
    (records : list record) :
  file w = Some records →
  let result := get_current_slot_for_participant o p w in
  ((∀ r, r ∈ records → belongs p r = true → selectable r = false) →
   fst result = None ∧ file (snd result) = Some records)
  ∧ (disk_writable w = true →
     (∀ r, r ∈ records → belongs p r = true → slot_fields r = true) →
     ∀ j0 r0, records !! j0 = Some r0 → belongs p r0 = true →
              selectable r0 = true →
     ∃ (i : nat) (r : record),
       records !! i = Some r
       ∧ belongs p r = true
       ∧ selectable r = true
       ∧ (∀ j r2, records !! j = Some r2 → belongs p r2 = true →
                  selectable r2 = true →
                  (slot_number r <= slot_number r2)%Q
                  ∧ ((slot_number r == slot_number r2)%Q → (i ≤ j)%nat))
       ∧ fst result = Some (<["start_timestamp" := VFloat (time_time o)]> r)
       ∧ file (snd result)
         = Some (<[i := <["start_timestamp" := VFloat (time_time o)]> r]> records)).
Proof.
  intros Hfile result. split.
  - intros Hnone.
    destruct (get_current_slot_cases o p w)
      as [[Hres Hf]|(records' & i & r & Hfile' & Hi & Hr & Hsel & _)].
    + split; [done|]. unfold result. by rewrite Hf.
    + assert (records' = records) as -> by congruence.
      apply refs_where_lookup in Hi as (r' & Hr' & Hb).
      assert (r' = r) as -> by congruence.
      rewrite (Hnone r) in Hsel; [done|by eapply list_elem_of_lookup_2|done].
  - intros Hdisk Hfields j0 r0 Hj0 Hb0 Hs0.
    destruct (current_slot_selected o p w records j0 r0 Hfile Hfields Hj0 Hb0 Hs0)
      as (i & r & s & paper & h & Hr & Hb & Hsel & _ & _ & _ & Hleast & Hcall).
    exists i, r. repeat (split; [done|]). split; [|split].
    + intros j r2 Hj Hb2 Hs2.
      pose proof (Hleast j r2 Hj Hb2 Hs2) as Hle. unfold key_then_position in Hle.
      rewrite (deref_slot_number records i r Hr),
        (deref_slot_number records j r2 Hj) in Hle.
      destruct Hle as [Hlt|[Heq Hij]].
      * split; [by apply Qlt_le_weak|]. intros Heq. by apply Qlt_not_eq in Hlt.
      * split; [|done]. rewrite Heq. apply Qle_refl.
    + unfold result. rewrite Hcall. cbv zeta. unfold save_evaluation_records.
      by rewrite Hdisk.
    + unfold result. rewrite Hcall. cbv zeta. unfold save_evaluation_records.
      by rewrite Hdisk.
Qed.

Lemma current_slot_selection_witness :
  let idle :=
    get_current_slot_for_participant Sample.noon (VStr "carol") Sample.alice_world in
  let result :=
    get_current_slot_for_participant Sample.noon (VStr "alice") Sample.alice_world in
  (fst idle = None ∧ file (snd idle) = Some Sample.alice_records)
  ∧ ∃ (i : nat) (r : record),
      Sample.alice_records !! i = Some r
      ∧ belongs (VStr "alice") r = true
      ∧ selectable r = true
      ∧ (∀ j r2, Sample.alice_records !! j = Some r2 →
                 belongs (VStr "alice") r2 = true → selectable r2 = true →
                 (slot_number r <= slot_number r2)%Q
                 ∧ ((slot_number r == slot_number r2)%Q → (i ≤ j)%nat))
      ∧ fst result
        = Some (<["start_timestamp" := VFloat (time_time Sample.noon)]> r)
      ∧ file (snd result)
        = Some (<[i := <["start_timestamp" := VFloat (time_time Sample.noon)]> r]>
                  Sample.alice_records).
Proof.
  split.
  - apply (current_slot_selection Sample.noon (VStr "carol") Sample.alice_world
             Sample.alice_records); [reflexivity|].
    intros r Hr Hb. unfold Sample.alice_records in Hr.
    repeat (apply elem_of_cons in Hr as [->|Hr]; [by vm_compute in Hb|]).
    by apply elem_of_nil in Hr.
  - apply (proj2 (current_slot_selection Sample.noon (VStr "alice")
                    Sample.alice_world Sample.alice_records eq_refl)
             eq_refl) with (j0 := 2%nat) (r0 := Sample.seeded "alice" 1 "1" false);
      try reflexivity.
    intros r Hr _. unfold Sample.alice_records in Hr.
    repeat (apply elem_of_cons in Hr as [->|Hr]; [reflexivity|]).
    by apply elem_of_nil in Hr.
Defined.

(** On the sample collection the record returned is alice's slot 1, the
    third record of the file, stamped with the time of the call. *)
Example current_slot_alice :
  fst (get_current_slot_for_participant Sample.noon (VStr "alice") Sample.alice_world)
  = Some (<["start_timestamp" := VFloat (4009 # 4)]>
            (Sample.seeded "alice" 1 "1" false)).
Proof.
  vm_cast_no_check
    (@eq_refl (option record)
       (Some (<["start_timestamp" := VFloat (4009 # 4)]>
                (Sample.seeded "alice" 1 "1" false)))).
Qed.

(** ** Progress and selection *)

Lemma participant_sort (p : value) (records : list record) :
  (∀ r, r ∈ records → belongs p r = true → slot_fields r = true) →
  py_sort (deref_get records "slot" (VInt 0)) (refs_where (belongs p) records 0)
  = Some (sort_by
            (key_lt (λ a, default 0%Q (to_Q (deref_get records "slot" (VInt 0) a))))
            (refs_where (belongs p) records 0)).
Proof.
  intros Hfields. apply py_sort_numeric.
  intros a (r & Hr & Hb)%refs_where_lookup. unfold deref_get. rewrite Hr.
  destruct (slot_fields_spec r) as (s & _ & _ & Hs & Hn & _).
  { apply Hfields; [by eapply list_elem_of_lookup_2|done]. }
  unfold get_or. by rewrite Hs.
Qed.

Lemma find_ext {A} (f g : A → bool) (l : list A) :
  (∀ x, x ∈ l → f x = g x) → find f l = find g l.
Proof.
  induction l as [|x l IH]; intros H; [done|]. cbn [find].
  rewrite <- (H x) by (by left). destruct (f x); [done|].
  apply IH. intros y Hy. apply H. by right.
Qed.

Lemma count_refs (P Q : record → bool) (all rest : list record) (k : nat) :
  (∀ i, rest !! i = all !! (k + i)%nat) →
  length (filter (λ i, deref_test all Q i = true) (refs_where P rest k))
  = length (filter (λ r, P r && Q r = true) rest).
Proof.
  revert k. induction rest as [|r0 rest IH]; intros k Hall; [done|].
  assert (deref_test all Q k = Q r0) as Hk.
  { unfold deref_test. specialize (Hall 0%nat). rewrite Nat.add_0_r in Hall.
    by rewrite <- Hall. }
  assert (length (filter (λ i, deref_test all Q i = true) (refs_where P rest (S k)))
          = length (filter (λ r, P r && Q r = true) rest)) as IH'.
  { apply IH. intros i. specialize (Hall (S i)).
    by replace (S k + i)%nat with (k + S i)%nat by lia. }
  cbn [refs_where]. rewrite (filter_cons _ r0).
  destruct (P r0); cbn [andb].
  - rewrite filter_cons, Hk. destruct (Q r0).
    + rewrite !decide_True by done. cbn [length]. by rewrite IH'.
    + rewrite !decide_False by done. done.
  - by rewrite decide_False.
Qed.

Lemma count_completed_spec (p : value) (records : list record) :
  count_completed records (refs_where (belongs p) records 0)
  = length (filter (λ r, belongs p r && is_completed r = true) records).
Proof. unfold count_completed. by apply count_refs. Qed.

(** C3, as amended.  For a participant with at least one record in a
    readable collection, whose records carry a numeric slot other than 5, a
    paper and a condition flag and are selectable exactly when not completed:
    the current_slot of get_progress is the slot of the record that
    get_current_slot returns, and it is 5 exactly when get_current_slot
    returns none; completed_slots is the number of the participant's records
    with status "completed"; total_slots is 4.  (For a participant without
    records current_slot is 1.) *)
Theorem progress_agrees_with_selection (o : oracle) (p : value) (w : world)
    (records : list record) (j0 : nat) (r0 : record) :
  file w = Some records →
  records !! j0 = Some r0 → belongs p r0 = true →
  (∀ r, r ∈ records → belongs p r = true →
        slot_fields r = true ∧ life_cycle r = true) →
  let prog := fst (get_participant_progress p w) in
  let sel := fst (get_current_slot_for_participant o p w) in
  (∀ r, sel = Some r → r !! "slot" = Some (current_slot prog))
  ∧ (sel = None ↔ current_slot prog = VInt 5)
  ∧ completed_slots prog
    = length (filter (λ r, belongs p r && is_completed r = true) records)
  ∧ total_slots prog = 4.
Proof.
  intros Hfile Hj0 Hb0 Hwf prog sel.
  assert (∀ r, r ∈ records → belongs p r = true → slot_fields r = true) as Hfields.
  { intros r Hr Hb. by apply Hwf. }
  pose (refs := refs_where (belongs p) records 0).
  pose (k := λ a, default 0%Q (to_Q (deref_get records "slot" (VInt 0) a))).
  pose (sorted := sort_by (key_lt k) refs).
  assert (records ≠ []) as Hrecords by (by intros ->).
  assert (refs ≠ []) as Hrefs.
  { intros Hnil. pose proof (refs_where_complete _ _ 0 j0 r0 Hj0 Hb0) as Hin.
    fold refs in Hin. rewrite Hnil in Hin. by apply elem_of_nil in Hin. }
  assert (∀ x, x ∈ sorted →
               ∃ r s paper h, records !! x = Some r ∧ belongs p r = true
                 ∧ r !! "slot" = Some s ∧ r !! "paper_id" = Some paper
                 ∧ r !! "has_summary" = Some h ∧ life_cycle r = true) as Hsorted.
  { intros x Hx. unfold sorted in Hx. rewrite sort_by_perm in Hx.
    apply refs_where_lookup in Hx as (r & Hr & Hb).
    destruct (Hwf r) as [Hf Hl]; [by eapply list_elem_of_lookup_2|done|].
    destruct (slot_fields_spec r Hf) as (s & paper & h & Hs & _ & Hpaper & Hh).
    by exists r, s, paper, h. }
  assert (find (deref_test records (λ r, negb (is_completed r))) sorted
          = find (deref_test records selectable) sorted) as Hfind.
  { apply find_ext. intros x (r & _ & _ & _ & Hr & _ & _ & _ & _ & Hl)%Hsorted.
    unfold deref_test. rewrite Hr. unfold life_cycle in Hl.
    apply andb_true_iff in Hl as [Hl _]. symmetry. by apply eqb_prop. }
  assert (get_participant_progress p w
          = (Progress (count_completed records refs)
               match find (deref_test records selectable) sorted with
               | Some i => deref_get records "slot" (VInt 1) i
               | None => VInt 5
               end 4, w)) as Hprog.
  { unfold get_participant_progress. rewrite (load_readable _ _ Hfile).
    rewrite match_nonempty by exact Hrefs.
    rewrite (participant_sort p records Hfields).
    fold refs. fold k. fold sorted. by rewrite Hfind. }
  assert (get_current_slot_for_participant o p w
          = match find (deref_test records selectable) sorted with
            | Some i =>
                match records !! i with
                | Some r =>
                    let r := <["start_timestamp" := VFloat (time_time o)]> r in
                    let '(_, w) := save_evaluation_records (<[i := r]> records) w in
                    match r !! "slot", r !! "paper_id", r !! "has_summary" with
                    | Some s, Some paper, Some h =>
                        (Some r, say (slot_started s paper (truthy h)) w)
                    | _, _, _ => current_slot_raise w
                    end
                | None => current_slot_raise w
                end
            | None =>
                (None, say (all_completed p (count_completed records sorted)) w)
            end) as Hsel.
  { unfold get_current_slot_for_participant. rewrite (load_readable _ _ Hfile).
    rewrite match_nonempty by done. rewrite match_nonempty by exact Hrefs.
    by rewrite (participant_sort p records Hfields). }
  unfold prog, sel. rewrite Hprog, Hsel. cbn [fst current_slot completed_slots total_slots].
  destruct (find (deref_test records selectable) sorted) as [i|] eqn:Hi.
  - apply find_elem in Hi as [Hin _].
    destruct (Hsorted i Hin) as (r & s & paper & h & Hr & _ & Hs & Hpaper & Hh & Hl).
    rewrite Hr. cbv zeta. destruct (save_evaluation_records _ _) as [b w1].
    rewrite !lookup_insert_ne by done. rewrite Hs, Hpaper, Hh. cbn [fst].
    unfold deref_get, get_or. rewrite Hr, Hs. cbn [default from_option id].
    split; [intros r' [= <-]; by rewrite lookup_insert_ne|].
    split; [|split; [apply count_completed_spec|done]].
    split; [done|]. intros ->.
    unfold life_cycle, get in Hl. rewrite Hs in Hl.
    apply andb_true_iff in Hl as [_ Hl]. done.
  - cbn [fst]. split; [done|]. split; [done|].
    split; [apply count_completed_spec|done].
Qed.

(** C3 as stated fails: carol has no record in the sample collection;
    get_current_slot selects no record for her, and get_progress reports
    current_slot 1, not the sentinel 5. *)
Lemma progress_without_selection_is_not_sentinel :
  Forall (λ r, belongs (VStr "carol") r = false) Sample.alice_records
  ∧ fst (get_current_slot_for_participant Sample.noon (VStr "carol")
           Sample.alice_world) = None
  ∧ current_slot (fst (get_participant_progress (VStr "carol") Sample.alice_world))
    = VInt 1
  ∧ current_slot (fst (get_participant_progress (VStr "carol") Sample.alice_world))
    ≠ VInt 5.
Proof. split; [repeat constructor|]. by vm_compute. Qed.

(** A record with status "assigned" whose processed flag is already true is
    outside the life cycle: get_progress reports its slot as current, and
    get_current_slot does not select it. *)
Lemma progress_and_selection_outside_life_cycle :
  let r := <["processed" := VBool true]> (Sample.seeded "alice" 1 "1" false) in
  let w := Sample.world_of [r] in
  life_cycle r = false
  ∧ fst (get_current_slot_for_participant Sample.noon (VStr "alice") w) = None
  ∧ current_slot (fst (get_participant_progress (VStr "alice") w)) = VInt 1.
Proof. by vm_compute. Qed.

Lemma progress_agrees_with_selection_witness :
  let prog := fst (get_participant_progress (VStr "alice") Sample.alice_world) in
  let sel := fst (get_current_slot_for_participant Sample.noon (VStr "alice")
                    Sample.alice_world) in
  (∀ r, sel = Some r → r !! "slot" = Some (current_slot prog))
  ∧ (sel = None ↔ current_slot prog = VInt 5)
  ∧ completed_slots prog
    = length (filter (λ r, belongs (VStr "alice") r && is_completed r = true)
                Sample.alice_records)
  ∧ total_slots prog = 4.
Proof.
  apply (progress_agrees_with_selection Sample.noon (VStr "alice")
           Sample.alice_world Sample.alice_records 0
           (Sample.seeded "alice" 2 "3" true)).
  - reflexivity.
  - reflexivity.
  - reflexivity.
  - intros r Hr _. unfold Sample.alice_records in Hr.
    repeat (apply elem_of_cons in Hr as [->|Hr]; [by vm_compute|]).
    by apply elem_of_nil in Hr.
Defined.

(** ** No assignment and all complete *)

Lemma find_none {A} (f : A → bool) (l : list A) :
  (∀ x, x ∈ l → f x = false) → find f l = None.
Proof.
  induction l as [|x l IH]; intros H; [done|]. cbn [find].
  rewrite (H x) by (by left). apply IH. intros y Hy. apply H. by right.
Qed.

Lemma completed_not_selectable (r : record) :
  is_completed r = true → selectable r = false.
Proof.
  unfold is_completed, selectable.
  destruct (get r "status") as [| | | |s|]; try done.
  intros ->%py_eq_str. done.
Qed.

(** The call for a participant none of whose records is in the collection:
    nothing is returned and only error messages are shown. *)
Lemma current_slot_no_assignment (o : oracle) (p : value) (w : world) :
  Forall (λ r, belongs p r = false) (records_of w) →
  ∃ shown,
    get_current_slot_for_participant o p w
    = (None, World (file w) (disk_writable w) (sheets_up w) (worksheet w)
               (ui w ++ shown) (session w))
    ∧ shown ≠ []
    ∧ Forall (λ n, severity_of n = Error) shown.
Proof.
  unfold records_of, get_current_slot_for_participant, load_evaluation_records.
  destruct (file w) as [records|] eqn:Hfile; cbn [default from_option id].
  - intros Hnone. destruct records as [|r0 rest] eqn:Hrecords.
    + exists [no_records]. unfold say. rewrite Hfile.
      split; [done|]. split; [done|]. by repeat constructor.
    + rewrite (refs_where_none _ _ _ Hnone).
      exists [participant_not_found p]. unfold say. rewrite Hfile.
      split; [done|]. split; [done|]. by repeat constructor.
  - intros _. exists [load_error; no_records]. unfold say. cbn.
    rewrite Hfile, <- app_assoc.
    split; [done|]. split; [done|]. by repeat constructor.
Qed.

(** The call for a participant all of whose records are completed: nothing
    is returned and the one message shown announces the completion. *)
Lemma current_slot_all_complete (o : oracle) (p : value) (w : world)
    (records : list record) (j0 : nat) (r0 : record) :
  file w = Some records →
  records !! j0 = Some r0 → belongs p r0 = true →
  (∀ r, r ∈ records → belongs p r = true →
        is_completed r = true ∧ slot_fields r = true) →
  ∃ c, get_current_slot_for_participant o p w = (None, say (all_completed p c) w).
Proof.
  intros Hfile Hj0 Hb0 Hall.
  unfold get_current_slot_for_participant. rewrite (load_readable _ _ Hfile).
  rewrite match_nonempty by (by intros ->).
  rewrite match_nonempty.
  2:{ intros Hnil. pose proof (refs_where_complete _ _ 0 j0 r0 Hj0 Hb0) as Hin.
      rewrite Hnil in Hin. by apply elem_of_nil in Hin. }
  rewrite participant_sort.
  2:{ intros r Hr Hb. by apply Hall. }
  rewrite find_none; [by eexists|].
  intros x Hx. rewrite sort_by_perm in Hx.
  apply refs_where_lookup in Hx as (r & Hr & Hb).
  unfold deref_test. rewrite Hr. apply completed_not_selectable.
  apply Hall; [by eapply list_elem_of_lookup_2|done].
Qed.

(** C9.  get_current_slot for a participant without any record and
    get_current_slot for a participant all of whose records are completed
    both return None, and they differ in what they report: the first shows
    error messages only, the second shows the one success message that all
    evaluations are complete; the messages shown are never the same. *)
Theorem no_assignment_differs_from_all_complete (o : oracle) (p : value)
    (w1 w2 : world) (records : list record) (j0 : nat) (r0 : record) :
  Forall (λ r, belongs p r = false) (records_of w1) →
  file w2 = Some records →
  records !! j0 = Some r0 → belongs p r0 = true →
  (∀ r, r ∈ records → belongs p r = true →
        is_completed r = true ∧ slot_fields r = true) →
  let none := get_current_slot_for_participant o p w1 in
  let complete := get_current_slot_for_participant o p w2 in
  ∃ (shown : list notice) (c : nat),
    fst none = None
    ∧ fst complete = None
    ∧ ui (snd none) = (ui w1 ++ shown)%list
    ∧ shown ≠ []
    ∧ Forall (λ n, severity_of n = Error) shown
    ∧ ui (snd complete) = (ui w2 ++ [all_completed p c])%list
    ∧ severity_of (all_completed p c) = Success
    ∧ shown ≠ [all_completed p c].
Proof.
  intros Hnone Hfile Hj0 Hb0 Hall none complete.
  destruct (current_slot_no_assignment o p w1 Hnone) as (shown & Hcall1 & Hne & Herr).
  destruct (current_slot_all_complete o p w2 records j0 r0 Hfile Hj0 Hb0 Hall)
    as (c & Hcall2).
  exists shown, c. unfold none, complete. rewrite Hcall1, Hcall2.
  repeat (split; [done|]).
  intros ->. apply Forall_cons in Herr as [Herr _]. done.
Qed.

Lemma no_assignment_differs_from_all_complete_witness :
  let none := get_current_slot_for_participant Sample.noon (VStr "dave")
                Sample.alice_world in
  let complete := get_current_slot_for_participant Sample.noon (VStr "dave")
                    (Sample.world_of Sample.dave_records) in
  ∃ (shown : list notice) (c : nat),
    fst none = None
    ∧ fst complete = None
    ∧ ui (snd none) = (ui Sample.alice_world ++ shown)%list
    ∧ shown ≠ []
    ∧ Forall (λ n, severity_of n = Error) shown
    ∧ ui (snd complete)
      = (ui (Sample.world_of Sample.dave_records)
         ++ [all_completed (VStr "dave") c])%list
    ∧ severity_of (all_completed (VStr "dave") c) = Success
    ∧ shown ≠ [all_completed (VStr "dave") c].
Proof.
  apply (no_assignment_differs_from_all_complete Sample.noon (VStr "dave")
           Sample.alice_world (Sample.world_of Sample.dave_records)
           Sample.dave_records 0 (Sample.finished "dave" 1 "1" true)).
  - repeat constructor.
  - reflexivity.
  - reflexivity.
  - reflexivity.
  - intros r Hr _. unfold Sample.dave_records in Hr.
    repeat (apply elem_of_cons in Hr as [->|Hr]; [by vm_compute|]).
    by apply elem_of_nil in Hr.
Defined.

(** ** After a completion *)

#[global] Instance stays_processed_refl : Reflexive stays_processed.
Proof. by intros r. Qed.

#[global] Instance stays_processed_trans : Transitive stays_processed.
Proof.
  intros r1 r2 r3 (Hp12 & Hs12 & H12) (Hp23 & Hs23 & H23).
  split; [congruence|]. split; [congruence|auto].
Qed.

Lemma record_step_stays_processed (r r' : record) :
  record_step r r' → stays_processed r r'.
Proof.
  intros [now r0 _|paper repl r0 r1 Hexcl|now d data r0 _]; unfold stays_processed, get.
  - by rewrite !lookup_insert_ne.
  - unfold assign_replacement. rewrite !lookup_insert_ne by done.
    by rewrite !(exclude_paper_other_keys paper r0 r1).
  - unfold complete_record. by simplify_map_eq.
Qed.

Lemma belongs_same_participant (p : value) (r r' : record) :
  r' !! "participant_id" = r !! "participant_id" → belongs p r' = belongs p r.
Proof. unfold belongs, get. by intros ->. Qed.

Lemma selectable_unprocessed (r : record) :
  selectable r = true → truthy (get r "processed") = false.
Proof.
  unfold selectable. intros [_ H]%andb_true_iff. by apply negb_true_iff.
Qed.

(** The length of a filtered list grows by one when an element outside the
    filter is replaced by one inside. *)
Lemma filter_insert_gain (P : record → bool) (l : list record) (i : nat)
    (x y : record) :
  l !! i = Some x → P x = false → P y = true →
  length (filter (λ r, P r = true) (<[i := y]> l))
  = S (length (filter (λ r, P r = true) l)).
Proof.
  revert i. induction l as [|z l IH]; intros i; [done|].
  destruct i as [|i].
  - change (<[0%nat := y]> (z :: l)) with (y :: l).
    intros [= ->] Hx Hy. rewrite !filter_cons.
    rewrite decide_True by done. by rewrite decide_False by congruence.
  - change (<[S i := y]> (z :: l)) with (z :: <[i := y]> l).
    intros Hi Hx Hy. rewrite !filter_cons.
    destruct (decide (P z = true)); cbn [length]; by rewrite (IH i Hi Hx Hy).
Qed.

(** The number of completed slots that get_progress reports for a
    participant who has a record, all of whose records carry their slot
    fields. *)
Lemma progress_completed_count (p : value) (w : world) (records : list record)
    (j0 : nat) (r0 : record) :
  file w = Some records →
  records !! j0 = Some r0 → belongs p r0 = true →
  (∀ r, r ∈ records → belongs p r = true → slot_fields r = true) →
  completed_slots (fst (get_participant_progress p w))
  = length (filter (λ r, belongs p r && is_completed r = true) records).
Proof.
  intros Hfile Hj0 Hb0 Hfields.
  unfold get_participant_progress. rewrite (load_readable _ _ Hfile).
  rewrite match_nonempty.
  2:{ intros Hnil. pose proof (refs_where_complete _ _ 0 j0 r0 Hj0 Hb0) as Hin.
      rewrite Hnil in Hin. by apply elem_of_nil in Hin. }
  rewrite (participant_sort p records Hfields).
  cbn [fst completed_slots]. apply count_completed_spec.
Qed.

Section AfterCompletion.

Variable strftime : Q → string.
Variable repr : value → string.

Lemma complete_record_identity (now : Q) (d : Z) (data : gmap string value)
    (p : value) (r : record) :
  belongs p (complete_record now d data r) = belongs p r
  ∧ get (complete_record now d data r) "slot" = get r "slot"
  ∧ slot_fields (complete_record now d data r) = slot_fields r
  ∧ is_completed (complete_record now d data r) = true
  ∧ truthy (get (complete_record now d data r) "processed") = true.
Proof.
  unfold belongs, slot_fields, is_completed, get, complete_record.
  by simplify_map_eq.
Qed.

(** Right after a successful completion get_progress counts one completed
    slot more, provided the participant's records carry their slot fields and
    none of them is completed without being processed. *)
Lemma completion_counts_one_more (o : oracle) (p s : value)
    (data : gmap string value) (w w1 : world) (records : list record) :
  handle_completion strftime repr o p s data w = (true, w1) →
  file w = Some records →
  (∀ r, r ∈ records → belongs p r = true →
        slot_fields r = true
        ∧ (is_completed r = true → truthy (get r "processed") = true)) →
  completed_slots (fst (get_participant_progress p w1))
  = S (completed_slots (fst (get_participant_progress p w))).
Proof.
  intros (records' & i & r & d & Hfile' & Htarget & _ & _ & Hfile1)
    %handle_completion_success Hfile Hwf.
  assert (records' = records) as -> by congruence.
  destruct (find_target_spec _ _ _ _ Htarget) as [Hi _].
  apply find_target_holds in Htarget. unfold completion_target in Htarget.
  apply andb_true_iff in Htarget as [[Hb _]%andb_true_iff Hproc%negb_true_iff].
  set (r' := complete_record (time_time o) d data r) in *.
  destruct (complete_record_identity (time_time o) d data p r)
    as (Hb' & _ & Hf' & Hc' & _). fold r' in Hb', Hf', Hc'.
  assert (is_completed r = false) as Hc.
  { destruct (is_completed r) eqn:Hc; [|done].
    destruct (Hwf r) as [_ H]; [by eapply list_elem_of_lookup_2|done|].
    rewrite (H Hc) in Hproc. done. }
  rewrite (progress_completed_count p w records i r Hfile Hi Hb).
  2:{ intros x Hx Hbx. by apply Hwf. }
  rewrite (progress_completed_count p w1 (<[i := r']> records) i r' Hfile1).
  - apply (filter_insert_gain (λ x, belongs p x && is_completed x) records i r r' Hi).
    + by rewrite Hc, andb_false_r.
    + by rewrite Hb', Hb, Hc'.
  - apply list_lookup_insert_eq. by eapply lookup_lt_Some.
  - by rewrite Hb'.
  - intros x [j Hj]%list_elem_of_lookup Hbx. destruct (decide (j = i)) as [->|Hne].
    + rewrite list_lookup_insert_eq in Hj by (by eapply lookup_lt_Some).
      injection Hj as <-. rewrite Hf'.
      by apply Hwf; [eapply list_elem_of_lookup_2|].
    + rewrite list_lookup_insert_ne in Hj by done.
      by apply Hwf; [eapply list_elem_of_lookup_2|].
Qed.

(** After a successful completion of the only record of the participant for
    that slot, no run of operations makes get_current_slot return a record of
    that participant and slot: the processed flag stays true. *)
Lemma completed_slot_not_selected_again (o : oracle) (p s : value)
    (data : gmap string value) (w w1 : world) (records : list record) :
  handle_completion strftime repr o p s data w = (true, w1) →
  file w = Some records →
  (∀ j1 j2 r1 r2, records !! j1 = Some r1 → records !! j2 = Some r2 →
     belongs p r1 = true → py_eq (get r1 "slot") s = true →
     belongs p r2 = true → py_eq (get r2 "slot") s = true → j1 = j2) →
  ∀ (ops : list operation) (o' : oracle) (q : value) (ret : record),
    fst (get_current_slot_for_participant o' q (run strftime repr ops w1))
      = Some ret →
    ¬ (belongs p ret = true ∧ py_eq (get ret "slot") s = true).
Proof.
  intros (records' & i & r & d & Hfile' & Htarget & _ & _ & Hfile1)
    %handle_completion_success Hfile Hunique ops o' q ret Hret [Hbret Hsret].
  assert (records' = records) as -> by congruence.
  destruct (find_target_spec _ _ _ _ Htarget) as [Hi _].
  apply find_target_holds in Htarget. unfold completion_target in Htarget.
  apply andb_true_iff in Htarget as [[Hb Hs]%andb_true_iff _].
  set (r' := complete_record (time_time o) d data r) in *.
  destruct (complete_record_identity (time_time o) d data p r)
    as (Hb' & Hs' & _ & _ & Hp'). fold r' in Hb', Hs', Hp'.
  pose proof (run_related strftime repr stays_processed
                record_step_stays_processed ops w1) as Hrel.
  unfold records_of in Hrel at 1. rewrite Hfile1 in Hrel.
  cbn [default from_option id] in Hrel.
  destruct (get_current_slot_cases o' q (run strftime repr ops w1))
    as [[Hnone _]|(final & j & rj & Hfinal & _ & Hj & Hsel & _ & [Hnone|Hsome])];
    try congruence.
  rewrite Hsome in Hret. injection Hret as <-.
  unfold records_of in Hrel. rewrite Hfinal in Hrel.
  cbn [default from_option id] in Hrel.
  destruct (Forall2_lookup_r _ _ _ _ _ Hrel Hj) as (r1 & Hr1 & Hpid & Hslot & Hkeep).
  assert (belongs p rj = true) as Hbj.
  { unfold belongs, get in Hbret |- *. by rewrite lookup_insert_ne in Hbret. }
  assert (py_eq (get rj "slot") s = true) as Hsj.
  { unfold get in Hsret |- *. by rewrite lookup_insert_ne in Hsret. }
  assert (belongs p r1 = true) as Hb1
    by (by rewrite <- (belongs_same_participant p r1 rj Hpid)).
  assert (py_eq (get r1 "slot") s = true) as Hs1
    by (unfold get in *; by rewrite <- Hslot).
  assert (j = i) as ->.
  { destruct (decide (j = i)) as [->|Hne]; [done|].
    rewrite list_lookup_insert_ne in Hr1 by done.
    by apply (Hunique j i r1 r). }
  rewrite list_lookup_insert_eq in Hr1 by (by eapply lookup_lt_Some).
  injection Hr1 as <-.
  apply selectable_unprocessed in Hsel. rewrite (Hkeep Hp') in Hsel. done.
Qed.

End AfterCompletion.

(** C8.  Alice submits slot 1 and get_progress counts one completed slot.
    An interruption of the same slot and paper then still finds the
    completed record and succeeds: the record gets another paper and status
    "assigned" while keeping processed true and its answers, get_progress
    counts no completed slot any more and reports slot 1 as current, and
    get_current_slot returns slot 2. *)
Theorem completed_slot_reopened_by_interruption :
  let alice := VStr "alice" in
  let w1 := run Sample.stamp Sample.other_text
              [Complete Sample.noon alice (VInt 1) Sample.answers]
              Sample.alice_world in
  let w2 := run Sample.stamp Sample.other_text
              [Interrupt Sample.noon alice (VInt 1) (VStr "1")] w1 in
  fst (handle_completion Sample.stamp Sample.other_text Sample.noon alice (VInt 1)
         Sample.answers Sample.alice_world) = true
  ∧ completed_slots (fst (get_participant_progress alice Sample.alice_world)) = 0%nat
  ∧ completed_slots (fst (get_participant_progress alice w1)) = 1%nat
  ∧ (∃ r, records_of w1 !! 2%nat = Some r
          ∧ r !! "status" = Some (VStr "completed")
          ∧ r !! "processed" = Some (VBool true)
          ∧ r !! "paper_id" = Some (VStr "1"))
  ∧ fst (handle_interruption Sample.stamp Sample.noon alice (VInt 1) (VStr "1") w1)
    = true
  ∧ (∃ r, records_of w2 !! 2%nat = Some r
          ∧ r !! "status" = Some (VStr "assigned")
          ∧ r !! "processed" = Some (VBool true)
          ∧ r !! "paper_id" = Some (VStr "2")
          ∧ r !! "evaluation" = Some (VStr "x"))
  ∧ completed_slots (fst (get_participant_progress alice w2)) = 0%nat
  ∧ current_slot (fst (get_participant_progress alice w2)) = VInt 1
  ∧ (∃ r, fst (get_current_slot_for_participant Sample.noon alice w2) = Some r
          ∧ r !! "slot" = Some (VInt 2)).
Proof.
  cbv zeta.
  set (r1 := complete_record (time_time Sample.noon) 0 Sample.answers
               (Sample.seeded "alice" 1 "1" false)).
  set (r2 := assign_replacement "2" (<["excluded_papers" := VList [VStr "1"]]> r1)).
  set (r3 := <["start_timestamp" := VFloat (time_time Sample.noon)]>
               (Sample.seeded "alice" 2 "3" true)).
  split; [by vm_compute|]. split; [by vm_compute|]. split; [by vm_compute|].
  split.
  { exists r1. split; [|by vm_compute].
    vm_cast_no_check (@eq_refl (option record) (Some r1)). }
  split; [by vm_compute|].
  split.
  { exists r2. split; [|by vm_compute].
    vm_cast_no_check (@eq_refl (option record) (Some r2)). }
  split; [by vm_compute|]. split; [by vm_compute|].
  exists r3. split; [|by vm_compute].
  vm_cast_no_check (@eq_refl (option record) (Some r3)).
Qed.

(** ** The example of the specification *)

(** Alice has slots 1 to 4, all assigned.  get_current_slot returns slot 1
    with its start time set; completing slot 1 returns true; get_progress
    then reports one completed slot, slot 2 as current and 4 slots in all. *)
Example alice_first_slot :
  let alice := VStr "alice" in
  let opened := get_current_slot_for_participant Sample.noon alice Sample.alice_world in
  let submitted :=
    handle_completion Sample.stamp Sample.other_text Sample.noon alice (VInt 1)
      Sample.answers (snd opened) in
  (∃ r, fst opened = Some r
        ∧ r !! "slot" = Some (VInt 1)
        ∧ r !! "start_timestamp" = Some (VFloat (time_time Sample.noon)))
  ∧ fst submitted = true
  ∧ fst (get_participant_progress alice (snd submitted)) = Progress 1 (VInt 2) 4.
Proof.
  cbv zeta. split; [|split; by vm_compute].
  exists (<["start_timestamp" := VFloat (time_time Sample.noon)]>
            (Sample.seeded "alice" 1 "1" false)).
  split; [|split; by vm_compute].
  vm_cast_no_check
    (@eq_refl (option record)
       (Some (<["start_timestamp" := VFloat (time_time Sample.noon)]>
                (Sample.seeded "alice" 1 "1" false)))).
Qed.

Example py_str_values :
  py_str Sample.other_text (VBool false) = "False"
  ∧ py_str Sample.other_text (VInt 0) = "0"
  ∧ py_str Sample.other_text (VInt 12) = "12"
  ∧ py_str Sample.other_text (VInt (-3)) = "-3"
  ∧ py_str Sample.other_text VNone = "None".
Proof. by vm_compute. Qed.

(** ** Failed calls *)

Lemma pair_of_fst {A B} (x : A * B) (a : A) : fst x = a → x = (a, snd x).
Proof. destruct x as [a0 b]. cbn. by intros ->. Qed.

Lemma only_shows_say (n : notice) (w : world) : only_shows w (say n w) [n].
Proof. done. Qed.

Lemma only_shows_say2 (m n : notice) (w : world) :
  only_shows w (say n (say m w)) [m; n].
Proof. unfold only_shows, say. cbn. by rewrite <- app_assoc. Qed.

Lemma only_shows_app (w w1 w2 : world) (l1 l2 : list notice) :
  only_shows w w1 l1 → only_shows w1 w2 l2 → only_shows w w2 (l1 ++ l2).
Proof.
  unfold only_shows. intros -> ->. cbn. by rewrite app_assoc.
Qed.

Lemma load_only_shows (w : world) :
  ∃ shown, only_shows w (snd (load_evaluation_records w)) shown
           ∧ Forall (λ n, severity_of n = Error) shown
           ∧ fst (load_evaluation_records w) = records_of w.
Proof.
  unfold load_evaluation_records, records_of.
  destruct (file w) as [records|] eqn:Hfile.
  - exists []. split; [|split; [constructor|done]].
    unfold only_shows. rewrite app_nil_r. by destruct w.
  - exists [load_error]. split; [apply only_shows_say|]. split; [|done].
    by repeat constructor.
Qed.

Section Failures.

Variable strftime : Q → string.
Variable repr : value → string.

(** A call of [handle_completion] that returns [False] has shown at least
    one message, errors only, and has changed nothing else: not the file, not
    the worksheet, not the session. *)
Theorem failed_completion_changes_nothing (o : oracle) (p s : value)
    (data : gmap string value) (w w' : world) :
  handle_completion strftime repr o p s data w = (false, w') →
  ∃ shown, only_shows w w' shown
           ∧ shown ≠ []
           ∧ Forall (λ n, severity_of n = Error) shown.
Proof.
  unfold handle_completion.
  destruct (load_only_shows w) as (l0 & Hload & Herr0 & Hrecords).
  destruct (load_evaluation_records w) as [records w0].
  cbn [fst snd] in Hload, Hrecords.
  assert (∀ l w', only_shows w0 w' l → l ≠ [] →
                  Forall (λ n, severity_of n = Error) l →
                  ∃ shown, only_shows w w' shown ∧ shown ≠ []
                           ∧ Forall (λ n, severity_of n = Error) shown) as Hdone.
  { intros l w1 Hl Hne Herr. exists (l0 ++ l)%list.
    split; [by eapply only_shows_app|]. split; [|by apply Forall_app].
    intros [_ ->]%app_eq_nil. done. }
  destruct records as [|r0 rest] eqn:Hrec.
  { intros [= <-]. apply (Hdone [no_records]); [done|done|by repeat constructor]. }
  rewrite <- Hrec.
  destruct (find_target _ records) as [[i r]|].
  2:{ intros [= <-].
      apply (Hdone [completion_target_not_found p s]); [done|done|by repeat constructor]. }
  destruct (work_duration_of _ _) as [d|].
  2:{ intros [= <-].
      apply (Hdone [completion_exception; traceback_shown]);
        [apply only_shows_say2|done|by repeat constructor]. }
  unfold save_evaluation_records. destruct (disk_writable w0).
  - by destruct (save_completion_to_sheets _ _ _ _ _).
  - intros [= <-].
    apply (Hdone [save_error; completion_save_failed]);
      [apply only_shows_say2|done|by repeat constructor].
Qed.

(** The same for [handle_interruption]. *)
Theorem failed_interruption_changes_nothing (o : oracle) (p s paper : value)
    (w w' : world) :
  handle_interruption strftime o p s paper w = (false, w') →
  ∃ shown, only_shows w w' shown
           ∧ shown ≠ []
           ∧ Forall (λ n, severity_of n = Error) shown.
Proof.
  unfold handle_interruption.
  destruct (load_only_shows w) as (l0 & Hload & Herr0 & Hrecords).
  destruct (load_evaluation_records w) as [records w0].
  cbn [fst snd] in Hload, Hrecords.
  assert (∀ l w', only_shows w0 w' l → l ≠ [] →
                  Forall (λ n, severity_of n = Error) l →
                  ∃ shown, only_shows w w' shown ∧ shown ≠ []
                           ∧ Forall (λ n, severity_of n = Error) shown) as Hdone.
  { intros l w1 Hl Hne Herr. exists (l0 ++ l)%list.
    split; [by eapply only_shows_app|]. split; [|by apply Forall_app].
    intros [_ ->]%app_eq_nil. done. }
  destruct records as [|r0 rest] eqn:Hrec.
  { intros [= <-]. apply (Hdone [no_records]); [done|done|by repeat constructor]. }
  rewrite <- Hrec.
  destruct (find_target _ records) as [[i r]|].
  2:{ intros [= <-].
      apply (Hdone [interruption_target_not_found p s paper]);
        [done|done|by repeat constructor]. }
  destruct (exclude_paper paper r) as [r1|].
  2:{ intros [= <-].
      apply (Hdone [interruption_exception; traceback_shown]);
        [apply only_shows_say2|done|by repeat constructor]. }
  unfold select_replacement_paper.
  destruct (available_among all_papers _) as [[|a rest']|].
  - intros [= <-]. apply (Hdone [no_replacement]); [done|done|by repeat constructor].
  - destruct (truthy _).
    + destruct (save_evaluation_records _ _) as [b1 w1].
      by destruct (save_interruption_to_sheets _ _ _ _ _ _ _).
    + intros [= <-]. apply (Hdone [no_replacement]); [done|done|by repeat constructor].
  - intros [= <-].
    apply (Hdone [replacement_exception; no_replacement]);
      [apply only_shows_say2|done|by repeat constructor].
Qed.

End Failures.

Lemma failed_completion_changes_nothing_witness :
  ∃ shown,
    only_shows Sample.alice_world
      (snd (handle_completion Sample.stamp Sample.other_text Sample.noon
              (VStr "carol") (VInt 1) Sample.answers Sample.alice_world)) shown
    ∧ shown ≠ []
    ∧ Forall (λ n, severity_of n = Error) shown.
Proof.
  apply (failed_completion_changes_nothing Sample.stamp Sample.other_text
           Sample.noon (VStr "carol") (VInt 1) Sample.answers Sample.alice_world).
  vm_compute. reflexivity.
Defined.

Lemma failed_interruption_changes_nothing_witness :
  ∃ shown,
    only_shows (Sample.world_of [Sample.nearly_exhausted])
      (snd (handle_interruption Sample.stamp Sample.noon (VStr "alice") (VInt 1)
              (VStr "6") (Sample.world_of [Sample.nearly_exhausted]))) shown
    ∧ shown ≠ []
    ∧ Forall (λ n, severity_of n = Error) shown.
Proof.
  apply (failed_interruption_changes_nothing Sample.stamp Sample.noon
           (VStr "alice") (VInt 1) (VStr "6")
           (Sample.world_of [Sample.nearly_exhausted])).
  vm_compute. reflexivity.
Defined.

(** ** Successful interruptions *)

Lemma available_among_fresh (papers : list string) (c : value) (l : list string)
    (x : string) :
  available_among papers c = Some l → x ∈ l → py_in (VStr x) c = Some false.
Proof.
  revert l. induction papers as [|p rest IH]; intros l; cbn [available_among].
  - intros [= <-] Hx. by apply elem_of_nil in Hx.
  - destruct (py_in (VStr p) c) as [b|] eqn:Hp; [|done].
    destruct (available_among rest c) as [l0|]; [|done].
    intros [= <-] Hx. destruct b; [by apply (IH l0)|].
    apply elem_of_cons in Hx as [->|Hx]; [done|by apply (IH l0)].
Qed.

Lemma exclude_paper_excludes (paper : value) (r r1 : record) :
  exclude_paper paper r = Some r1 →
  py_in paper (get_or r1 "excluded_papers" (VList [])) = Some true.
Proof.
  unfold exclude_paper.
  destruct (py_in paper (get_or r "excluded_papers" (VList []))) as [[]|] eqn:Hin;
    [by intros [= <-]| |done].
  destruct (py_append _ paper) as [l|] eqn:Happ; [|done]. intros [= <-].
  unfold py_append in Happ.
  destruct (get _ "excluded_papers") as [| | | | |l0]; try done.
  injection Happ as <-.
  unfold get_or. rewrite lookup_insert_eq. cbn [default from_option id py_in].
  rewrite existsb_app. cbn [existsb]. by rewrite py_eq_refl, orb_true_r.
Qed.

Section Interrupted.

Variable strftime : Q → string.



(** The paper that a successful interruption assigns is a paper of the
    catalog, is not in the record's exclusion list, and is not the paper that
    was interrupted, which is in that list. *)
Theorem replacement_is_fresh (o : oracle) (p s paper : value) (w w' : world) :
  disk_writable w = true →
  handle_interruption strftime o p s paper w = (true, w') →
  ∃ (i : nat) (r' : record) (replacement : string),
    records_of w' !! i = Some r'
    ∧ interruption_target p s (VStr replacement) r' = true
    ∧ replacement ∈ all_papers
    ∧ py_in (VStr replacement) (get_or r' "excluded_papers" (VList [])) = Some false
    ∧ py_in paper (get_or r' "excluded_papers" (VList [])) = Some true
    ∧ VStr replacement ≠ paper.
Proof.
  intros Hdisk (records & i & r & r1 & available & Hfile & Htarget & Hexcl
                & Havail & Hne & Hfile')%handle_interruption_success.
  rewrite Hdisk in Hfile'.
  destruct (find_target_spec _ _ _ _ Htarget) as [Hi _].
  apply find_target_holds in Htarget. unfold interruption_target in Htarget.
  apply andb_true_iff in Htarget as [[Hb Hs]%andb_true_iff _].
  set (repl := random_choice o available) in *.
  assert (repl ∈ available) as Hin by (by apply random_choice_in).
  assert (get_or (assign_replacement repl r1) "excluded_papers" (VList [])
          = get_or r1 "excluded_papers" (VList [])) as Hex.
  { unfold get_or. by rewrite assign_replacement_other_keys. }
  pose proof (available_among_fresh _ _ _ _ Havail Hin) as Hfresh.
  pose proof (exclude_paper_excludes _ _ _ Hexcl) as Hold.
  exists i, (assign_replacement repl r1), repl.
  split.
  { unfold records_of. rewrite Hfile'. cbn [default from_option id].
    apply list_lookup_insert_eq. by eapply lookup_lt_Some. }
  split.
  { unfold interruption_target, belongs, get.
    rewrite !assign_replacement_other_keys by done.
    rewrite !(exclude_paper_other_keys paper r r1) by done.
    unfold belongs, get in Hb, Hs. rewrite Hb, Hs.
    unfold assign_replacement. rewrite lookup_insert_ne by done.
    rewrite lookup_insert_ne by done. rewrite lookup_insert_eq.
    cbn [default from_option id]. by rewrite py_eq_str_refl. }
  split; [by apply (available_among_subset _ _ _ Havail)|].
  rewrite Hex. split; [done|]. split; [done|].
  intros <-. congruence.
Qed.

End Interrupted.


Lemma replacement_is_fresh_witness :
  ∃ (i : nat) (r' : record) (replacement : string),
    records_of (snd (handle_interruption Sample.stamp Sample.noon (VStr "alice")
                       (VInt 1) (VStr "1") Sample.alice_world)) !! i = Some r'
    ∧ interruption_target (VStr "alice") (VInt 1) (VStr replacement) r' = true
    ∧ replacement ∈ all_papers
    ∧ py_in (VStr replacement) (get_or r' "excluded_papers" (VList [])) = Some false
    ∧ py_in (VStr "1") (get_or r' "excluded_papers" (VList [])) = Some true
    ∧ VStr replacement ≠ VStr "1".
Proof.
  apply (replacement_is_fresh Sample.stamp Sample.noon (VStr "alice") (VInt 1)
           (VStr "1") Sample.alice_world).
  - reflexivity.
  - apply pair_of_fst. vm_compute. reflexivity.
Defined.

(** ** What no run changes *)

#[global] Instance keeps_identity_refl : Reflexive keeps_identity.
Proof. by intros r. Qed.

#[global] Instance keeps_identity_trans : Transitive keeps_identity.
Proof.
  intros r1 r2 r3 [H12 P12] [H23 P23]. split; [|auto].
  intros k Hk. by rewrite H23, H12.
Qed.

Lemma record_step_keeps_identity (r r' : record) :
  record_step r r' → keeps_identity r r'.
Proof.
  intros Hstep. split.
  - intros k Hk. unfold engine_fields in Hk. rewrite !not_elem_of_cons in Hk.
    destruct Hk as (? & ? & ? & ? & ? & ? & ? & ? & ? & ? & _).
    destruct Hstep as [now r0 _|paper repl r0 r1 Hexcl|now d data r0 _].
    + by rewrite lookup_insert_ne.
    + rewrite assign_replacement_other_keys by done.
      by rewrite (exclude_paper_other_keys paper r0 r1).
    + unfold complete_record. by rewrite !lookup_insert_ne.
  - by destruct (record_step_stays_processed r r' Hstep) as (_ & _ & H).
Qed.

Section Frame.

Variable strftime : Q → string.
Variable repr : value → string.

(** Whatever calls are made, the file keeps its records in number and
    order, every record keeps all the fields the engine does not write
    ([participant_id], [slot], [has_summary] and any field the engine does not
    know), and a record whose [processed] flag is set keeps it set. *)
Theorem run_keeps_identity (ops : list operation) (w : world) :
  Forall2 keeps_identity (records_of w) (records_of (run strftime repr ops w)).
Proof.
  apply run_related; [apply _|apply _|]. apply record_step_keeps_identity.
Qed.

End Frame.

(** ** Participants do not interfere *)

Section Isolation.

Variable strftime : Q → string.
Variable repr : value → string.

(** The dictionary a call rewrites belongs to the participant the call is
    made for. *)
Lemma operation_touches_own (op : operation) (w : world) :
  file (run_operation strftime repr w op) = file w
  ∨ ∃ (records : list record) (i : nat) (r r' : record),
      file w = Some records
      ∧ records !! i = Some r
      ∧ belongs (operation_participant op) r = true
      ∧ file (run_operation strftime repr w op) = Some (<[i := r']> records).
Proof.
  destruct op as [o p|p|o p s paper|o p s data];
    cbn [run_operation operation_participant].
  - destruct (get_current_slot_cases o p w)
      as [[_ H]|(records & i & r & Hfile & Hin & Hi & _ & Hfile' & _)];
      [by left|].
    destruct (disk_writable w); [|left; congruence].
    right. exists records, i, r, (<["start_timestamp" := VFloat (time_time o)]> r).
    repeat split; try done.
    apply refs_where_lookup in Hin as (r0 & Hr0 & Hb). congruence.
  - left. apply get_progress_keeps_file.
  - destruct (handle_interruption strftime o p s paper w) as [[] w'] eqn:Hcall;
      cbn [snd].
    + apply handle_interruption_success in Hcall
        as (records & i & r & r1 & available & Hfile & Htarget & _ & _ & _ & Hfile').
      destruct (disk_writable w); [|left; congruence].
      right. exists records, i, r, (assign_replacement (random_choice o available) r1).
      destruct (find_target_spec _ _ _ _ Htarget) as [Hi _].
      repeat split; try done.
      apply find_target_holds in Htarget. unfold interruption_target in Htarget.
      by apply andb_true_iff in Htarget as [[Hb _]%andb_true_iff _].
    + left. by apply (handle_interruption_failure strftime o p s paper).
  - destruct (handle_completion strftime repr o p s data w) as [[] w'] eqn:Hcall;
      cbn [snd].
    + apply handle_completion_success in Hcall
        as (records & i & r & d & Hfile & Htarget & _ & _ & Hfile').
      right. exists records, i, r, (complete_record (time_time o) d data r).
      destruct (find_target_spec _ _ _ _ Htarget) as [Hi _].
      repeat split; try done.
      apply find_target_holds in Htarget. unfold completion_target in Htarget.
      by apply andb_true_iff in Htarget as [[Hb _]%andb_true_iff _].
    + left. by apply (handle_completion_failure strftime repr o p s data).
Qed.

(** A record is left exactly as it is, at its position, by any run of calls
    made for participant ids that its [participant_id] does not equal. *)
Theorem run_leaves_other_participants (ops : list operation) (w : world)
    (i : nat) (r : record) :
  records_of w !! i = Some r →
  Forall (λ op, belongs (operation_participant op) r = false) ops →
  records_of (run strftime repr ops w) !! i = Some r.
Proof.
  intros Hi Hops. revert w Hi.
  induction Hops as [|op ops Hop _ IH]; intros w Hi; [done|].
  change (run strftime repr (op :: ops) w)
    with (run strftime repr ops (run_operation strftime repr w op)).
  apply IH. unfold records_of in *.
  destruct (operation_touches_own op w)
    as [->|(records & j & rj & r' & Hfile & Hj & Hb & ->)]; [done|].
  rewrite Hfile in Hi. cbn [default from_option id] in *.
  destruct (decide (j = i)) as [->|Hne]; [congruence|].
  by rewrite list_lookup_insert_ne.
Qed.

End Isolation.

Lemma run_leaves_other_participants_witness :
  records_of
    (run Sample.stamp Sample.other_text
       [ GetCurrentSlot Sample.noon (VStr "alice");
         Interrupt Sample.noon (VStr "alice") (VInt 1) (VStr "1");
         Complete Sample.noon (VStr "alice") (VInt 1) Sample.answers;
         GetProgress (VStr "alice") ]
       Sample.alice_world) !! 1%nat
  = Some (Sample.seeded "bob" 1 "4" true).
Proof.
  apply (run_leaves_other_participants Sample.stamp Sample.other_text).
  - reflexivity.
  - repeat constructor.
Defined.

(** ** Submitting twice *)

Section Resubmission.

Variable strftime : Q → string.
Variable repr : value → string.

(** When the participant has a single record for the slot, a second
    submission of a slot that was submitted successfully is refused: the
    call finds no record to complete, reports it, and returns [False] with
    the file, the worksheet and the session as the first call left them. *)
Theorem second_completion_rejected (o1 o2 : oracle) (p s : value)
    (data1 data2 : gmap string value) (w w1 : world) :
  (∀ i j ri rj,
     records_of w !! i = Some ri → records_of w !! j = Some rj →
     belongs p ri = true → belongs p rj = true →
     py_eq (get ri "slot") s = true → py_eq (get rj "slot") s = true →
     i = j) →
  handle_completion strftime repr o1 p s data1 w = (true, w1) →
  handle_completion strftime repr o2 p s data2 w1
  = (false, say (completion_target_not_found p s) w1).
Proof.
  intros Hunique
    (records & i & r & d & Hfile & Htarget & _ & _ & Hfile1)%handle_completion_success.
  destruct (find_target_spec _ _ _ _ Htarget) as [Hi _].
  apply find_target_holds in Htarget. unfold completion_target in Htarget.
  apply andb_true_iff in Htarget as [[Hb Hs]%andb_true_iff _].
  unfold records_of in Hunique. rewrite Hfile in Hunique.
  cbn [default from_option id] in Hunique.
  set (r' := complete_record (time_time o1) d data1 r) in *.
  unfold handle_completion. rewrite (load_readable _ _ Hfile1).
  rewrite match_nonempty.
  2:{ intros Hnil. apply (f_equal length) in Hnil. rewrite length_insert in Hnil.
      apply lookup_lt_Some in Hi. cbn in Hnil. lia. }
  unfold find_target, first_where. rewrite refs_where_none; [done|].
  apply Forall_lookup. intros j x Hj.
  destruct (decide (j = i)) as [->|Hne].
  - rewrite list_lookup_insert_eq in Hj by (by eapply lookup_lt_Some).
    injection Hj as <-. unfold completion_target.
    destruct (complete_record_identity (time_time o1) d data1 p r)
      as (_ & _ & _ & _ & Hproc).
    fold r' in Hproc. rewrite Hproc. cbn. by rewrite andb_false_r.
  - rewrite list_lookup_insert_ne in Hj by done.
    unfold completion_target.
    destruct (belongs p x) eqn:Hbx; [|done].
    destruct (py_eq (get x "slot") s) eqn:Hsx; [|done].
    destruct Hne. by apply (Hunique j i x r).
Qed.

End Resubmission.

Lemma second_completion_rejected_witness :
  handle_completion Sample.stamp Sample.other_text Sample.noon (VStr "alice")
    (VInt 1) Sample.answers
    (snd (handle_completion Sample.stamp Sample.other_text Sample.noon
            (VStr "alice") (VInt 1) Sample.answers
            (Sample.world_of [Sample.started])))
  = (false,
     say (completion_target_not_found (VStr "alice") (VInt 1))
       (snd (handle_completion Sample.stamp Sample.other_text Sample.noon
               (VStr "alice") (VInt 1) Sample.answers
               (Sample.world_of [Sample.started])))).
Proof.
  apply (second_completion_rejected Sample.stamp Sample.other_text Sample.noon
           Sample.noon (VStr "alice") (VInt 1) Sample.answers Sample.answers
           (Sample.world_of [Sample.started])).
  - intros [|i] [|j] ri rj Hi Hj _ _ _ _; done.
  - apply pair_of_fst. vm_compute. reflexivity.
Defined.

(** ** The worksheet is an append-only log *)

Section Worksheet.

Variable strftime : Q → string.
Variable repr : value → string.

Lemma completion_row_full_width (o : oracle) (r : record) (cells : row) :
  completion_row strftime repr o r = Some cells → full_width cells.
Proof.
  unfold completion_row.
  destruct (time_cell _ _) as [c1|]; [|done].
  destruct (time_cell _ _) as [c2|]; [|done]. by intros [= <-].
Qed.

Lemma get_current_slot_keeps_worksheet (o : oracle) (p : value) (w : world) :
  worksheet (snd (get_current_slot_for_participant o p w)) = worksheet w.
Proof.
  unfold get_current_slot_for_participant, load_evaluation_records,
    save_evaluation_records, current_slot_raise.
  repeat case_match; simplify_eq; done.
Qed.

Lemma get_progress_keeps_worksheet (p : value) (w : world) :
  worksheet (snd (get_participant_progress p w)) = worksheet w.
Proof.
  unfold get_participant_progress, load_evaluation_records.
  repeat case_match; simplify_eq; done.
Qed.

Lemma save_interruption_appended (o : oracle) (p s paper : value) (repl : string)
    (w : world) :
  ∃ added,
    appended w (snd (save_interruption_to_sheets strftime o p s paper repl w)) added
    ∧ Forall full_width added ∧ (length added ≤ 1)%nat.
Proof.
  unfold save_interruption_to_sheets, get_results_worksheet, appended.
  destruct (sheets_up w); [|exists []; split; [by left|split; [constructor|cbn; lia]]].
  exists [interruption_row strftime o p paper repl].
  split; [|split; [by repeat constructor|done]].
  right. by destruct (worksheet w) eqn:Hws; cbn; rewrite ?Hws.
Qed.

Lemma save_completion_appended (o : oracle) (r : record) (w : world) :
  ∃ added,
    appended w (snd (save_completion_to_sheets strftime repr o r w)) added
    ∧ Forall full_width added ∧ (length added ≤ 1)%nat.
Proof.
  unfold save_completion_to_sheets, get_results_worksheet, appended.
  destruct (sheets_up w); [|exists []; split; [by left|split; [constructor|cbn; lia]]].
  destruct (completion_row strftime repr o r) as [cells|] eqn:Hrow.
  - exists [cells]. split; [|split; [|done]].
    + right. by destruct (worksheet w) eqn:Hws; cbn; rewrite ?Hws.
    + repeat constructor. by eapply completion_row_full_width.
  - exists []. split; [|split; [constructor|cbn; lia]].
    destruct (worksheet w) eqn:Hws; cbn; rewrite ?Hws; [by left|by right].
Qed.

(** The goal of a path that does not reach the worksheet. *)
Local Ltac untouched :=
  exists []; split; [by left|split; [constructor|cbn; lia]].

Lemma handle_interruption_appended (o : oracle) (p s paper : value) (w : world) :
  ∃ added,
    appended w (snd (handle_interruption strftime o p s paper w)) added
    ∧ Forall full_width added ∧ (length added ≤ 1)%nat.
Proof.
  unfold handle_interruption, load_evaluation_records.
  destruct (file w) as [records|]; [|untouched].
  destruct records as [|r0 rest] eqn:Hrecords; [untouched|]. rewrite <- Hrecords.
  destruct (find_target _ records) as [[i r]|]; [|untouched].
  destruct (exclude_paper paper r) as [r1|]; [|untouched].
  unfold select_replacement_paper.
  destruct (available_among all_papers _) as [[|a rest']|]; [untouched| |untouched].
  destruct (truthy _); [|untouched].
  set (repl := random_choice o (a :: rest')).
  set (w1 := snd (save_evaluation_records (<[i := assign_replacement repl r1]> records) w)).
  assert (worksheet w1 = worksheet w) as Hw1.
  { unfold w1, save_evaluation_records. by destruct (disk_writable w). }
  destruct (save_interruption_appended o p s paper repl w1)
    as (added & Happ & Hwidth & Hlen).
  exists added. split; [|done].
  destruct (save_evaluation_records _ w) as [b1 w1']. cbn [snd] in w1.
  fold w1. destruct (save_interruption_to_sheets _ _ _ _ _ _ w1) as [b2 w2].
  cbn [snd] in *. unfold appended in *. cbn [say worksheet]. by rewrite <- Hw1.
Qed.

Lemma handle_completion_appended (o : oracle) (p s : value)
    (data : gmap string value) (w : world) :
  ∃ added,
    appended w (snd (handle_completion strftime repr o p s data w)) added
    ∧ Forall full_width added ∧ (length added ≤ 1)%nat.
Proof.
  unfold handle_completion, load_evaluation_records.
  destruct (file w) as [records|]; [|untouched].
  destruct records as [|r0 rest] eqn:Hrecords; [untouched|]. rewrite <- Hrecords.
  destruct (find_target _ records) as [[i r]|]; [|untouched].
  destruct (work_duration_of _ _) as [d|]; [|untouched].
  unfold save_evaluation_records. destruct (disk_writable w); [|untouched].
  set (r' := complete_record (time_time o) d data r).
  set (w1 := write_file (<[i := r']> records) w).
  destruct (save_completion_appended o r' w1) as (added & Happ & Hwidth & Hlen).
  exists added. split; [|done].
  destruct (save_completion_to_sheets _ _ _ _ w1) as [b2 w2].
  cbn [snd] in *. unfold appended in *. by cbn [say set_session worksheet].
Qed.

Lemma operation_appended (op : operation) (w : world) :
  ∃ added,
    appended w (run_operation strftime repr w op) added
    ∧ Forall full_width added ∧ (length added ≤ 1)%nat.
Proof.
  destruct op as [o p|p|o p s paper|o p s data]; cbn [run_operation].
  - exists []. split; [|split; [constructor|cbn; lia]].
    left. split; [apply get_current_slot_keeps_worksheet|done].
  - exists []. split; [|split; [constructor|cbn; lia]].
    left. split; [apply get_progress_keeps_worksheet|done].
  - apply handle_interruption_appended.
  - apply handle_completion_appended.
Qed.

(** Over a run the worksheet is created at most once and gets at most one
    row for each call. *)
Lemma run_appended (ops : list operation) (w : world) :
  ∃ added,
    appended w (run strftime repr ops w) added
    ∧ Forall full_width added ∧ (length added ≤ length ops)%nat.
Proof.
  revert w. induction ops as [|op ops IH]; intros w.
  { exists []. split; [by left|]. split; [constructor|done]. }
  change (run strftime repr (op :: ops) w)
    with (run strftime repr ops (run_operation strftime repr w op)).
  destruct (operation_appended op w) as (a1 & H1 & Hw1 & Hl1).
  destruct (IH (run_operation strftime repr w op)) as (a2 & H2 & Hw2 & Hl2).
  destruct H1 as [[E1 ->]|E1].
  - exists a2. split; [|split; [done|cbn; lia]].
    unfold appended in *. by rewrite <- E1.
  - destruct H2 as [[E2 ->]|E2].
    + exists a1. split; [|split; [done|cbn; lia]]. right. congruence.
    + exists (a1 ++ a2)%list. split; [|split].
      * right. rewrite E2, E1. cbn [default from_option id]. by rewrite app_assoc.
      * by apply Forall_app.
      * rewrite length_app. cbn. lia.
Qed.

(** Whatever calls are made, the rows the worksheet had are still there, in
    the same order and with the same content; the rows that have been added
    come after them, each has one cell for each of the ten columns, and there
    are at most as many of them as calls were made, the header row of a
    worksheet that had to be created apart. *)
Theorem worksheet_append_only (ops : list operation) (w : world) :
  ∃ added,
    rows_of (run strftime repr ops w) = (rows_of w ++ added)%list
    ∧ Forall full_width added
    ∧ (length added ≤ S (length ops))%nat.
Proof.
  destruct (run_appended ops w) as (added & [[E ->]|E] & Hwidth & Hlen);
    unfold rows_of.
  - exists []. rewrite E, app_nil_r. split; [done|]. split; [constructor|lia].
  - rewrite E. cbn [default from_option id].
    destruct (worksheet w) as [rows|]; cbn [default from_option id].
    + exists added. split; [done|]. split; [done|lia].
    + exists ((VStr <$> RESULTS_HEADERS) :: added). split; [done|].
      split; [by constructor|cbn; lia].
Qed.

End Worksheet.

(** ** Opening a slot *)

Lemma dict_truthy_insert (k : string) (v : value) (r : record) :
  dict_truthy (<[k := v]> r) = true.
Proof.
  unfold dict_truthy. destruct (map_to_list _) eqn:E; [|done].
  apply map_to_list_empty_iff in E. by apply insert_non_empty in E.
Qed.

(** The call returns a record exactly along the path that sorts the
    participant's references, finds a selectable one, stamps it and saves. *)
Lemma get_current_slot_found (o : oracle) (p : value) (w : world)
    (records : list record) (sorted : list nat) (i : nat) (r0 : record)
    (s paper h : value) :
  file w = Some records →
  refs_where (belongs p) records 0 ≠ [] →
  py_sort (deref_get records "slot" (VInt 0)) (refs_where (belongs p) records 0)
  = Some sorted →
  find (deref_test records selectable) sorted = Some i →
  records !! i = Some r0 →
  r0 !! "slot" = Some s → r0 !! "paper_id" = Some paper →
  r0 !! "has_summary" = Some h →
  get_current_slot_for_participant o p w
  = (Some (<["start_timestamp" := VFloat (time_time o)]> r0),
     say (slot_started s paper (truthy h))
       (snd (save_evaluation_records
               (<[i := <["start_timestamp" := VFloat (time_time o)]> r0]> records) w))).
Proof.
  intros Hfile Hrefs Hsort Hfind Hi Hs Hpaper Hh.
  unfold get_current_slot_for_participant. rewrite (load_readable _ _ Hfile).
  rewrite match_nonempty by (intros ->; by apply Hrefs).
  rewrite match_nonempty by done.
  rewrite Hsort, Hfind, Hi. cbv zeta.
  destruct (save_evaluation_records _ _) as [b w1].
  rewrite !lookup_insert_ne by done. by rewrite Hs, Hpaper, Hh.
Qed.

Lemma get_current_slot_some (o : oracle) (p : value) (w w1 : world) (r : record) :
  get_current_slot_for_participant o p w = (Some r, w1) →
  ∃ (records : list record) (sorted : list nat) (i : nat) (r0 : record)
    (s paper h : value),
    file w = Some records
    ∧ refs_where (belongs p) records 0 ≠ []
    ∧ py_sort (deref_get records "slot" (VInt 0)) (refs_where (belongs p) records 0)
      = Some sorted
    ∧ find (deref_test records selectable) sorted = Some i
    ∧ records !! i = Some r0
    ∧ r0 !! "slot" = Some s ∧ r0 !! "paper_id" = Some paper
    ∧ r0 !! "has_summary" = Some h
    ∧ r = <["start_timestamp" := VFloat (time_time o)]> r0
    ∧ w1 = say (slot_started s paper (truthy h))
             (snd (save_evaluation_records (<[i := r]> records) w)).
Proof.
  unfold get_current_slot_for_participant, load_evaluation_records.
  destruct (file w) as [records|] eqn:Hfile; [|done].
  destruct records as [|r1 rest] eqn:Hrecords; [done|]. rewrite <- Hrecords.
  destruct (refs_where (belongs p) records 0) as [|i0 refs] eqn:Hrefs; [done|].
  rewrite <- Hrefs.
  destruct (py_sort _ _) as [sorted|] eqn:Hsort; [|done].
  destruct (find _ sorted) as [i|] eqn:Hfind; [|done].
  destruct (records !! i) as [r0|] eqn:Hi; [|done]. cbv zeta.
  destruct (save_evaluation_records _ _) as [b w2] eqn:Hsave.
  rewrite !lookup_insert_ne by done.
  destruct (r0 !! "slot") as [s|] eqn:Hs; [|done].
  destruct (r0 !! "paper_id") as [paper|] eqn:Hpaper; [|done].
  destruct (r0 !! "has_summary") as [h|] eqn:Hh; [|done].
  intros [= <- <-]. exists records, sorted, i, r0, s, paper, h.
  repeat (split; [done || congruence|]). by rewrite Hsave.
Qed.

(** Rewriting one dictionary without changing what the selection reads of
    it does not change the selection. *)
Lemma refs_where_insert (P : record → bool) (records : list record) (i k : nat)
    (r r' : record) :
  records !! i = Some r → P r' = P r →
  refs_where P (<[i := r']> records) k = refs_where P records k.
Proof.
  intros Hi HP. revert i k Hi.
  induction records as [|x l IH]; intros i k Hi; [done|].
  destruct i as [|i].
  - injection Hi as ->. change (<[0%nat := r']> (r :: l)) with (r' :: l).
    cbn [refs_where]. by rewrite HP.
  - change (<[S i := r']> (x :: l)) with (x :: <[i := r']> l).
    cbn [refs_where]. by rewrite (IH i (S k) Hi).
Qed.

Lemma deref_get_insert (records : list record) (i : nat) (r r' : record)
    (k : string) (dflt : value) (a : nat) :
  records !! i = Some r → r' !! k = r !! k →
  deref_get (<[i := r']> records) k dflt a = deref_get records k dflt a.
Proof.
  intros Hi Hk. unfold deref_get. destruct (decide (a = i)) as [->|Hne].
  - rewrite list_lookup_insert_eq by (by eapply lookup_lt_Some).
    rewrite Hi. unfold get_or. by rewrite Hk.
  - by rewrite list_lookup_insert_ne.
Qed.

Lemma deref_test_insert (records : list record) (P : record → bool) (i : nat)
    (r r' : record) (a : nat) :
  records !! i = Some r → P r' = P r →
  deref_test (<[i := r']> records) P a = deref_test records P a.
Proof.
  intros Hi HP. unfold deref_test. destruct (decide (a = i)) as [->|Hne].
  - rewrite list_lookup_insert_eq by (by eapply lookup_lt_Some). by rewrite Hi.
  - by rewrite list_lookup_insert_ne.
Qed.

Lemma py_sort_ext {A} (key key' : A → value) (l : list A) :
  (∀ a, key a = key' a) → py_sort key l = py_sort key' l.
Proof.
  intros H. unfold py_sort. destruct l as [|a [|b l]]; [done|done|].
  generalize (a :: b :: l). intros l0.
  assert (∀ f : value → bool,
            forallb (λ a, f (key a)) l0 = forallb (λ a, f (key' a)) l0) as Hall.
  { intros f. induction l0 as [|x l0 IH]; [done|]. cbn [forallb]. by rewrite H, IH. }
  rewrite (Hall is_num), (Hall is_str).
  rewrite (sort_by_ext (λ a b, num_lt (key a) (key b))
             (λ a b, num_lt (key' a) (key' b))) by (intros; by rewrite !H).
  by rewrite (sort_by_ext (λ a b, str_lt (key a) (key b))
                (λ a b, str_lt (key' a) (key' b))) by (intros; by rewrite !H).
Qed.

(** The selection made on [records] is made again after the selected or any
    other dictionary has been rewritten with the same participant, slot and
    selectability. *)
Lemma selection_insert (p : value) (records : list record) (sorted : list nat)
    (i j : nat) (rj rj' : record) :
  py_sort (deref_get records "slot" (VInt 0)) (refs_where (belongs p) records 0)
  = Some sorted →
  find (deref_test records selectable) sorted = Some i →
  records !! j = Some rj →
  belongs p rj' = belongs p rj → rj' !! "slot" = rj !! "slot" →
  selectable rj' = selectable rj →
  refs_where (belongs p) (<[j := rj']> records) 0 = refs_where (belongs p) records 0
  ∧ py_sort (deref_get (<[j := rj']> records) "slot" (VInt 0))
      (refs_where (belongs p) (<[j := rj']> records) 0) = Some sorted
  ∧ find (deref_test (<[j := rj']> records) selectable) sorted = Some i.
Proof.
  intros Hsort Hfind Hj Hb Hs Hsel.
  rewrite (refs_where_insert (belongs p) records j 0 rj rj' Hj Hb).
  split; [done|]. split.
  - rewrite <- Hsort. apply py_sort_ext. intros a. by apply (deref_get_insert _ _ rj).
  - rewrite <- Hfind. apply find_ext. intros a _.
    by apply (deref_test_insert _ _ _ rj).
Qed.

Lemma find_target_unique (P : record → bool) (records : list record) (i : nat)
    (r : record) :
  records !! i = Some r → P r = true → dict_truthy r = true →
  (∀ j y, records !! j = Some y → P y = true → j = i) →
  find_target P records = Some (i, r).
Proof.
  intros Hi HP Ht Hunique. unfold find_target, first_where.
  pose proof (refs_where_complete P records 0 i r Hi HP) as Hin.
  destruct (refs_where P records 0) as [|j0 refs] eqn:E;
    [by apply elem_of_nil in Hin|].
  destruct (refs_where_lookup P records j0) as (y & Hy & HPy);
    [rewrite E; by left|].
  rewrite (Hunique j0 y Hy HPy). cbn [head]. by rewrite Hi, Ht.
Qed.

Section OpenedSlot.

Variable strftime : Q → string.
Variable repr : value → string.

(** Opening the current slot a second time returns the same record again,
    with the start time of the second call in place of that of the first:
    the clock of the slot restarts.  When the file can be written it holds
    the record so restamped at the same position. *)
Theorem reopening_restarts_the_clock (o1 o2 : oracle) (p : value) (w w1 : world)
    (r : record) :
  get_current_slot_for_participant o1 p w = (Some r, w1) →
  fst (get_current_slot_for_participant o2 p w1)
  = Some (<["start_timestamp" := VFloat (time_time o2)]> r)
  ∧ (disk_writable w = true →
     ∃ i, records_of w1 !! i = Some r
          ∧ records_of (snd (get_current_slot_for_participant o2 p w1))
            = <[i := <["start_timestamp" := VFloat (time_time o2)]> r]>
                (records_of w1)).
Proof.
  intros (records & sorted & i & r0 & s & paper & h & Hfile & Hrefs & Hsort & Hfind
          & Hi & Hs & Hpaper & Hh & -> & ->)%get_current_slot_some.
  set (r := <["start_timestamp" := VFloat (time_time o1)]> r0).
  unfold save_evaluation_records. destruct (disk_writable w) eqn:Hdisk; cbn [snd].
  - destruct (selection_insert p records sorted i i r0 r Hsort Hfind Hi)
      as (Hrefs' & Hsort' & Hfind');
      [unfold belongs, get, r; by rewrite lookup_insert_ne
      |unfold r; by rewrite lookup_insert_ne
      |unfold selectable, get, r; by rewrite !lookup_insert_ne|].
    assert (<[i := r]> records !! i = Some r) as Hi'.
    { apply list_lookup_insert_eq. by eapply lookup_lt_Some. }
    rewrite (get_current_slot_found o2 p _ (<[i := r]> records) sorted i r s paper h);
      try done; try (unfold r; by rewrite lookup_insert_ne); [|by rewrite Hrefs'].
    split; [done|]. intros _. exists i. split; [done|].
    unfold save_evaluation_records. cbn [disk_writable say write_file].
    by rewrite Hdisk.
  - rewrite (get_current_slot_found o2 p _ records sorted i r0 s paper h);
      try done.
    split; [|done]. cbn [fst]. unfold r. by rewrite insert_insert_eq.
Qed.

(** Submitting the slot that was just opened succeeds when the file can be
    written and the participant has one record for each slot: the record
    returned by the opening is the one completed, and the duration stored is
    the time between the two calls as the float subtraction gives it, in
    whole seconds rounded toward zero (and 0 when the opening happened at
    time 0). *)
Theorem open_then_submit (o1 o2 : oracle) (p : value)
    (data : gmap string value) (w w1 : world) (r : record) (elapsed : Q) :
  disk_writable w = true →
  float_sub (time_time o2) (time_time o1) = Some elapsed →
  (∀ i j ri rj,
     records_of w !! i = Some ri → records_of w !! j = Some rj →
     belongs p ri = true → belongs p rj = true →
     py_eq (get ri "slot") (get rj "slot") = true → i = j) →
  get_current_slot_for_participant o1 p w = (Some r, w1) →
  let d := if Qeq_bool (time_time o1) 0 then 0 else int_of_Q elapsed in
  let submitted := handle_completion strftime repr o2 p (get r "slot") data w1 in
  fst submitted = true
  ∧ ∃ i, records_of w1 !! i = Some r
         ∧ records_of (snd submitted)
           = <[i := complete_record (time_time o2) d data r]> (records_of w1).
Proof.
  intros Hdisk Helapsed Hunique
    (records & sorted & i & r0 & s & paper & h & Hfile & Hrefs & Hsort & Hfind
     & Hi & Hs & Hpaper & Hh & -> & ->)%get_current_slot_some.
  set (r := <["start_timestamp" := VFloat (time_time o1)]> r0).
  unfold records_of in Hunique. rewrite Hfile in Hunique.
  cbn [default from_option id] in Hunique.
  pose proof (find_elem _ _ _ Hfind) as [Hin Htest].
  apply deref_test_true in Htest as (r0' & Hr0' & Hsel).
  assert (r0' = r0) as -> by congruence.
  assert (belongs p r0 = true) as Hb.
  { rewrite (py_sort_perm _ _ _ Hsort) in Hin.
    apply refs_where_lookup in Hin as (y & Hy & Hby). congruence. }
  assert (get r "slot" = get r0 "slot") as Hslot
    by (unfold get, r; by rewrite lookup_insert_ne).
  unfold save_evaluation_records. rewrite Hdisk. cbn [snd].
  set (records1 := <[i := r]> records).
  set (w1 := say _ (write_file records1 w)).
  assert (records1 !! i = Some r) as Hi1.
  { apply list_lookup_insert_eq. by eapply lookup_lt_Some. }
  assert (find_target (completion_target p (get r "slot")) records1 = Some (i, r))
    as Htarget.
  { apply find_target_unique; [done| |apply dict_truthy_insert|].
    - unfold completion_target. rewrite py_eq_refl.
      replace (belongs p r) with (belongs p r0)
        by (unfold belongs, get, r; by rewrite lookup_insert_ne).
      replace (get r "processed") with (get r0 "processed")
        by (unfold get, r; by rewrite lookup_insert_ne).
      by rewrite Hb, (selectable_unprocessed r0 Hsel).
    - intros j y Hj Hy. destruct (decide (j = i)) as [|Hne]; [done|].
      unfold records1 in Hj. rewrite list_lookup_insert_ne in Hj by done.
      unfold completion_target in Hy.
      apply andb_true_iff in Hy as [[Hby Hsy]%andb_true_iff _].
      rewrite Hslot in Hsy. by apply (Hunique j i y r0). }
  cbv zeta. unfold handle_completion.
  rewrite (load_readable w1 records1 eq_refl).
  rewrite match_nonempty by (intros Hnil; by rewrite Hnil in Hi1).
  rewrite Htarget.
  replace (get_or r "start_timestamp" (VFloat (time_time o2)))
    with (VFloat (time_time o1))
    by (unfold get_or, r; by rewrite lookup_insert_eq).
  unfold work_duration_of, int_sub. cbn [truthy as_float]. rewrite Helapsed.
  set (d := if Qeq_bool (time_time o1) 0 then 0 else int_of_Q elapsed).
  assert ((if negb (Qeq_bool (time_time o1) 0)
           then Some (int_of_Q elapsed) else Some 0)
          = Some d) as -> by (unfold d; by destruct (Qeq_bool _ _)).
  unfold save_evaluation_records. cbn [disk_writable w1 say write_file].
  rewrite Hdisk.
  set (r' := complete_record (time_time o2) d data r).
  pose proof (save_completion_keeps_file strftime repr o2 r'
                (write_file (<[i := r']> records1) w1)) as Hkeep.
  destruct (save_completion_to_sheets _ _ _ _ _) as [b w2]. cbn [snd] in Hkeep.
  split; [done|]. exists i. split; [done|].
  unfold records_of. cbn [snd file set_session say]. by rewrite Hkeep.
Qed.

(** After the slot that was just opened has been interrupted, the next
    opening offers the same slot again, under the same condition
    ([has_summary] belongs to the slot, not to the paper), with another paper
    of the catalog and a fresh start time. *)
Theorem interrupt_then_reopen (o1 o2 o3 : oracle) (p : value) (w w1 w2 : world)
    (r : record) :
  disk_writable w = true →
  (∀ i j ri rj,
     records_of w !! i = Some ri → records_of w !! j = Some rj →
     belongs p ri = true → belongs p rj = true →
     py_eq (get ri "slot") (get rj "slot") = true → i = j) →
  get_current_slot_for_participant o1 p w = (Some r, w1) →
  handle_interruption strftime o2 p (get r "slot") (get r "paper_id") w1
  = (true, w2) →
  ∃ (r3 : record) (replacement : string),
    fst (get_current_slot_for_participant o3 p w2) = Some r3
    ∧ r3 !! "slot" = r !! "slot"
    ∧ r3 !! "has_summary" = r !! "has_summary"
    ∧ r3 !! "paper_id" = Some (VStr replacement)
    ∧ replacement ∈ all_papers
    ∧ VStr replacement ≠ get r "paper_id"
    ∧ r3 !! "start_timestamp" = Some (VFloat (time_time o3)).
Proof.
  intros Hdisk Hunique
    (records & sorted & i & r0 & s & paper & h & Hfile & Hrefs & Hsort & Hfind
     & Hi & Hs & Hpaper & Hh & -> & ->)%get_current_slot_some.
  set (r := <["start_timestamp" := VFloat (time_time o1)]> r0).
  unfold records_of in Hunique. rewrite Hfile in Hunique.
  cbn [default from_option id] in Hunique.
  pose proof (find_elem _ _ _ Hfind) as [Hin Htest].
  apply deref_test_true in Htest as (r0' & Hr0' & Hsel).
  assert (r0' = r0) as -> by congruence.
  assert (belongs p r0 = true) as Hb.
  { rewrite (py_sort_perm _ _ _ Hsort) in Hin.
    apply refs_where_lookup in Hin as (y & Hy & Hby). congruence. }
  assert (get r "slot" = get r0 "slot") as Hslot
    by (unfold get, r; by rewrite lookup_insert_ne).
  unfold save_evaluation_records. rewrite Hdisk. cbn [snd].
  set (records1 := <[i := r]> records).
  intros (records' & j & rj & r1 & available & Hfile1 & Htarget & Hexcl & Havail
          & Hne & Hfile2)%handle_interruption_success.
  cbn [file disk_writable say write_file] in Hfile1, Hfile2.
  rewrite Hdisk in Hfile2. injection Hfile1 as <-.
  assert (records1 !! i = Some r) as Hi1.
  { apply list_lookup_insert_eq. by eapply lookup_lt_Some. }
  destruct (find_target_spec _ _ _ _ Htarget) as [Hj _].
  apply find_target_holds in Htarget. unfold interruption_target in Htarget.
  apply andb_true_iff in Htarget as [[Hbj Hsj]%andb_true_iff _].
  assert (j = i) as ->.
  { destruct (decide (j = i)) as [|Hji]; [done|].
    unfold records1 in Hj. rewrite list_lookup_insert_ne in Hj by done.
    rewrite Hslot in Hsj. by apply (Hunique j i rj r0). }
  assert (rj = r) as -> by congruence.
  set (repl := random_choice o2 available) in *.
  set (r2 := assign_replacement repl r1) in *.
  assert (∀ k, k ≠ "paper_id" → k ≠ "status" → k ≠ "start_timestamp" →
               k ≠ "excluded_papers" → r2 !! k = r0 !! k) as Hframe.
  { intros k ? ? ? ?. unfold r2. rewrite assign_replacement_other_keys by done.
    rewrite (exclude_paper_other_keys _ r r1) by done.
    unfold r. by rewrite lookup_insert_ne. }
  assert (<[i := r2]> records1 = <[i := r2]> records) as Hrecords2
    by apply list_insert_insert_eq.
  rewrite Hrecords2 in Hfile2.
  destruct (selection_insert p records sorted i i r0 r2 Hsort Hfind Hi)
    as (Hrefs2 & Hsort2 & Hfind2).
  { unfold belongs, get. by rewrite Hframe. }
  { by apply Hframe. }
  { rewrite Hsel. unfold selectable, get. rewrite (Hframe "processed") by done.
    unfold r2, assign_replacement. rewrite lookup_insert_ne by done.
    rewrite lookup_insert_eq. cbn [default from_option id].
    apply selectable_unprocessed in Hsel. unfold get in Hsel. by rewrite Hsel. }
  assert (r2 !! "paper_id" = Some (VStr repl)) as Hpaper2.
  { unfold r2, assign_replacement. rewrite !lookup_insert_ne by done.
    by rewrite lookup_insert_eq. }
  exists (<["start_timestamp" := VFloat (time_time o3)]> r2), repl.
  rewrite (get_current_slot_found o3 p w2 (<[i := r2]> records) sorted i r2 s
             (VStr repl) h); try done.
  - cbn [fst]. split; [done|]. rewrite !lookup_insert_ne by done.
    rewrite lookup_insert_eq. rewrite !Hframe by done.
    unfold r. rewrite !lookup_insert_ne by done.
    split; [done|]. split; [done|]. split; [done|]. split.
    { apply (available_among_subset _ _ _ Havail). by apply random_choice_in. }
    split; [|done].
    pose proof (available_among_fresh _ _ _ _ Havail (random_choice_in o2 _ Hne))
      as Hfresh.
    pose proof (exclude_paper_excludes _ _ _ Hexcl) as Hold.
    fold repl in Hfresh. unfold r in Hold. intros Heq. rewrite <- Heq in Hold.
    congruence.
  - by rewrite Hrefs2.
  - apply list_lookup_insert_eq. by eapply lookup_lt_Some.
  - by rewrite Hframe.
  - by rewrite Hframe.
Qed.

End OpenedSlot.

(** In the sample collection alice has one record for each slot. *)
Lemma alice_one_record_per_slot (i j : nat) (ri rj : record) :
  records_of Sample.alice_world !! i = Some ri →
  records_of Sample.alice_world !! j = Some rj →
  belongs (VStr "alice") ri = true → belongs (VStr "alice") rj = true →
  py_eq (get ri "slot") (get rj "slot") = true → i = j.
Proof.
  unfold records_of, Sample.alice_world, Sample.world_of, Sample.alice_records.
  cbn [file default from_option id].
  intros Hi Hj Hbi Hbj Hs.
  destruct i as [|[|[|[|[|i]]]]]; destruct j as [|[|[|[|[|j]]]]];
    cbn [lookup list_lookup] in Hi, Hj; try done;
    injection Hi as <-; injection Hj as <-;
    first [by vm_compute in Hbi | by vm_compute in Hbj | by vm_compute in Hs].
Qed.

Lemma reopening_restarts_the_clock_witness :
  let r := <["start_timestamp" := VFloat (time_time Sample.noon)]>
             (Sample.seeded "alice" 1 "1" false) in
  let w1 := snd (get_current_slot_for_participant Sample.noon (VStr "alice")
                   Sample.alice_world) in
  let later := Oracle (4013 # 4) (1003 # 1) (1003 # 1) 0 in
  fst (get_current_slot_for_participant later (VStr "alice") w1)
  = Some (<["start_timestamp" := VFloat (time_time later)]> r)
  ∧ (disk_writable Sample.alice_world = true →
     ∃ i, records_of w1 !! i = Some r
          ∧ records_of (snd (get_current_slot_for_participant later (VStr "alice") w1))
            = <[i := <["start_timestamp" := VFloat (time_time later)]> r]>
                (records_of w1)).
Proof.
  cbv zeta.
  apply (reopening_restarts_the_clock Sample.noon (Oracle (4013 # 4) (1003 # 1) (1003 # 1) 0)
           (VStr "alice") Sample.alice_world).
  apply pair_of_fst.
  vm_cast_no_check
    (@eq_refl (option record)
       (Some (<["start_timestamp" := VFloat (time_time Sample.noon)]>
                (Sample.seeded "alice" 1 "1" false)))).
Defined.

Lemma open_then_submit_witness :
  let r := <["start_timestamp" := VFloat (time_time Sample.noon)]>
             (Sample.seeded "alice" 1 "1" false) in
  let w1 := snd (get_current_slot_for_participant Sample.noon (VStr "alice")
                   Sample.alice_world) in
  let later := Oracle (4019 # 4) (1003 # 1) (1003 # 1) 0 in
  let submitted :=
    handle_completion Sample.stamp Sample.other_text later (VStr "alice")
      (get r "slot") Sample.answers w1 in
  fst submitted = true
  ∧ ∃ i, records_of w1 !! i = Some r
         ∧ records_of (snd submitted)
           = <[i := complete_record (time_time later) 2 Sample.answers r]>
               (records_of w1).
Proof.
  cbv zeta.
  apply (open_then_submit Sample.stamp Sample.other_text Sample.noon
           (Oracle (4019 # 4) (1003 # 1) (1003 # 1) 0)
           (VStr "alice") Sample.answers Sample.alice_world _ _ (5 # 2)).
  - reflexivity.
  - vm_compute. reflexivity.
  - apply alice_one_record_per_slot.
  - apply pair_of_fst.
    vm_cast_no_check
      (@eq_refl (option record)
         (Some (<["start_timestamp" := VFloat (time_time Sample.noon)]>
                  (Sample.seeded "alice" 1 "1" false)))).
Defined.

Lemma interrupt_then_reopen_witness :
  let r := <["start_timestamp" := VFloat (time_time Sample.noon)]>
             (Sample.seeded "alice" 1 "1" false) in
  let w1 := snd (get_current_slot_for_participant Sample.noon (VStr "alice")
                   Sample.alice_world) in
  let w2 := snd (handle_interruption Sample.stamp Sample.noon (VStr "alice")
                   (get r "slot") (get r "paper_id") w1) in
  ∃ (r3 : record) (replacement : string),
    fst (get_current_slot_for_participant Sample.noon (VStr "alice") w2) = Some r3
    ∧ r3 !! "slot" = r !! "slot"
    ∧ r3 !! "has_summary" = r !! "has_summary"
    ∧ r3 !! "paper_id" = Some (VStr replacement)
    ∧ replacement ∈ all_papers
    ∧ VStr replacement ≠ get r "paper_id"
    ∧ r3 !! "start_timestamp" = Some (VFloat (time_time Sample.noon)).
Proof.
  cbv zeta.
  apply (interrupt_then_reopen Sample.stamp Sample.noon Sample.noon Sample.noon
           (VStr "alice") Sample.alice_world
           (snd (get_current_slot_for_participant Sample.noon (VStr "alice")
                   Sample.alice_world))).
  - reflexivity.
  - apply alice_one_record_per_slot.
  - apply pair_of_fst.
    vm_cast_no_check
      (@eq_refl (option record)
         (Some (<["start_timestamp" := VFloat (time_time Sample.noon)]>
                  (Sample.seeded "alice" 1 "1" false)))).
  - apply pair_of_fst. vm_compute. reflexivity.
Defined.

(** ** The file alone decides *)

Section Store.

Variable strftime : Q → string.
Variable repr : value → string.

Lemma save_completion_same_store (o : oracle) (r : record) (w : world) :
  same_store (snd (save_completion_to_sheets strftime repr o r w)) w.
Proof.
  unfold save_completion_to_sheets, get_results_worksheet, same_store.
  destruct (sheets_up w); [|done].
  destruct (worksheet w); by destruct (completion_row _ _ _ _).
Qed.

Lemma save_interruption_same_store (o : oracle) (p s paper : value)
    (repl : string) (w : world) :
  same_store (snd (save_interruption_to_sheets strftime o p s paper repl w)) w.
Proof.
  unfold save_interruption_to_sheets, get_results_worksheet, same_store.
  destruct (sheets_up w); [destruct (worksheet w)|]; done.
Qed.

Lemma get_current_slot_same_store (o : oracle) (p : value) (w w2 : world) :
  same_store w w2 →
  fst (get_current_slot_for_participant o p w)
  = fst (get_current_slot_for_participant o p w2)
  ∧ same_store (snd (get_current_slot_for_participant o p w))
      (snd (get_current_slot_for_participant o p w2)).
Proof.
  intros [Hfile Hdisk].
  destruct w as [f d su ws u se], w2 as [f2 d2 su2 ws2 u2 se2].
  cbn [file disk_writable] in Hfile, Hdisk. subst f2 d2.
  unfold get_current_slot_for_participant, load_evaluation_records,
    save_evaluation_records, current_slot_raise, same_store.
  cbn [file disk_writable say].
  destruct f as [records|]; [|done].
  destruct records as [|r0 rest] eqn:Hrecords; [done|]. rewrite <- Hrecords.
  destruct (refs_where _ _ _) as [|i0 refs] eqn:Hrefs; [done|].
  rewrite <- Hrefs.
  destruct (py_sort _ _) as [sorted|]; [|done].
  destruct (find _ sorted) as [i|]; [|done].
  destruct (records !! i) as [r|]; [|done].
  cbv zeta. cbn [disk_writable].
  destruct d; cbn [write_file say file disk_writable fst snd];
    repeat case_match; done.
Qed.

Lemma get_progress_same_store (p : value) (w w2 : world) :
  same_store w w2 →
  fst (get_participant_progress p w) = fst (get_participant_progress p w2)
  ∧ same_store (snd (get_participant_progress p w))
      (snd (get_participant_progress p w2)).
Proof.
  intros [Hfile Hdisk].
  destruct w as [f d su ws u se], w2 as [f2 d2 su2 ws2 u2 se2].
  cbn [file disk_writable] in Hfile, Hdisk. subst f2 d2.
  unfold get_participant_progress, load_evaluation_records, same_store.
  cbn [file disk_writable say].
  destruct f as [records|]; [|done].
  destruct (refs_where _ _ _) as [|i0 refs] eqn:Hrefs; [done|]. rewrite <- Hrefs.
  by destruct (py_sort _ _).
Qed.

Lemma handle_interruption_same_store (o : oracle) (p s paper : value)
    (w w2 : world) :
  same_store w w2 →
  fst (handle_interruption strftime o p s paper w)
  = fst (handle_interruption strftime o p s paper w2)
  ∧ same_store (snd (handle_interruption strftime o p s paper w))
      (snd (handle_interruption strftime o p s paper w2)).
Proof.
  intros [Hfile Hdisk].
  destruct w as [f d su ws u se], w2 as [f2 d2 su2 ws2 u2 se2].
  cbn [file disk_writable] in Hfile, Hdisk. subst f2 d2.
  unfold handle_interruption, load_evaluation_records, interruption_raise.
  cbn [file disk_writable say].
  destruct f as [records|]; [|done].
  destruct records as [|r0 rest] eqn:Hrecords; [done|]. rewrite <- Hrecords.
  destruct (find_target _ records) as [[i r]|]; [|done].
  destruct (exclude_paper paper r) as [r1|]; [|done].
  unfold select_replacement_paper.
  destruct (available_among all_papers _) as [[|a rest']|]; [done| |done].
  destruct (truthy _); [|done].
  set (repl := random_choice o (a :: rest')).
  set (records' := <[i := assign_replacement repl r1]> records).
  pose proof (save_interruption_same_store o p s paper repl) as Hsheet.
  unfold save_evaluation_records. cbn [disk_writable].
  destruct d; cbn [write_file say file disk_writable sheets_up worksheet ui session].
  - pose proof (Hsheet (World (Some records') true su ws u se)) as H1.
    pose proof (Hsheet (World (Some records') true su2 ws2 u2 se2)) as H2.
    destruct (save_interruption_to_sheets _ _ _ _ _ _ _) as [b1 w1].
    destruct (save_interruption_to_sheets _ _ _ _ _ _ _) as [b2 w2].
    cbn [fst snd] in *. split; [done|].
    destruct H1 as [F1 D1], H2 as [F2 D2]. cbn [file disk_writable] in *.
    split; cbn [say file disk_writable]; congruence.
  - pose proof (Hsheet (World (Some records) false su ws (u ++ [save_error]) se)) as H1.
    pose proof (Hsheet (World (Some records) false su2 ws2 (u2 ++ [save_error]) se2))
      as H2.
    destruct (save_interruption_to_sheets _ _ _ _ _ _ _) as [b1 w1].
    destruct (save_interruption_to_sheets _ _ _ _ _ _ _) as [b2 w2].
    cbn [fst snd] in *. split; [done|].
    destruct H1 as [F1 D1], H2 as [F2 D2]. cbn [file disk_writable] in *.
    split; cbn [say file disk_writable]; congruence.
Qed.

Lemma handle_completion_same_store (o : oracle) (p s : value)
    (data : gmap string value) (w w2 : world) :
  same_store w w2 →
  fst (handle_completion strftime repr o p s data w)
  = fst (handle_completion strftime repr o p s data w2)
  ∧ same_store (snd (handle_completion strftime repr o p s data w))
      (snd (handle_completion strftime repr o p s data w2)).
Proof.
  intros [Hfile Hdisk].
  destruct w as [f d su ws u se], w2 as [f2 d2 su2 ws2 u2 se2].
  cbn [file disk_writable] in Hfile, Hdisk. subst f2 d2.
  unfold handle_completion, load_evaluation_records, completion_raise.
  cbn [file disk_writable say].
  destruct f as [records|]; [|done].
  destruct records as [|r0 rest] eqn:Hrecords; [done|]. rewrite <- Hrecords.
  destruct (find_target _ records) as [[i r]|]; [|done].
  destruct (work_duration_of _ _) as [dur|]; [|done].
  set (r' := complete_record (time_time o) dur data r).
  pose proof (save_completion_same_store o r') as Hsheet.
  unfold save_evaluation_records. cbn [disk_writable].
  destruct d; cbn [write_file say file disk_writable sheets_up worksheet ui session];
    [|done].
  pose proof (Hsheet (World (Some (<[i := r']> records)) true su ws u se)) as H1.
  pose proof (Hsheet (World (Some (<[i := r']> records)) true su2 ws2 u2 se2)) as H2.
  destruct (save_completion_to_sheets _ _ _ _ _) as [b1 w1].
  destruct (save_completion_to_sheets _ _ _ _ _) as [b2 w2].
  cbn [fst snd] in *. split; [done|].
  destruct H1 as [F1 D1], H2 as [F2 D2]. cbn [file disk_writable] in *.
  split; cbn [say set_session file disk_writable]; congruence.
Qed.

Lemma run_same_store (ops : list operation) (w w2 : world) :
  same_store w w2 →
  same_store (run strftime repr ops w) (run strftime repr ops w2).
Proof.
  revert w w2. induction ops as [|op ops IH]; intros w w2 H; [done|].
  change (same_store
            (run strftime repr ops (run_operation strftime repr w op))
            (run strftime repr ops (run_operation strftime repr w2 op))).
  apply IH. destruct op as [o p|p|o p s paper|o p s data]; cbn [run_operation].
  - by apply get_current_slot_same_store.
  - by apply get_progress_same_store.
  - by apply handle_interruption_same_store.
  - by apply handle_completion_same_store.
Qed.

(** What the calls return and what they write to the records file depends
    on the file and on whether it can be written, and on nothing else: two
    worlds that agree on these, whatever the state of the spreadsheet, of the
    session and of the messages, hold the same file after the same calls and
    get the same answer from every further call.  A spreadsheet that is down
    never makes a call fail. *)
Theorem spreadsheet_never_decides (ops : list operation) (w w2 : world) :
  same_store w w2 →
  let v := run strftime repr ops w in
  let v2 := run strftime repr ops w2 in
  file v = file v2
  ∧ ∀ o p s paper data,
      fst (get_current_slot_for_participant o p v)
      = fst (get_current_slot_for_participant o p v2)
      ∧ fst (get_participant_progress p v) = fst (get_participant_progress p v2)
      ∧ fst (handle_interruption strftime o p s paper v)
        = fst (handle_interruption strftime o p s paper v2)
      ∧ fst (handle_completion strftime repr o p s data v)
        = fst (handle_completion strftime repr o p s data v2).
Proof.
  intros H%(run_same_store ops). cbv zeta. split; [apply H|].
  intros o p s paper data.
  split; [by apply get_current_slot_same_store|].
  split; [by apply get_progress_same_store|].
  split; [by apply handle_interruption_same_store|].
  by apply handle_completion_same_store.
Qed.

End Store.

Lemma spreadsheet_never_decides_witness :
  let ops := [ GetCurrentSlot Sample.noon (VStr "alice");
               Complete Sample.noon (VStr "alice") (VInt 1) Sample.answers ] in
  let v := run Sample.stamp Sample.other_text ops Sample.alice_world in
  let v2 := run Sample.stamp Sample.other_text ops
              (World (Some Sample.alice_records) true false None [save_error] ∅) in
  file v = file v2
  ∧ ∀ o p s paper data,
      fst (get_current_slot_for_participant o p v)
      = fst (get_current_slot_for_participant o p v2)
      ∧ fst (get_participant_progress p v) = fst (get_participant_progress p v2)
      ∧ fst (handle_interruption Sample.stamp o p s paper v)
        = fst (handle_interruption Sample.stamp o p s paper v2)
      ∧ fst (handle_completion Sample.stamp Sample.other_text o p s data v)
        = fst (handle_completion Sample.stamp Sample.other_text o p s data v2).
Proof.
  cbv zeta.
  apply (spreadsheet_never_decides Sample.stamp Sample.other_text).
  split; reflexivity.
Defined.

(** ** Without records *)

Section NoRecords.

Variable strftime : Q → string.
Variable repr : value → string.

Lemma no_records_operation (op : operation) (w : world) :
  records_of w = [] →
  file (run_operation strftime repr w op) = file w
  ∧ worksheet (run_operation strftime repr w op) = worksheet w
  ∧ session (run_operation strftime repr w op) = session w.
Proof.
  unfold records_of. intros Hnone.
  destruct op as [o p|p|o p s paper|o p s data]; cbn [run_operation];
    unfold get_current_slot_for_participant, get_participant_progress,
      handle_interruption, handle_completion, load_evaluation_records;
    destruct (file w) as [[|r0 rest]|] eqn:Hfile; try done;
    cbn; by rewrite ?Hfile.
Qed.

(** When the records file is missing, is not valid JSON or holds an empty
    list, no call creates or fills it, whatever calls are made: the file, the
    worksheet and the session stay as they are, and every further call
    fails (get_current_slot returns None, the two handlers return False) while
    get_progress answers with the progress of a participant who has not
    started. *)
Theorem no_records_no_effect (ops : list operation) (w : world) :
  records_of w = [] →
  let w' := run strftime repr ops w in
  file w' = file w ∧ worksheet w' = worksheet w ∧ session w' = session w
  ∧ ∀ o p s paper data,
      fst (get_current_slot_for_participant o p w') = None
      ∧ fst (get_participant_progress p w') = fresh_progress
      ∧ fst (handle_interruption strftime o p s paper w') = false
      ∧ fst (handle_completion strftime repr o p s data w') = false.
Proof.
  intros Hnone. cbv zeta.
  assert (file (run strftime repr ops w) = file w
          ∧ worksheet (run strftime repr ops w) = worksheet w
          ∧ session (run strftime repr ops w) = session w) as (Hf & Hw & Hs).
  { revert w Hnone. induction ops as [|op ops IH]; intros w Hnone; [done|].
    change (run strftime repr (op :: ops) w)
      with (run strftime repr ops (run_operation strftime repr w op)).
    destruct (no_records_operation op w Hnone) as (Hf & Hw & Hs).
    destruct (IH (run_operation strftime repr w op)) as (Hf' & Hw' & Hs').
    { unfold records_of in *. by rewrite Hf. }
    repeat split; congruence. }
  repeat (split; [done|]).
  intros o p s paper data.
  unfold records_of in Hnone. rewrite <- Hf in Hnone.
  unfold get_current_slot_for_participant, get_participant_progress,
    handle_interruption, handle_completion, load_evaluation_records.
  by destruct (file (run strftime repr ops w)) as [[|r0 rest]|].
Qed.

End NoRecords.

Lemma no_records_no_effect_witness :
  let ops := [ GetCurrentSlot Sample.noon (VStr "alice");
               Complete Sample.noon (VStr "alice") (VInt 1) Sample.answers ] in
  let w := World None true true None [] ∅ in
  let w' := run Sample.stamp Sample.other_text ops w in
  file w' = file w ∧ worksheet w' = worksheet w ∧ session w' = session w
  ∧ ∀ o p s paper data,
      fst (get_current_slot_for_participant o p w') = None
      ∧ fst (get_participant_progress p w') = fresh_progress
      ∧ fst (handle_interruption Sample.stamp o p s paper w') = false
      ∧ fst (handle_completion Sample.stamp Sample.other_text o p s data w') = false.
Proof.
  cbv zeta.
  apply (no_records_no_effect Sample.stamp Sample.other_text). reflexivity.
Defined.

(** ** The submit button *)

Section Submission.

Variable strftime : Q → string.
Variable repr : value → string.
Variable strip : string → string.

Lemma validation_passed (h : value) (action evaluation summary : string) :
  validation_errors strip h action evaluation summary = [] →
  blank strip action = false ∧ blank strip evaluation = false
  ∧ blank strip summary = false.
Proof.
  unfold validation_errors.
  destruct (blank strip action); [done|].
  destruct (blank strip evaluation); [done|].
  by destruct (blank strip summary).
Qed.

Lemma not_blank (s : string) : blank strip s = false → strip s ≠ "".
Proof.
  unfold blank. intros [_ H]%orb_false_iff. apply negb_false_iff in H.
  intros Heq. by rewrite Heq in H.
Qed.

(** Pressing the completion button has one of two outcomes.  Either at
    least one error is shown and the records file and the session are left as
    they were.  Or no error is shown: then none of the three texts was blank,
    the page moves to the continuation page, and one record of the file has
    been completed with the three texts, stripped and none of them empty. *)
Theorem form_submission_outcomes (o : oracle) (p s paper h : value)
    (interrupted : bool) (action evaluation summary : string) (w : world) :
  let result :=
    form_submit strftime repr strip o p s paper h true interrupted
      action evaluation summary w in
  (fst result ≠ []
   ∧ file (snd result) = file w ∧ session (snd result) = session w)
  ∨ (fst result = []
     ∧ session (snd result) !! "page" = Some (VStr "continuation")
     ∧ strip evaluation ≠ "" ∧ strip action ≠ "" ∧ strip summary ≠ ""
     ∧ ∃ (i : nat) (r r' : record),
         records_of w !! i = Some r
         ∧ records_of (snd result) = <[i := r']> (records_of w)
         ∧ is_completed r' = true
         ∧ r' !! "evaluation" = Some (VStr (strip evaluation))
         ∧ r' !! "action" = Some (VStr (strip action))
         ∧ r' !! "summary" = Some (VStr (strip summary))).
Proof.
  cbv zeta. unfold form_submit.
  destruct (validation_errors strip h action evaluation summary) as [|e errors]
    eqn:Hvalid; [|by left].
  apply validation_passed in Hvalid as (Ha & He & Hs).
  destruct (handle_completion _ _ _ _ _ _ w) as [[] w1] eqn:Hcall; cbn [fst snd].
  - right. split; [done|].
    split; [cbn [set_session session]; by rewrite lookup_insert_eq|].
    repeat (split; [by apply not_blank|]).
    apply handle_completion_success in Hcall
      as (records & i & r & d & Hfile & Htarget & _ & _ & Hfile1).
    destruct (find_target_spec _ _ _ _ Htarget) as [Hi _].
    exists i, r, (complete_record (time_time o) d
                    (evaluation_data_of strip action evaluation summary) r).
    unfold records_of. cbn [set_session file]. rewrite Hfile, Hfile1.
    cbn [default from_option id]. split; [done|]. split; [done|].
    unfold is_completed, get, complete_record, get_or, evaluation_data_of.
    by simplify_map_eq.
  - left. split; [done|].
    pose proof (handle_completion_failure strftime repr o p s _ w w1 Hcall) as Hf.
    split; [done|].
    revert Hcall. unfold handle_completion, load_evaluation_records.
    destruct (file w) as [records|]; [|by intros [= <-]].
    destruct records as [|r0 rest] eqn:Hrecords; [by intros [= <-]|].
    rewrite <- Hrecords.
    destruct (find_target _ records) as [[i r]|]; [|by intros [= <-]].
    destruct (work_duration_of _ _) as [d|]; [|by intros [= <-]].
    unfold save_evaluation_records. destruct (disk_writable w); [|by intros [= <-]].
    by destruct (save_completion_to_sheets _ _ _ _ _).
Qed.

End Submission.
